(** * Analytics routes of the delivery backend ([routes/analytics.js])

    A shallow embedding of the three admin-only reporting handlers
    ([GET /summary], [GET /orders-chart], [GET /orders]) and of the helper
    [getDateRange], together with the parts of the JavaScript run time and
    of the document store they rely on:

    - query-string numbers ([parseInt], [-], [*], [/], [Math.ceil]);
    - the [Date] arithmetic of ECMAScript ([setHours], [setDate], ...);
    - IEEE 754 binary64 revenue figures ([toFixed], [parseFloat]);
    - the store queries ([countDocuments], [aggregate], [distinct], [find]);
    - the [try { ... } catch] discipline of the handlers, as an error monad
      threading the log of the queries issued so far.

    Definitions come first, the verified properties follow. *)

From Stdlib Require Import ZArith QArith Qround Lia Bool List.
From Stdlib Require Import Ascii String.
From Stdlib Require Import Sorted Permutation.
From Stdlib Require Import SpecFloat.
From Stdlib Require Import DecimalString DecimalPos DecimalN.
Import ListNotations.

Local Open Scope string_scope.
Local Open Scope Z_scope.

(* ================================================================== *)
(** * Part I. The model *)
(* ================================================================== *)

(** ** Rounding to binary64

    A JavaScript Number is an IEEE 754 binary64 value.  [round num den] is
    the binary64 value nearest to the positive rational [num / den], the
    one with the even significand when two are as near (the rounding of
    every conversion from text): [Finite m e] is [m * 2^e] with
    [2^52 <= m < 2^53], or with [e = emin] for a subnormal. *)

Module Binary64.

Definition emin : Z := -1074.
Definition emax : Z := 971.

(** [num / den / 2^e] as the quotient of two integers. *)
Definition scaled_num (num e : Z) : Z := num * 2 ^ Z.max (- e) 0.
Definition scaled_den (den e : Z) : Z := den * 2 ^ Z.max e 0.

(** The integer nearest to [A / B], the even one of two. *)
Definition round_half_even (A B : Z) : Z :=
  match Z.compare (2 * (A mod B)) B with
  | Lt => A / B
  | Gt => A / B + 1
  | Eq => if Z.even (A / B) then A / B else A / B + 1
  end.

Inductive rounded : Type :=
| Zero
| Overflow
| Finite (m : positive) (e : Z).

(** The exponent [e] with [2^52 <= num / den / 2^e < 2^53], or [emin] when
    that one is smaller. *)
Definition exponent (num den : Z) : Z :=
  let e0 := Z.log2 num - Z.log2 den - 53 in
  let en :=
    if scaled_num num e0 <? 2 ^ 53 * scaled_den den e0 then e0 else e0 + 1 in
  Z.max en emin.

Definition round (num den : positive) : rounded :=
  let e := exponent (Z.pos num) (Z.pos den) in
  let m := round_half_even (scaled_num (Z.pos num) e)
                           (scaled_den (Z.pos den) e) in
  let '(m, e) := if m =? 2 ^ 53 then (2 ^ 52, e + 1) else (m, e) in
  match m with
  | Z.pos p => if emax <? e then Overflow else Finite p e
  | _ => Zero
  end.

(** [m * 2^e] is written in the one way binary64 has for it: a
    significand of 53 bits and an exponent from -1074 to 971, or a shorter
    significand with the exponent -1074. *)
Definition normalised (m : positive) (e : Z) : Prop :=
  (2 ^ 52 <= Z.pos m < 2 ^ 53 /\ -1074 <= e <= 971) \/
  (Z.pos m < 2 ^ 52 /\ e = -1074).

(** [m * 2^e] is the binary64 value nearest to [num / den]: it is half a
    unit in the last place away at most, has an even significand when it is
    exactly that far, and is a quarter of a unit away at most when it is the
    least value of its binade and lies above [num / den], the values below
    being twice as dense.  The value, the quotient and the unit [2^e] are
    compared after a multiplication by [den] and by [2^-e] for a negative
    [e], which makes integers of them. *)
Definition nearest (num den : Z) (m : positive) (e : Z) : Prop :=
  let value := Z.pos m * (den * 2 ^ Z.max e 0) in
  let quotient := num * 2 ^ Z.max (- e) 0 in
  let unit := den * 2 ^ Z.max e 0 in
  2 * Z.abs (value - quotient) <= unit /\
  (2 * Z.abs (value - quotient) = unit -> Z.even (Z.pos m) = true) /\
  (Z.pos m = 2 ^ 52 -> -1074 < e -> 4 * (value - quotient) <= unit).

End Binary64.

(** ** Numbers of the pagination path

    Every number computed from [page] and [limit] is an integer, a quotient
    of two integers, a zero of either sign, [NaN] or an infinity.  [Fin q]
    is the number [q], and [+0] when [q] is zero; [NegZero] is [-0].
    [parseInt] rounds what it reads to binary64.  The operations follow
    IEEE 754 for the special values and the signs of zero and are exact on
    the other numbers: the handlers apply them to the integers read from
    the request and to a count of orders, and below 2^53 in magnitude
    binary64 represents the integers exactly, while the ceiling of a
    quotient of two such integers is not affected by the rounding of the
    quotient. *)

Module Number.

Inductive number : Type :=
| NaN
| Infinity (negative : bool)
| NegZero
| Fin (q : Q).

Definition of_Z (z : Z) : number := Fin (inject_Z z).
Definition of_nat (n : nat) : number := of_Z (Z.of_nat n).

Definition is_zero (q : Q) : bool := Qnum q =? 0.
Definition is_neg (q : Q) : bool := Qnum q <? 0.

(** The zero of the given sign. *)
Definition zero (negative : bool) : number :=
  if negative then NegZero else Fin 0%Q.

Definition isNaN (x : number) : bool :=
  match x with NaN => true | _ => false end.

(** [x - y] *)
Definition sub (x y : number) : number :=
  match x, y with
  | NaN, _ | _, NaN => NaN
  | Infinity a, Infinity b => if Bool.eqb a b then NaN else Infinity a
  | Infinity a, _ => Infinity a
  | _, Infinity b => Infinity (negb b)
  | NegZero, NegZero => Fin 0%Q
  | NegZero, Fin q => if is_zero q then NegZero else Fin (Qred (- q)%Q)
  | Fin p, NegZero => Fin p
  | Fin p, Fin q => Fin (Qred (p - q)%Q)
  end.

(** [x * y] *)
Definition mul (x y : number) : number :=
  match x, y with
  | NaN, _ | _, NaN => NaN
  | Infinity a, Infinity b => Infinity (xorb a b)
  | Infinity a, Fin q | Fin q, Infinity a =>
      if is_zero q then NaN else Infinity (xorb a (is_neg q))
  | Infinity _, NegZero | NegZero, Infinity _ => NaN
  | NegZero, NegZero => Fin 0%Q
  | NegZero, Fin q | Fin q, NegZero => zero (negb (is_neg q))
  | Fin p, Fin q =>
      if is_zero p || is_zero q then zero (xorb (is_neg p) (is_neg q))
      else Fin (Qred (p * q)%Q)
  end.

(** [x / y] *)
Definition div (x y : number) : number :=
  match x, y with
  | NaN, _ | _, NaN => NaN
  | Infinity _, Infinity _ => NaN
  | Infinity a, Fin q => Infinity (xorb a (is_neg q))
  | Infinity a, NegZero => Infinity (negb a)
  | Fin p, Infinity b => zero (xorb (is_neg p) b)
  | NegZero, Infinity b => zero (negb b)
  | NegZero, NegZero => NaN
  | NegZero, Fin q => if is_zero q then NaN else zero (negb (is_neg q))
  | Fin p, NegZero => if is_zero p then NaN else Infinity (negb (is_neg p))
  | Fin p, Fin q =>
      if is_zero q then
        if is_zero p then NaN else Infinity (is_neg p)
      else if is_zero p then zero (is_neg q)
      else Fin (Qred (p / q)%Q)
  end.

(** [Math.ceil(x)]: a negative number above -1 gives [-0]. *)
Definition Math_ceil (x : number) : number :=
  match x with
  | Fin q =>
      if (Qceiling q =? 0) && is_neg q then NegZero else of_Z (Qceiling q)
  | _ => x
  end.


(** The number [m * 2^e], negated when [negative]. *)
Definition of_binary (negative : bool) (m : positive) (e : Z) : number :=
  let z := if negative then Z.neg m else Z.pos m in
  if 0 <=? e then of_Z (z * 2 ^ e)
  else Fin (Qred (Qmake z (Z.to_pos (2 ^ (- e))))).

(** The Number for the integer [n >= 0], negated when [negative]: [n]
    rounded to binary64, an infinity beyond the largest finite value, and
    the zero of that sign for 0. *)
Definition of_integer (negative : bool) (n : Z) : number :=
  match n with
  | Z.pos p =>
      match Binary64.round p 1 with
      | Binary64.Finite m e => of_binary negative m e
      | Binary64.Overflow => Infinity negative
      | Binary64.Zero => zero negative
      end
  | _ => zero negative
  end.

End Number.
Export Number.

(** ** [parseInt]

    Strings are sequences of bytes, in UTF-8.  [trim_start] strips the
    white space and the line terminators of ECMAScript: TAB, LF, VT, FF,
    CR and SP, U+00A0, U+1680, U+2000 to U+200A, U+2028, U+2029, U+202F,
    U+205F, U+3000 and U+FEFF. *)

Definition is_white_space (c : ascii) : bool :=
  let n := nat_of_ascii c in
  ((9 <=? n) && (n <=? 13))%nat || (n =? 32)%nat.

(** U+00A0 is [C2 A0]. *)
Definition is_white_space2 (c1 c2 : ascii) : bool :=
  ((nat_of_ascii c1 =? 194) && (nat_of_ascii c2 =? 160))%nat.

(** U+1680 is [E1 9A 80], U+2000 to U+200A are [E2 80 80] to [E2 80 8A],
    U+2028, U+2029 and U+202F are [E2 80 A8], [E2 80 A9] and [E2 80 AF],
    U+205F is [E2 81 9F], U+3000 is [E3 80 80] and U+FEFF is [EF BB BF]. *)
Definition is_white_space3 (c1 c2 c3 : ascii) : bool :=
  let n1 := nat_of_ascii c1 in
  let n2 := nat_of_ascii c2 in
  let n3 := nat_of_ascii c3 in
  ((n1 =? 225) && (n2 =? 154) && (n3 =? 128)
   || (n1 =? 226) && (n2 =? 128) &&
      ((128 <=? n3) && (n3 <=? 138) || (n3 =? 168) || (n3 =? 169)
       || (n3 =? 175))
   || (n1 =? 226) && (n2 =? 129) && (n3 =? 159)
   || (n1 =? 227) && (n2 =? 128) && (n3 =? 128)
   || (n1 =? 239) && (n2 =? 187) && (n3 =? 191))%nat.

Fixpoint trim_start (s : string) : string :=
  match s with
  | String c1 s1 =>
      if is_white_space c1 then trim_start s1
      else
        match s1 with
        | String c2 s2 =>
            if is_white_space2 c1 c2 then trim_start s2
            else
              match s2 with
              | String c3 s3 =>
                  if is_white_space3 c1 c2 c3 then trim_start s3 else s
              | EmptyString => s
              end
        | EmptyString => s
        end
  | EmptyString => EmptyString
  end.

(** The value of [c] as a digit: [0]-[9], then [a]-[z] or [A]-[Z] for 10-35. *)
Definition digit_value (c : ascii) : option Z :=
  let n := Z.of_nat (nat_of_ascii c) in
  if (48 <=? n) && (n <=? 57) then Some (n - 48)
  else if (97 <=? n) && (n <=? 122) then Some (n - 87)
  else if (65 <=? n) && (n <=? 90) then Some (n - 55)
  else None.

(** The longest prefix of [s] made of digits of radix [R], read as an
    integer; [acc] is [None] until a first digit has been read. *)
Fixpoint parse_digits (R : Z) (s : string) (acc : option Z) : option Z :=
  match s with
  | EmptyString => acc
  | String c s' =>
      match digit_value c with
      | Some d =>
          if d <? R
          then parse_digits R s' (Some (R * match acc with Some a => a | None => 0 end + d))
          else acc
      | None => acc
      end
  end.

(** [parseInt(s)] for a string [s], no radix given: the sign, the radix 16
    after [0x] or [0X] and 10 otherwise, then the digits; [NaN] when there
    is no digit. *)
Definition parseInt_string (s : string) : number :=
  let S := trim_start s in
  let '(negative, S1) :=
    match S with
    | String "-" r => (true, r)
    | String "+" r => (false, r)
    | _ => (false, S)
    end in
  let '(R, S2) :=
    match S1 with
    | String "0" (String "x" r) => (16, r)
    | String "0" (String "X" r) => (16, r)
    | _ => (10, S1)
    end in
  match parse_digits R S2 None with
  | None => NaN
  | Some n => of_integer negative n
  end.

(** A query parameter once its default has been applied: the string of the
    query string, or the integer literal of the destructuring default. *)
Inductive param : Type :=
| PInt (z : Z)
| PStr (s : string).

Definition Z_to_string (z : Z) : string :=
  NilZero.string_of_int (Z.to_int z).

Definition ToString (v : param) : string :=
  match v with
  | PInt z => Z_to_string z
  | PStr s => s
  end.

(** [parseInt(v)]: the argument is first converted to a string. *)
Definition parseInt (v : param) : number := parseInt_string (ToString v).

(** [const { x = d } = req.query]: the default applies when [x] is absent. *)
Definition default_to {A : Type} (d : A) (x : option A) : A :=
  match x with Some v => v | None => d end.

(** ** Dates

    A [Date] object holds a time value: a number of milliseconds since the
    epoch, or [NaN] (an invalid date), here [None].  The abstract
    operations are those of ECMAScript (section "Date Objects"); the host's
    clock and time zone are the two fields of [Clock]. *)

Module JSDate.

Definition time_value : Type := option Z.

Record Clock : Type := {
  (** the instant read by [new Date()] *)
  now : Z;
  (** [LocalTZA(t, isUTC)]: the offset of local time, in milliseconds,
      at the UTC instant [t] ([isUTC = true]) or at the local time [t] *)
  LocalTZA : Z -> bool -> Z
}.

Definition msPerDay : Z := 86400000.
Definition msPerHour : Z := 3600000.
Definition msPerMinute : Z := 60000.
Definition msPerSecond : Z := 1000.

Definition Day (t : Z) : Z := t / msPerDay.
Definition TimeWithinDay (t : Z) : Z := t mod msPerDay.

Definition DayFromYear (y : Z) : Z :=
  365 * (y - 1970) + (y - 1969) / 4 - (y - 1901) / 100 + (y - 1601) / 400.

Definition DaysInYear (y : Z) : Z :=
  if negb (y mod 4 =? 0) then 365
  else if negb (y mod 100 =? 0) then 366
  else if negb (y mod 400 =? 0) then 365
  else 366.

(** The year of day number [d]: the largest [y] with [DayFromYear y <= d].
    The estimate from the mean length of a year is off by one at most. *)
Definition YearFromDay (d : Z) : Z :=
  let y0 := 1970 + (400 * d) / 146097 in
  if DayFromYear (y0 + 1) <=? d then y0 + 1
  else if d <? DayFromYear y0 then y0 - 1
  else y0.

Definition YearFromTime (t : Z) : Z := YearFromDay (Day t).

Definition InLeapYear (t : Z) : Z :=
  if DaysInYear (YearFromTime t) =? 366 then 1 else 0.

Definition DayWithinYear (t : Z) : Z := Day t - DayFromYear (YearFromTime t).

(** The day of the year on which month [m] (0 = January) starts. *)
Definition month_start (leap m : Z) : Z :=
  match m with
  | 0 => 0
  | 1 => 31
  | 2 => 59 + leap
  | 3 => 90 + leap
  | 4 => 120 + leap
  | 5 => 151 + leap
  | 6 => 181 + leap
  | 7 => 212 + leap
  | 8 => 243 + leap
  | 9 => 273 + leap
  | 10 => 304 + leap
  | _ => 334 + leap
  end.

Definition MonthFromTime (t : Z) : Z :=
  let d := DayWithinYear t in
  let leap := InLeapYear t in
  if d <? 31 then 0
  else if d <? 59 + leap then 1
  else if d <? 90 + leap then 2
  else if d <? 120 + leap then 3
  else if d <? 151 + leap then 4
  else if d <? 181 + leap then 5
  else if d <? 212 + leap then 6
  else if d <? 243 + leap then 7
  else if d <? 273 + leap then 8
  else if d <? 304 + leap then 9
  else if d <? 334 + leap then 10
  else 11.

Definition DateFromTime (t : Z) : Z :=
  DayWithinYear t - month_start (InLeapYear t) (MonthFromTime t) + 1.

Definition LocalTime (clk : Clock) (t : Z) : Z := t + LocalTZA clk t true.
Definition UTC (clk : Clock) (t : Z) : Z := t - LocalTZA clk t false.

Definition MakeTime (hour min sec ms : Z) : Z :=
  hour * msPerHour + min * msPerMinute + sec * msPerSecond + ms.

(** [MakeDay(year, month, date)]: the day number of the first of the
    month, plus [date - 1]. *)
Definition MakeDay (year month date : Z) : Z :=
  let ym := year + month / 12 in
  let mn := month mod 12 in
  let leap := if DaysInYear ym =? 366 then 1 else 0 in
  DayFromYear ym + month_start leap mn + date - 1.

Definition MakeDate (day time : Z) : Z := day * msPerDay + time.

Definition TimeClip (t : Z) : time_value :=
  if Z.abs t >? 8640000000000000 then None else Some t.

(** [new Date()] *)
Definition Date_now (clk : Clock) : time_value := Some (now clk).

(** [new Date(value)] for a number [value] *)
Definition Date_of_value (v : time_value) : time_value :=
  match v with
  | Some t => TimeClip t
  | None => None
  end.

(** [d.setHours(hour, min, sec, ms)]: the new time value of [d], which is
    also the value returned. *)
Definition setHours (clk : Clock) (d : time_value) (hour min sec ms : Z)
  : time_value :=
  match d with
  | None => None
  | Some t0 =>
      let t := LocalTime clk t0 in
      let date := MakeDate (Day t) (MakeTime hour min sec ms) in
      TimeClip (UTC clk date)
  end.

(** [d.getDate()] *)
Definition getDate (clk : Clock) (d : time_value) : option Z :=
  match d with
  | None => None
  | Some t => Some (DateFromTime (LocalTime clk t))
  end.

(** [d.setDate(date)]; [date] is [NaN] when [None]. *)
Definition setDate (clk : Clock) (d : time_value) (date : option Z)
  : time_value :=
  match d, date with
  | Some t0, Some dt =>
      let t := LocalTime clk t0 in
      let newDate :=
        MakeDate (MakeDay (YearFromTime t) (MonthFromTime t) dt)
                 (TimeWithinDay t) in
      TimeClip (UTC clk newDate)
  | _, _ => None
  end.

End JSDate.
Export JSDate.

(** [v === s] for a string literal [s] and a value [v] that is a string or
    [undefined]. *)
Definition strict_eq (v : option string) (s : string) : bool :=
  match v with
  | Some x => String.eqb x s
  | None => false
  end.

(** [getDateRange(range)]; [range] is [None] when [undefined].  The two
    setters also update [now], which is not read again. *)
Definition getDateRange (clk : Clock) (range : option string) : time_value :=
  let now := Date_now clk in
  if strict_eq range "today" then
    Date_of_value (setHours clk now 0 0 0 0)
  else if strict_eq range "7days" then
    Date_of_value
      (setDate clk now (option_map (fun d => d - 7) (getDate clk now)))
  else
    Date_of_value (Some 0).

(** ** Revenue figures: IEEE 754 binary64

    Order totals, their sums and the revenue figures of the responses are
    JavaScript Numbers whose fraction matters, so they are kept as binary64
    values ([spec_float], precision 53, [emax] 1024) with the arithmetic of
    [SpecFloat].  A finite value [S754_finite s m e] is [(-1)^s * m * 2^e]. *)

Module Double.

Definition prec : Z := 53.
Definition emax : Z := 1024.

Definition double : Type := spec_float.

Definition NaN : double := S754_nan.
Definition zero : double := S754_zero false.

Definition add : double -> double -> double := SFadd prec emax.

(** The binary64 value nearest to the integer [z]. *)
Definition of_Z (z : Z) : double := binary_normalize prec emax z 0 false.

(** A rounded magnitude with its sign. *)
Definition of_rounded (neg : bool) (r : Binary64.rounded) : double :=
  match r with
  | Binary64.Zero => S754_zero neg
  | Binary64.Overflow => S754_infinity neg
  | Binary64.Finite m e => S754_finite neg m e
  end.

(** The binary64 value nearest to [m * 10^e10] (negated when [neg]): the
    value a decimal literal denotes. *)
Definition of_decimal (neg : bool) (m : N) (e10 : Z) : double :=
  match m with
  | N0 => S754_zero neg
  | Npos p =>
      of_rounded neg
        (if 0 <=? e10
         then Binary64.round (p * Z.to_pos (10 ^ e10)) 1
         else Binary64.round p (Z.to_pos (10 ^ (- e10))))
  end.

(** The integer nearest to [m * 2^e * 10^f], the larger one of two. *)
Definition scaled_round (m : positive) (e : Z) (f : nat) : N :=
  let s := Zpos m * 10 ^ Z.of_nat f in
  Z.to_N (if 0 <=? e then s * 2 ^ e
          else (2 * s + 2 ^ (- e)) / 2 ^ (1 - e)).

(** [10^21 <= m * 2^e] *)
Definition at_least_1e21 (m : positive) (e : Z) : bool :=
  if 0 <=? e then 10 ^ 21 <=? Zpos m * 2 ^ e
  else 10 ^ 21 * 2 ^ (- e) <=? Zpos m.

(** The digits of [n] in decimal: ["0"] for zero. *)
Definition digits (n : N) : Decimal.uint := N.to_uint n.

(** Steps 11.a-11.c of [Number.prototype.toFixed]: the digits of [n],
    padded on the left with zeros to [f + 1] digits at least, and a
    point before the last [f] of them. *)
Definition fixed_digits (n : N) (f : nat) : string :=
  let m := digits n in
  let k := Decimal.nb_digits m in
  let m := if (k <=? f)%nat then Nat.iter (f + 1 - k) Decimal.D0 m else m in
  let k := Decimal.nb_digits m in
  match f with
  | O => NilEmpty.string_of_uint m
  | _ =>
      NilEmpty.string_of_uint (Decimal.del_tail f m) ++ "." ++
      NilEmpty.string_of_uint (Decimal.del_head (k - f) m)
  end.

(** [Number::toString] of a finite [x = m * 2^e >= 10^21]: the shortest
    digit string [s] of [k] digits with [s * 10^(n-k)] rounding to [x],
    in exponent notation.  [search fuel k] tries [k], [k + 1], ... *)
Fixpoint search (fuel : nat) (k : Z) (v n : Z) (x : double) : Z * Z :=
  let scale := 10 ^ (n - k) in
  let lo := v / scale in
  let hi := lo + 1 in
  match fuel with
  | O => (lo, k)
  | S fuel' =>
      let ok_lo := SFeqb (of_Z (lo * scale)) x in
      let ok_hi := (hi <? 10 ^ k) && SFeqb (of_Z (hi * scale)) x in
      if ok_lo && ok_hi then
        match Z.compare (v - lo * scale) (hi * scale - v) with
        | Lt => (lo, k)
        | Gt => (hi, k)
        | Eq => if Z.even lo then (lo, k) else (hi, k)
        end
      else if ok_lo then (lo, k)
      else if ok_hi then (hi, k)
      else search fuel' (k + 1) v n x
  end.

Definition to_string_large (m : positive) (e : Z) : string :=
  let v := Zpos m * 2 ^ e in
  let n := Z.of_nat (Decimal.nb_digits (digits (Z.to_N v))) in
  let '(s, _) := search 17 1 v n (S754_finite false m e) in
  let ds := NilEmpty.string_of_uint (digits (Z.to_N s)) in
  let mant :=
    match ds with
    | String c EmptyString => ds
    | String c rest => String c ("." ++ rest)
    | EmptyString => ds
    end in
  mant ++ "e+" ++ NilEmpty.string_of_uint (digits (Z.to_N (n - 1))).

(** [x.toFixed(f)], for [0 <= f <= 100] *)
Definition toFixed (x : double) (f : nat) : string :=
  match x with
  | S754_nan => "NaN"
  | S754_infinity false => "Infinity"
  | S754_infinity true => "-Infinity"
  | S754_zero _ => fixed_digits 0 f
  | S754_finite neg m e =>
      (if neg then "-" else "") ++
      (if at_least_1e21 m e then to_string_large m e
       else fixed_digits (scaled_round m e f) f)
  end.

(** The longest prefix of [s] made of decimal digits, and what follows. *)
Fixpoint read_uint (s : string) : Decimal.uint * string :=
  match s with
  | EmptyString => (Decimal.Nil, s)
  | String c r =>
      let digit (D : Decimal.uint -> Decimal.uint) :=
        let '(d, rest) := read_uint r in (D d, rest) in
      match c with
      | "0"%char => digit Decimal.D0
      | "1"%char => digit Decimal.D1
      | "2"%char => digit Decimal.D2
      | "3"%char => digit Decimal.D3
      | "4"%char => digit Decimal.D4
      | "5"%char => digit Decimal.D5
      | "6"%char => digit Decimal.D6
      | "7"%char => digit Decimal.D7
      | "8"%char => digit Decimal.D8
      | "9"%char => digit Decimal.D9
      | _ => (Decimal.Nil, s)
      end
  end.

Definition read_sign (s : string) : bool * string :=
  match s with
  | String "-" r => (true, r)
  | String "+" r => (false, r)
  | _ => (false, s)
  end.

(** [ExponentPart]: [e] or [E], an optional sign and one digit at least;
    the exponent is 0 when there is no such part. *)
Definition read_exponent (s : string) : Z :=
  let body (r : string) :=
    let '(neg, r1) := read_sign r in
    let '(d, _) := read_uint r1 in
    let v := Z.of_N (N.of_uint d) in
    if neg then - v else v in
  match s with
  | String "e" r => body r
  | String "E" r => body r
  | _ => 0
  end.

(** [parseFloat(s)]: the longest prefix of the trimmed string that is a
    decimal literal, [NaN] when there is none. *)
Definition parseFloat (s : string) : double :=
  let '(neg, t1) := read_sign (trim_start s) in
  if String.prefix "Infinity" t1 then S754_infinity neg
  else
    let '(a, t2) := read_uint t1 in
    let '(b, t3) :=
      match t2 with
      | String "." r => read_uint r
      | _ => (Decimal.Nil, t2)
      end in
    match a, b with
    | Decimal.Nil, Decimal.Nil => NaN
    | _, _ =>
        of_decimal neg (N.of_uint (Decimal.app a b))
                   (read_exponent t3 - Z.of_nat (Decimal.nb_digits b))
    end.

End Double.
Export Double(double).

(** ** Generic list helpers *)

(** Stable insertion sort for a boolean order [leb]. *)
Section Sort.
Context {A : Type} (leb : A -> A -> bool).

Fixpoint insert (x : A) (l : list A) : list A :=
  match l with
  | [] => [x]
  | y :: l' => if leb x y then x :: l else y :: insert x l'
  end.

Definition sort (l : list A) : list A := fold_right insert [] l.
End Sort.

(** ** The document store *)

Inductive result (A : Type) : Type :=
| Ok (a : A)
| Err (message : string).
Arguments Ok {A} a.
Arguments Err {A} message.

Definition ObjectId : Type := Z.

(** Modelled from the spec: the [User] model ([models/User.js] is not part
    of the sources): identifier, name, email and role. *)
Module User.
Record t : Type := mk {
  _id : ObjectId;
  name : string;
  email : string;
  role : string
}.
End User.

(** Modelled from the spec: the [Order] model ([models/Order.js] is not part
    of the sources): identifier, owning user reference, line items,
    monetary total, status and creation timestamp.  The line items are
    carried through untouched and kept opaque. *)
Module Order.
Record t : Type := mk {
  _id : ObjectId;
  user_id : ObjectId;
  items : list string;
  total : double;
  status : string;
  createdAt : Z
}.
End Order.

(** What [populate("user_id", "name email")] puts in place of the
    reference: the selected fields, next to the identifier that an
    inclusive projection always keeps. *)
Module PopulatedUser.
Record t : Type := mk {
  _id : ObjectId;
  name : string;
  email : string
}.
End PopulatedUser.

(** An order whose [user_id] has been populated; [null] (here [None]) when
    no user has that identifier. *)
Module PopulatedOrder.
Record t : Type := mk {
  _id : ObjectId;
  user_id : option PopulatedUser.t;
  items : list string;
  total : double;
  status : string;
  createdAt : Z
}.
End PopulatedOrder.

(** The filter [{ createdAt: { $gte: startDate } }], with [status: s]
    added when [status_eq] is [Some s]. *)
Module Filter.
Record t : Type := mk {
  createdAt_gte : time_value;
  status_eq : option string
}.
End Filter.

(** The rows of the three aggregations. *)
Module RevenueRow.
(** [{ _id: null, total }] *)
Record t : Type := mk { total : double }.
End RevenueRow.

Module StatusRow.
(** [{ _id, count }] *)
Record t : Type := mk { _id : string; count : nat }.
End StatusRow.

Module DailyRow.
(** [{ _id, count, revenue }] *)
Record t : Type := mk { _id : string; count : nat; revenue : double }.
End DailyRow.

(** The queries the handlers send. *)
Inductive DbQuery : Type :=
| CountDocuments (f : Filter.t)
    (** [Order.countDocuments(f)] *)
| AggregateRevenue (f : Filter.t)
    (** [$match f], [$group { _id: null, total: { $sum: "$total" } }] *)
| DistinctUserId (f : Filter.t)
    (** [Order.distinct("user_id", f)] *)
| AggregateStatus (f : Filter.t)
    (** [$match f], [$group { _id: "$status", count: { $sum: 1 } }] *)
| AggregateDaily (f : Filter.t)
    (** [$match f], [$group] by [$dateToString "%Y-%m-%d"] of [createdAt]
        with [count] and [revenue], [$sort { _id: 1 }] *)
| Find (f : Filter.t) (skip limit : number).
    (** [Order.find(f).sort({ createdAt: -1 }).skip(skip).limit(limit)
        .populate("user_id", "name email")] *)

(** A store, as one request finds it: its two collections, the failures
    it is going to raise ([fault i q] is the failure of the [i]-th query of
    the request, when that query is [q]), the order in which it is going to
    put the orders that a sort leaves tied (by increasing [tie_rank], which
    is the store's business and may differ from one request to the next),
    and its answer to a [find] whose [skip] or [limit] is not a
    non-negative integer, which depends on the driver. *)
Record Store : Type := {
  orders : list Order.t;
  users : list User.t;
  fault : nat -> DbQuery -> option string;
  tie_rank : Order.t -> Z;
  find_irregular :
    Filter.t -> number -> number -> result (list PopulatedOrder.t)
}.

(** The answers of the store.  The queries read one snapshot of the
    collections.  Orders of equal [createdAt] come in the order of their
    [tie_rank], a [$sum] adds the totals in that order with binary64 additions, date keys
    are taken in UTC, and a date bound that is not a valid date is rejected
    for every kind of query. *)
Module Mongo.

Definition cast_error : string := "Cast to date failed".
Definition year_error : string :=
  "Could not convert date to string: year outside the range 0-9999".

(** [createdAt >= start], and [status = s] when the filter has one. *)
Definition matches (start : Z) (status_eq : option string) (o : Order.t)
  : bool :=
  (start <=? Order.createdAt o) &&
  match status_eq with
  | Some s => String.eqb (Order.status o) s
  | None => true
  end.

(** The orders selected by a filter; an invalid date is rejected. *)
Definition select (st : Store) (f : Filter.t) : result (list Order.t) :=
  match Filter.createdAt_gte f with
  | Some start =>
      Ok (filter (matches start (Filter.status_eq f)) (orders st))
  | None => Err cast_error
  end.

Definition map_result {A B : Type} (g : A -> B) (r : result A) : result B :=
  match r with
  | Ok a => Ok (g a)
  | Err e => Err e
  end.

(** [$sum] of the totals, in document order. *)
Definition sum_totals (l : list Order.t) : double :=
  fold_left (fun acc o => Double.add acc (Order.total o)) l Double.zero.

Definition countDocuments (st : Store) (f : Filter.t) : result nat :=
  map_result (@List.length _) (select st f).

(** One row for the whole selection, none when it is empty. *)
Definition aggregate_revenue (st : Store) (f : Filter.t)
  : result (list RevenueRow.t) :=
  map_result
    (fun l => match l with
              | [] => []
              | _ => [RevenueRow.mk (sum_totals l)]
              end)
    (select st f).

Definition distinct_user_id (st : Store) (f : Filter.t)
  : result (list ObjectId) :=
  map_result (fun l => nodup Z.eq_dec (map Order.user_id l)) (select st f).

(** [$group { _id: "$status", count: { $sum: 1 } }]: the row of the
    status is incremented, or appended when there is none. *)
Fixpoint count_status (s : string) (rows : list StatusRow.t)
  : list StatusRow.t :=
  match rows with
  | [] => [StatusRow.mk s 1]
  | r :: rows' =>
      if String.eqb (StatusRow._id r) s
      then StatusRow.mk s (StatusRow.count r + 1) :: rows'
      else r :: count_status s rows'
  end.

Definition group_status (l : list Order.t) : list StatusRow.t :=
  fold_left (fun rows o => count_status (Order.status o) rows) l [].

Definition aggregate_status (st : Store) (f : Filter.t)
  : result (list StatusRow.t) :=
  map_result group_status (select st f).

(** [$dateToString] with format [%Y-%m-%d], in UTC. *)
Definition digit_char (n : Z) : ascii :=
  ascii_of_nat (48 + Z.to_nat (n mod 10)).

Definition pad2 (n : Z) : string :=
  String (digit_char (n / 10)) (String (digit_char n) "").

Definition pad4 (n : Z) : string :=
  String (digit_char (n / 1000)) (String (digit_char (n / 100)) (pad2 n)).

Definition format_Ymd (t : Z) : string :=
  pad4 (YearFromTime t) ++ "-" ++ pad2 (MonthFromTime t + 1) ++ "-" ++
  pad2 (DateFromTime t).

Definition dateToString (t : Z) : result string :=
  let y := YearFromTime t in
  if (0 <=? y) && (y <=? 9999) then Ok (format_Ymd t) else Err year_error.

(** The row of the day gets one more order and its total, or is
    appended when there is none. *)
Fixpoint add_daily (k : string) (x : double) (rows : list DailyRow.t)
  : list DailyRow.t :=
  match rows with
  | [] => [DailyRow.mk k 1 (Double.add Double.zero x)]
  | r :: rows' =>
      if String.eqb (DailyRow._id r) k
      then DailyRow.mk k (DailyRow.count r + 1)
                       (Double.add (DailyRow.revenue r) x) :: rows'
      else r :: add_daily k x rows'
  end.

Fixpoint group_daily (l : list Order.t) (rows : list DailyRow.t)
  : result (list DailyRow.t) :=
  match l with
  | [] => Ok rows
  | o :: l' =>
      match dateToString (Order.createdAt o) with
      | Ok k => group_daily l' (add_daily k (Order.total o) rows)
      | Err e => Err e
      end
  end.

Definition daily_leb (a b : DailyRow.t) : bool :=
  String.leb (DailyRow._id a) (DailyRow._id b).

Definition aggregate_daily (st : Store) (f : Filter.t)
  : result (list DailyRow.t) :=
  match select st f with
  | Ok l => map_result (sort daily_leb) (group_daily l [])
  | Err e => Err e
  end.

(** [sort({ createdAt: -1 })]: newest first, and by the rank that the
    store gives them for two orders of the same [createdAt]. *)
Definition newest_first (st : Store) (a b : Order.t) : bool :=
  (Order.createdAt b <? Order.createdAt a)
  || (Order.createdAt b =? Order.createdAt a)
     && (tie_rank st a <=? tie_rank st b).

Definition populate (st : Store) (o : Order.t) : PopulatedOrder.t :=
  PopulatedOrder.mk
    (Order._id o)
    (option_map
       (fun u => PopulatedUser.mk (User._id u) (User.name u) (User.email u))
       (find (fun u => User._id u =? Order.user_id o) (users st)))
    (Order.items o) (Order.total o) (Order.status o) (Order.createdAt o).

(** A non-negative integer, when the number is one; [-0] is left to the
    driver.  The store's own bound on [skip] and [limit] (64-bit integers)
    is not modelled: a count is taken whatever its size. *)
Definition as_count (x : number) : option nat :=
  match x with
  | Fin q =>
      if (Zpos (Qden q) =? 1) && (0 <=? Qnum q)
      then Some (Z.to_nat (Qnum q)) else None
  | _ => None
  end.

(** A limit of 0 is no limit. *)
Definition take (n : nat) {A : Type} (l : list A) : list A :=
  match n with
  | O => l
  | _ => firstn n l
  end.

Definition find_orders (st : Store) (f : Filter.t) (skip limit : number)
  : result (list PopulatedOrder.t) :=
  match as_count skip, as_count limit with
  | Some s, Some n =>
      map_result
        (fun l => map (populate st) (take n (skipn s (sort (newest_first st) l))))
        (select st f)
  | _, _ => find_irregular st f skip limit
  end.

End Mongo.

(** ** Requests and responses *)

(** The caller that the authentication middleware attaches as [req.user]. *)
Module Caller.
Record t : Type := mk { role : option string }.
End Caller.

(** [req.query] holds strings, or nothing for a parameter that is absent;
    [req.user] is [None] when no caller is attached. *)
Module Request.
Record query_t : Type := mk_query {
  page : option string;
  limit : option string;
  status : option string;
  dateRange : option string
}.
Record t : Type := mk {
  user : option Caller.t;
  query : query_t
}.
End Request.

Module Summary.
Record t : Type := mk {
  totalOrders : nat;
  totalRevenue : double;
  activeUsers : nat
}.
End Summary.

Module OrderStatus.
Record t : Type := mk {
  completed : nat;
  cancelled : nat;
  placed : nat;
  preparing : nat
}.
End OrderStatus.

Module ChartPoint.
Record t : Type := mk {
  date : string;
  orders : nat;
  revenue : double
}.
End ChartPoint.

Module Pagination.
Record t : Type := mk {
  currentPage : number;
  totalPages : number;
  totalOrders : nat;
  limit : number
}.
End Pagination.

(** The objects passed to [res.json]. *)
Inductive Body : Type :=
| MessageBody (message : string)
    (** [{ message }] *)
| ErrorBody (message error : string)
    (** [{ message, error }] *)
| SummaryBody (summary : Summary.t) (orderStatus : OrderStatus.t)
    (** [{ summary, orderStatus }] *)
| ChartBody (chartData : list ChartPoint.t)
    (** [{ chartData }] *)
| OrdersBody (orders : list PopulatedOrder.t) (pagination : Pagination.t).
    (** [{ orders, pagination }] *)

Module Response.
Record t : Type := mk {
  status : nat;
  body : Body
}.
End Response.

(** [res.json(b)] and [res.status(c).json(b)] *)
Definition res_json (b : Body) : Response.t := Response.mk 200 b.
Definition res_status_json (c : nat) (b : Body) : Response.t :=
  Response.mk c b.

(** ** The handler monad

    A handler reads the store, appends every query it sends to the log of
    the request, and either returns a value or throws; what is thrown is
    kept as its [message]. *)

Definition M (A : Type) : Type :=
  Store -> list DbQuery -> result A * list DbQuery.

Definition ret {A : Type} (a : A) : M A := fun _ log => (Ok a, log).

Definition throw {A : Type} (message : string) : M A :=
  fun _ log => (Err message, log).

Definition bind {A B : Type} (m : M A) (k : A -> M B) : M B :=
  fun st log =>
    match m st log with
    | (Ok a, log') => k a st log'
    | (Err e, log') => (Err e, log')
    end.

Notation "x <- m ;; k" := (bind m (fun x => k))
  (at level 61, m at next level, right associativity).

(** [try { body } catch (error) { handler }] *)
Definition try_catch {A : Type} (body : M A) (handler : string -> M A) : M A :=
  fun st log =>
    match body st log with
    | (Ok a, log') => (Ok a, log')
    | (Err e, log') => handler e st log'
    end.

(** [await] of a query: it is logged, then fails if the store says so,
    and is answered otherwise. *)
Definition await {A : Type} (q : DbQuery) (answer : Store -> result A) : M A :=
  fun st log =>
    (match fault st (List.length log) q with
     | Some e => Err e
     | None => answer st
     end,
     (log ++ [q])%list).

Definition Order_countDocuments (f : Filter.t) : M nat :=
  await (CountDocuments f) (fun st => Mongo.countDocuments st f).

Definition Order_aggregate_revenue (f : Filter.t) : M (list RevenueRow.t) :=
  await (AggregateRevenue f) (fun st => Mongo.aggregate_revenue st f).

Definition Order_distinct_user_id (f : Filter.t) : M (list ObjectId) :=
  await (DistinctUserId f) (fun st => Mongo.distinct_user_id st f).

Definition Order_aggregate_status (f : Filter.t) : M (list StatusRow.t) :=
  await (AggregateStatus f) (fun st => Mongo.aggregate_status st f).

Definition Order_aggregate_daily (f : Filter.t) : M (list DailyRow.t) :=
  await (AggregateDaily f) (fun st => Mongo.aggregate_daily st f).

Definition Order_find (f : Filter.t) (skip limit : number)
  : M (list PopulatedOrder.t) :=
  await (Find f skip limit) (fun st => Mongo.find_orders st f skip limit).

(** The run of a handler on a fresh request: its response and the queries
    it sent. *)
Definition run {A : Type} (m : M A) (st : Store) : result A * list DbQuery :=
  m st [].

(** ** The handlers *)

(** The message of the [TypeError] raised by reading [role] of
    [undefined]. *)
Definition TypeError_role : string :=
  "Cannot read properties of undefined (reading 'role')".

(** [req.user.role] *)
Definition req_user_role (req : Request.t) : M (option string) :=
  match Request.user req with
  | Some u => ret (Caller.role u)
  | None => throw TypeError_role
  end.

Definition forbidden : Response.t :=
  res_status_json 403 (MessageBody "Admin access required").

(** [catch (error) { res.status(500).json({ message, error: error.message }) }] *)
Definition server_error (error : string) : M Response.t :=
  ret (res_status_json 500 (ErrorBody "Server error" error)).

(** [{ createdAt: { $gte: startDate } }] *)
Definition since (startDate : time_value) : Filter.t :=
  Filter.mk startDate None.

(** [x || 0] for a count [x] *)
Definition or_zero (x : nat) : nat :=
  match x with
  | O => 0%nat
  | _ => x
  end.

(** [statusBreakdown.find((s) => s._id === name)?.count || 0] *)
Definition count_of (statusBreakdown : list StatusRow.t) (name : string) : nat :=
  match find (fun s => String.eqb (StatusRow._id s) name) statusBreakdown with
  | Some s => or_zero (StatusRow.count s)
  | None => 0%nat
  end.

(** [GET /summary] *)
Definition summary (clk : Clock) (req : Request.t) : M Response.t :=
  try_catch
    (role <- req_user_role req ;;
     if negb (strict_eq role "admin") then ret forbidden
     else
       let dateRange := default_to "7days" (Request.dateRange (Request.query req)) in
       let startDate := getDateRange clk (Some dateRange) in
       totalOrders <- Order_countDocuments (since startDate) ;;
       revenueResult <- Order_aggregate_revenue (since startDate) ;;
       let totalRevenue :=
         match revenueResult with
         | r :: _ => RevenueRow.total r
         | [] => Double.zero
         end in
       activeUsers <- Order_distinct_user_id (since startDate) ;;
       statusBreakdown <- Order_aggregate_status (since startDate) ;;
       let completed := count_of statusBreakdown "Delivered" in
       let cancelled := 0%nat in
       let placed := count_of statusBreakdown "Placed" in
       let preparing := count_of statusBreakdown "Preparing" in
       ret (res_json
              (SummaryBody
                 (Summary.mk totalOrders
                    (Double.parseFloat (Double.toFixed totalRevenue 2))
                    (List.length activeUsers))
                 (OrderStatus.mk completed cancelled placed preparing))))
    server_error.

(** [GET /orders-chart] *)
Definition ordersChart (clk : Clock) (req : Request.t) : M Response.t :=
  try_catch
    (role <- req_user_role req ;;
     if negb (strict_eq role "admin") then ret forbidden
     else
       let dateRange := default_to "7days" (Request.dateRange (Request.query req)) in
       let startDate := getDateRange clk (Some dateRange) in
       ordersOverTime <- Order_aggregate_daily (since startDate) ;;
       let chartData :=
         map (fun item =>
                ChartPoint.mk
                  (DailyRow._id item)
                  (DailyRow.count item)
                  (Double.parseFloat (Double.toFixed (DailyRow.revenue item) 2)))
             ordersOverTime in
       ret (res_json (ChartBody chartData)))
    server_error.

(** [GET /orders] *)
Definition ordersList (clk : Clock) (req : Request.t) : M Response.t :=
  try_catch
    (role <- req_user_role req ;;
     if negb (strict_eq role "admin") then ret forbidden
     else
       let q := Request.query req in
       let page := default_to (PInt 1) (option_map PStr (Request.page q)) in
       let limit := default_to (PInt 10) (option_map PStr (Request.limit q)) in
       let status := default_to "all" (Request.status q) in
       let dateRange := default_to "7days" (Request.dateRange q) in
       let startDate := getDateRange clk (Some dateRange) in
       let skip := mul (sub (parseInt page) (of_Z 1)) (parseInt limit) in
       let query :=
         Filter.mk startDate
                   (if negb (String.eqb status "all") then Some status else None) in
       orders <- Order_find query skip (parseInt limit) ;;
       totalOrders <- Order_countDocuments query ;;
       ret (res_json
              (OrdersBody orders
                 (Pagination.mk
                    (parseInt page)
                    (Math_ceil (div (of_nat totalOrders) (parseInt limit)))
                    totalOrders
                    (parseInt limit)))))
    server_error.

(** ** Vocabulary of the properties *)

Definition error_of {A : Type} (r : result A) : option string :=
  match r with
  | Ok _ => None
  | Err e => Some e
  end.

(** The error, if any, in the store's answer to [q]. *)
Definition answer_error (st : Store) (q : DbQuery) : option string :=
  match q with
  | CountDocuments f => error_of (Mongo.countDocuments st f)
  | AggregateRevenue f => error_of (Mongo.aggregate_revenue st f)
  | DistinctUserId f => error_of (Mongo.distinct_user_id st f)
  | AggregateStatus f => error_of (Mongo.aggregate_status st f)
  | AggregateDaily f => error_of (Mongo.aggregate_daily st f)
  | Find f skip limit => error_of (Mongo.find_orders st f skip limit)
  end.

(** The failure, if any, that the store raises on [q] sent as the [i]-th
    query of a request: an injected fault or an error of the answer. *)
Definition failure (st : Store) (i : nat) (q : DbQuery) : option string :=
  match fault st i q with
  | Some e => Some e
  | None => answer_error st q
  end.

(** A store that raises no fault of its own. *)
Definition fault_free (st : Store) : Prop :=
  forall i q, fault st i q = None.

(** A failure among the queries [sent] after [log] is the outcome [r] of
    the computation, and the failed query is the last one sent. *)
Definition fails_last {A : Type}
    (st : Store) (log : list DbQuery) (r : result A) (sent : list DbQuery)
  : Prop :=
  forall j q e,
    nth_error sent j = Some q ->
    failure st (List.length log + j) q = Some e ->
    r = Err e /\ List.length sent = S j.

(** A computation that only appends to the log and stops at the first
    failure. *)
Definition disciplined {A : Type} (m : M A) : Prop :=
  forall st log, exists sent,
    snd (m st log) = (log ++ sent)%list /\
    fails_last st log (fst (m st log)) sent.

(** The orders of the store created at or after [start] and, when a
    status is given, in that status. *)
Definition selection (st : Store) (start : Z) (status_eq : option string)
  : list Order.t :=
  filter (Mongo.matches start status_eq) (orders st).

(** The parameters of a request, defaults applied, as [ordersList]
    reads them. *)
Definition page_of (req : Request.t) : param :=
  default_to (PInt 1) (option_map PStr (Request.page (Request.query req))).

Definition limit_of (req : Request.t) : param :=
  default_to (PInt 10) (option_map PStr (Request.limit (Request.query req))).

Definition dateRange_of (req : Request.t) : string :=
  default_to "7days" (Request.dateRange (Request.query req)).

Definition status_of (req : Request.t) : option string :=
  let status := default_to "all" (Request.status (Request.query req)) in
  if negb (String.eqb status "all") then Some status else None.

Definition skip_of (req : Request.t) : number :=
  mul (sub (parseInt (page_of req)) (of_Z 1)) (parseInt (limit_of req)).

(** The matching orders, newest first, as the store ranks them. *)
Definition ranked (st : Store) (start : Z) (status_eq : option string)
  : list Order.t :=
  sort (Mongo.newest_first st) (selection st start status_eq).

(** The records of page [p], for pages of [l] records. *)
Definition page_slice {A : Type} (p l : Z) (records : list A) : list A :=
  firstn (Z.to_nat l) (skipn (Z.to_nat ((p - 1) * l)) records).

(** What a populated reference shows of a user. *)
Definition public_view (u : User.t) : ObjectId * string * string :=
  (User._id u, User.name u, User.email u).

(** The store [st] with another collection of users. *)
Definition with_users (st : Store) (us : list User.t) : Store :=
  {| orders := orders st;
     users := us;
     fault := fault st;
     tie_rank := tie_rank st;
     find_irregular := find_irregular st |}.

(** The store [st] ranking tied orders by [rank]. *)
Definition with_ties (st : Store) (rank : Order.t -> Z) : Store :=
  {| orders := orders st;
     users := users st;
     fault := fault st;
     tie_rank := rank;
     find_irregular := find_irregular st |}.

(** The orders of [l] whose date key is [k]. *)
Definition on_day (k : string) (o : Order.t) : bool :=
  match Mongo.dateToString (Order.createdAt o) with
  | Ok k' => String.eqb k' k
  | Err _ => false
  end.

Definition orders_on (k : string) (l : list Order.t) : list Order.t :=
  filter (on_day k) l.

(** A row of the daily grouping that accounts for the orders [seen]. *)
Definition daily_row_ok (seen : list Order.t) (r : DailyRow.t) : Prop :=
  orders_on (DailyRow._id r) seen <> [] /\
  DailyRow.count r = List.length (orders_on (DailyRow._id r) seen) /\
  DailyRow.revenue r = Mongo.sum_totals (orders_on (DailyRow._id r) seen).

(** The rows of the daily grouping after the orders [seen]: one row per
    date key, each accounting for the orders of its day. *)
Definition daily_inv (rows : list DailyRow.t) (seen : list Order.t) : Prop :=
  NoDup (map DailyRow._id rows) /\
  Forall (daily_row_ok seen) rows /\
  (forall o, In o seen ->
     exists k, Mongo.dateToString (Order.createdAt o) = Ok k /\
               In k (map DailyRow._id rows)).

(** [parseFloat(x.toFixed(2))] *)
Definition round2 (x : double) : double :=
  Double.parseFloat (Double.toFixed x 2).

(** The point of the chart for a row of the grouping. *)
Definition chart_point (item : DailyRow.t) : ChartPoint.t :=
  ChartPoint.mk (DailyRow._id item) (DailyRow.count item)
                (round2 (DailyRow.revenue item)).

(** The UTC day numbers of the orders of [l], each once. *)
Definition days_of (l : list Order.t) : list Z :=
  nodup Z.eq_dec (map (fun o => Day (Order.createdAt o)) l).

(** The ceiling of [n / l], for [l <> 0]. *)
Definition ceil_div (n l : Z) : Z := - ((- n) / l).

(** The kinds of body that carry data. *)
Definition is_summary (b : Body) : bool :=
  match b with SummaryBody _ _ => true | _ => false end.

Definition is_chart (b : Body) : bool :=
  match b with ChartBody _ => true | _ => false end.

Definition is_orders (b : Body) : bool :=
  match b with OrdersBody _ _ => true | _ => false end.

(** The queries of each handler, in the order in which it sends them. *)
Definition plan_summary (clk : Clock) (req : Request.t) : list DbQuery :=
  let f := since (getDateRange clk (Some (dateRange_of req))) in
  [CountDocuments f; AggregateRevenue f; DistinctUserId f; AggregateStatus f].

Definition plan_ordersChart (clk : Clock) (req : Request.t) : list DbQuery :=
  [AggregateDaily (since (getDateRange clk (Some (dateRange_of req))))].

Definition plan_ordersList (clk : Clock) (req : Request.t) : list DbQuery :=
  let f := Filter.mk (getDateRange clk (Some (dateRange_of req)))
                     (status_of req) in
  [Find f (skip_of req) (parseInt (limit_of req)); CountDocuments f].

(** The three ways in which a handler ends: with its data after the whole
    plan, with the refusal before any query, or with the error body after
    the part of the plan that ends with the failure. *)
Definition outcome
    (data : Body -> bool) (plan : list DbQuery)
    (resp : Response.t) (log : list DbQuery) : Prop :=
  (Response.status resp = 200%nat /\ data (Response.body resp) = true /\
   log = plan) \/
  (resp = forbidden /\ log = []) \/
  (Response.status resp = 500%nat /\
   (exists e, Response.body resp = ErrorBody "Server error" e) /\
   exists rest, plan = (log ++ rest)%list).

(** The request in which every absent parameter is written out with the
    default of the handlers. *)
Definition with_defaults (req : Request.t) : Request.t :=
  let q := Request.query req in
  Request.mk (Request.user req)
    (Request.mk_query
       (Some (default_to "1" (Request.page q)))
       (Some (default_to "10" (Request.limit q)))
       (Some (default_to "all" (Request.status q)))
       (Some (default_to "7days" (Request.dateRange q)))).

(** An order whose status is none of the three that [summary] reports. *)
Definition other_status (o : Order.t) : bool :=
  negb (String.eqb (Order.status o) "Delivered"
        || String.eqb (Order.status o) "Placed"
        || String.eqb (Order.status o) "Preparing").

(** The request of page [p], for pages of [l] records, both written in
    decimal. *)
Definition page_request
    (u : Caller.t) (status dateRange : option string) (p l : Z) : Request.t :=
  Request.mk (Some u)
    (Request.mk_query (Some (Z_to_string p)) (Some (Z_to_string l))
                      status dateRange).

(** The orders of a response; none when it carries no orders. *)
Definition orders_of (r : result Response.t) : list PopulatedOrder.t :=
  match r with
  | Ok resp =>
      match Response.body resp with
      | OrdersBody os _ => os
      | _ => []
      end
  | Err _ => []
  end.

(** ** Sample data

    A clock on UTC, stores and requests on which the properties below are
    exercised. *)

Definition utc_clock (t : Z) : Clock :=
  {| now := t; LocalTZA := fun _ _ => 0 |}.

Definition empty_store : Store :=
  {| orders := [];
     users := [];
     fault := fun _ _ => None;
     tie_rank := fun _ => 0;
     find_irregular := fun _ _ _ => Err "rejected" |}.

Definition no_params : Request.query_t := Request.mk_query None None None None.

Definition request_of (role : string) (q : Request.query_t) : Request.t :=
  Request.mk (Some (Caller.mk (Some role))) q.

Definition sample_clock : Clock := utc_clock 1700000000123.

(** A clock of a zone three hours behind UTC that moves its clocks one
    hour forward at the local midnight of 4 November 2018 (the instant
    1541300400000): the local times of the skipped hour are read with the
    offset before the change. *)
Definition spring_forward_clock (t : Z) : Clock :=
  {| now := t;
     LocalTZA := fun t isUTC =>
       if isUTC
       then if t <? 1541300400000 then -3 * msPerHour else -2 * msPerHour
       else if t <? 1541289600000 + msPerHour
            then -3 * msPerHour else -2 * msPerHour |}.

Definition sample_orders : list Order.t :=
  [ Order.mk 1 7 [] (Double.of_decimal false 10005 (-3)) "Placed"
      1699900000000;
    Order.mk 2 8 [] (Double.of_Z 5) "Delivered" 1699800000000;
    Order.mk 3 7 [] (Double.of_Z 0) "Placed" 1699950000000;
    Order.mk 4 7 [] (Double.of_Z 20) "Preparing" 1600000000000 ].

Definition sample_users : list User.t :=
  [ User.mk 7 "Ann" "ann@example.org" "customer" ].

Definition sample_store : Store :=
  {| orders := sample_orders;
     users := sample_users;
     fault := fun _ _ => None;
     tie_rank := fun _ => 0;
     find_irregular := fun _ _ _ => Err "rejected" |}.

(** A store that loses the connection on the second query. *)
Definition flaky_store : Store :=
  {| orders := sample_orders;
     users := sample_users;
     fault := fun i _ => if (i =? 1)%nat then Some "connection lost" else None;
     tie_rank := fun _ => 0;
     find_irregular := fun _ _ _ => Err "rejected" |}.


(** Twenty-five orders in the last week of [sample_clock], numbered in
    the order of their creation. *)
Definition store_of_25 : Store :=
  {| orders :=
       map (fun i => Order.mk i 7 [] (Double.of_Z i) "Placed"
                              (1699900000000 + i))
           (map Z.of_nat (seq 1 25));
     users := sample_users;
     fault := fun _ _ => None;
     tie_rank := fun _ => 0;
     find_irregular := fun _ _ _ => Err "rejected" |}.

Definition admin_request (q : Request.query_t) : Request.t :=
  request_of "admin" q.

Definition paging (page limit : string) : Request.query_t :=
  Request.mk_query (Some page) (Some limit) None None.

(* ================================================================== *)
(** * Part II. Verified properties *)
(* ================================================================== *)

(** ** Strict equality *)

Lemma strict_eq_true (v : option string) (s : string) :
  strict_eq v s = true <-> v = Some s.
Proof.
  destruct v as [x|]; simpl.
  - rewrite String.eqb_eq. split; [intros ->; reflexivity | congruence].
  - split; discriminate.
Qed.

Lemma strict_eq_false (v : option string) (s : string) :
  strict_eq v s = false <-> v <> Some s.
Proof.
  rewrite <- strict_eq_true. destruct (strict_eq v s); split; congruence.
Qed.

(** ** The access guard *)

Section Guard.
Variables (clk : Clock) (st : Store) (req : Request.t).

Lemma guard_rejects (body : M Response.t) (u : Caller.t) :
  Request.user req = Some u ->
  Caller.role u <> Some "admin" ->
  run (try_catch
         (role <- req_user_role req ;;
          if negb (strict_eq role "admin") then ret forbidden else body)
         server_error) st
  = (Ok forbidden, []).
Proof.
  intros Hu Hrole. apply strict_eq_false in Hrole.
  unfold run, try_catch, bind, req_user_role. rewrite Hu. simpl.
  rewrite Hrole. reflexivity.
Qed.

Lemma guard_absent (body : option string -> M Response.t) :
  Request.user req = None ->
  run (try_catch (role <- req_user_role req ;; body role) server_error) st
  = (Ok (res_status_json 500 (ErrorBody "Server error" TypeError_role)), []).
Proof.
  intros Hu. unfold run, try_catch, bind, req_user_role. rewrite Hu.
  reflexivity.
Qed.
End Guard.

(** C1.  A caller whose role is not ["admin"] gets status 403 with the
    body [{ message: "Admin access required" }] from each of the three
    handlers, and the log of queries stays empty: nothing is asked of the
    store. *)
Theorem non_admin_is_forbidden
    (clk : Clock) (st : Store) (req : Request.t) (u : Caller.t) :
  Request.user req = Some u ->
  Caller.role u <> Some "admin" ->
  run (summary clk req) st
  = (Ok (Response.mk 403 (MessageBody "Admin access required")), []) /\
  run (ordersChart clk req) st
  = (Ok (Response.mk 403 (MessageBody "Admin access required")), []) /\
  run (ordersList clk req) st
  = (Ok (Response.mk 403 (MessageBody "Admin access required")), []).
Proof.
  intros Hu Hrole.
  repeat split; apply (guard_rejects st req _ u Hu Hrole).
Qed.

Lemma non_admin_is_forbidden_witness :
  run (summary (utc_clock 0) (request_of "customer" no_params)) empty_store
  = (Ok (Response.mk 403 (MessageBody "Admin access required")), []) /\
  run (ordersChart (utc_clock 0) (request_of "customer" no_params)) empty_store
  = (Ok (Response.mk 403 (MessageBody "Admin access required")), []) /\
  run (ordersList (utc_clock 0) (request_of "customer" no_params)) empty_store
  = (Ok (Response.mk 403 (MessageBody "Admin access required")), []).
Proof.
  apply (non_admin_is_forbidden (utc_clock 0) empty_store
           (request_of "customer" no_params) (Caller.mk (Some "customer"))).
  - reflexivity.
  - discriminate.
Defined.

(** C10.  When no caller is attached to the request, reading [role] throws
    inside the [try] block and the [catch] clause answers: status 500 (so
    neither 401 nor 403) with the message ["Server error"], and no query
    is sent. *)
Theorem absent_caller_is_server_error
    (clk : Clock) (st : Store) (q : Request.query_t) :
  run (summary clk (Request.mk None q)) st
  = (Ok (Response.mk 500 (ErrorBody "Server error" TypeError_role)), []) /\
  run (ordersChart clk (Request.mk None q)) st
  = (Ok (Response.mk 500 (ErrorBody "Server error" TypeError_role)), []) /\
  run (ordersList clk (Request.mk None q)) st
  = (Ok (Response.mk 500 (ErrorBody "Server error" TypeError_role)), []).
Proof.
  repeat split; apply (guard_absent st (Request.mk None q)); reflexivity.
Qed.

(** ** The date-range resolver *)

Lemma Date_of_value_TimeClip (t : Z) : Date_of_value (TimeClip t) = TimeClip t.
Proof.
  unfold TimeClip. destruct (Z.abs t >? 8640000000000000) eqn:E; simpl.
  - reflexivity.
  - unfold TimeClip. rewrite E. reflexivity.
Qed.

Lemma MonthFromTime_range (t : Z) : 0 <= MonthFromTime t <= 11.
Proof.
  unfold MonthFromTime.
  repeat match goal with |- context [if ?b then _ else _] => destruct b end;
    lia.
Qed.

(** Setting the day of the month moves the day number by as much. *)
Lemma MakeDay_shift (t k : Z) :
  MakeDay (YearFromTime t) (MonthFromTime t) (DateFromTime t + k) = Day t + k.
Proof.
  pose proof (MonthFromTime_range t) as Hm.
  unfold MakeDay.
  rewrite (Z.div_small (MonthFromTime t) 12), (Z.mod_small (MonthFromTime t) 12)
    by lia.
  rewrite Z.add_0_r.
  unfold DateFromTime, DayWithinYear, InLeapYear. lia.
Qed.

Lemma MakeDate_Day_TimeWithinDay (t k : Z) :
  MakeDate (Day t + k) (TimeWithinDay t) = t + k * msPerDay.
Proof.
  unfold MakeDate, Day, TimeWithinDay, msPerDay.
  pose proof (Z.div_mod t 86400000). lia.
Qed.

Lemma getDateRange_today (clk : Clock) :
  getDateRange clk (Some "today")
  = TimeClip (UTC clk (msPerDay * Day (LocalTime clk (now clk)))).
Proof.
  unfold getDateRange, setHours, Date_now. simpl strict_eq. cbv iota.
  rewrite Date_of_value_TimeClip. f_equal. f_equal.
  unfold MakeDate, MakeTime. lia.
Qed.

Lemma getDateRange_7days (clk : Clock) :
  getDateRange clk (Some "7days")
  = TimeClip (UTC clk (LocalTime clk (now clk) - 7 * msPerDay)).
Proof.
  unfold getDateRange, setDate, getDate, Date_now. simpl strict_eq. cbv iota.
  simpl option_map. cbv iota beta.
  rewrite Date_of_value_TimeClip. f_equal. f_equal.
  replace (DateFromTime (LocalTime clk (now clk)) - 7)
    with (DateFromTime (LocalTime clk (now clk)) + (-7)) by lia.
  rewrite MakeDay_shift, MakeDate_Day_TimeWithinDay. lia.
Qed.

Lemma getDateRange_other (clk : Clock) (range : option string) :
  range <> Some "today" -> range <> Some "7days" ->
  getDateRange clk range = Some 0.
Proof.
  intros H1 H2. apply strict_eq_false in H1, H2.
  unfold getDateRange. rewrite H1, H2. reflexivity.
Qed.

(** C5.  With [t] the local time of the instant [now]:
    - ["today"] resolves to local midnight of the current day, the local
      time [msPerDay * Day t], which is the last multiple of a day at or
      before [t];
    - ["7days"] resolves to the local time [t] minus seven days (the same
      time of day, seven calendar days earlier), which in a zone of fixed
      offset is the instant [now] minus seven times 24 hours;
    - every other token, and the absent one, resolves to the epoch.
    The resolver is a total function: it cannot throw, and away from the
    two ends of the range of time values its result is a valid date. *)
Theorem getDateRange_resolves (clk : Clock) :
  (getDateRange clk (Some "today")
   = TimeClip (UTC clk (msPerDay * Day (LocalTime clk (now clk)))) /\
   msPerDay * Day (LocalTime clk (now clk)) <= LocalTime clk (now clk)
     < msPerDay * Day (LocalTime clk (now clk)) + msPerDay) /\
  (getDateRange clk (Some "7days")
   = TimeClip (UTC clk (LocalTime clk (now clk) - 7 * msPerDay)) /\
   forall offset, (forall t isUTC, LocalTZA clk t isUTC = offset) ->
     getDateRange clk (Some "7days") = TimeClip (now clk - 7 * msPerDay)) /\
  (forall range, range <> Some "today" -> range <> Some "7days" ->
     getDateRange clk range = Some 0) /\
  (forall range,
     Z.abs (now clk) <= 8639000000000000 ->
     (forall t isUTC, Z.abs (LocalTZA clk t isUTC) <= msPerDay) ->
     exists d, getDateRange clk range = Some d).
Proof.
  split; [|split; [|split]].
  - split; [apply getDateRange_today|].
    unfold Day, msPerDay.
    pose proof (Z.div_mod (LocalTime clk (now clk)) 86400000).
    pose proof (Z.mod_pos_bound (LocalTime clk (now clk)) 86400000). lia.
  - split; [apply getDateRange_7days|].
    intros offset Hoff. rewrite getDateRange_7days. f_equal.
    unfold UTC, LocalTime. rewrite !Hoff. lia.
  - apply getDateRange_other.
  - intros range Hnow Htz.
    destruct (strict_eq range "today") eqn:E1;
      [|destruct (strict_eq range "7days") eqn:E2].
    + apply strict_eq_true in E1. subst range.
      rewrite getDateRange_today. unfold TimeClip.
      match goal with |- context [if ?b then _ else _] =>
        destruct b eqn:E end; [|eauto].
      exfalso. apply Z.gtb_lt in E. unfold UTC, LocalTime, Day in E.
      pose proof (Htz (now clk) true).
      pose proof (Htz (msPerDay * ((now clk + LocalTZA clk (now clk) true) / msPerDay)) false).
      unfold msPerDay in *.
      pose proof (Z.div_mod (now clk + LocalTZA clk (now clk) true) 86400000).
      pose proof (Z.mod_pos_bound (now clk + LocalTZA clk (now clk) true) 86400000).
      lia.
    + apply strict_eq_true in E2. subst range.
      rewrite getDateRange_7days. unfold TimeClip.
      match goal with |- context [if ?b then _ else _] =>
        destruct b eqn:E end; [|eauto].
      exfalso. apply Z.gtb_lt in E. unfold UTC, LocalTime in E.
      pose proof (Htz (now clk) true).
      pose proof (Htz (now clk + LocalTZA clk (now clk) true - 7 * msPerDay) false).
      unfold msPerDay in *. lia.
    + exists 0. unfold getDateRange. rewrite E1, E2. reflexivity.
Qed.

Lemma getDateRange_resolves_witness :
  getDateRange (utc_clock 1700000000123) (Some "7days") = Some 1699395200123 /\
  getDateRange (utc_clock 1700000000123) None = Some 0 /\
  exists d, getDateRange (utc_clock 1700000000123) (Some "today") = Some d.
Proof.
  destruct (getDateRange_resolves (utc_clock 1700000000123))
    as (_ & (_ & H7) & Hother & Hvalid).
  split; [|split].
  - rewrite (H7 0); reflexivity.
  - apply Hother; discriminate.
  - apply Hvalid.
    + simpl. lia.
    + intros t isUTC. simpl. unfold msPerDay. lia.
Defined.

(** ** Failures of the store *)

Section Discipline.
Context {A B : Type}.

Lemma disciplined_ret (a : A) : disciplined (ret a).
Proof.
  intros st log. exists []. simpl. rewrite app_nil_r. split; [reflexivity|].
  intros [|j] q e Hq; discriminate Hq.
Qed.

Lemma disciplined_throw (e : string) : disciplined (@throw A e).
Proof.
  intros st log. exists []. simpl. rewrite app_nil_r. split; [reflexivity|].
  intros [|j] q e' Hq; discriminate Hq.
Qed.

Lemma disciplined_await (q : DbQuery) (answer : Store -> result A) :
  (forall st, error_of (answer st) = answer_error st q) ->
  disciplined (await q answer).
Proof.
  intros Hans st log. exists [q]. unfold await. simpl. split; [reflexivity|].
  intros [|[|j]] q' e Hq Hfail; try discriminate Hq.
  injection Hq as <-. rewrite Nat.add_0_r in Hfail.
  unfold failure in Hfail. split; [|reflexivity].
  destruct (fault st (List.length log) q) as [e'|].
  - congruence.
  - rewrite <- Hans in Hfail. destruct (answer st); simpl in Hfail; congruence.
Qed.

Lemma disciplined_bind (m : M A) (k : A -> M B) :
  disciplined m -> (forall a, disciplined (k a)) -> disciplined (bind m k).
Proof.
  intros Hm Hk st log. unfold bind.
  destruct (Hm st log) as (sent1 & Hlog1 & Hfail1).
  destruct (m st log) as [[a|e1] log1]; simpl in Hlog1, Hfail1.
  - destruct (Hk a st log1) as (sent2 & Hlog2 & Hfail2).
    exists (sent1 ++ sent2)%list. split.
    + rewrite Hlog2, Hlog1, app_assoc. reflexivity.
    + intros j q e Hq Hfail.
      destruct (Nat.lt_ge_cases j (List.length sent1)) as [Hlt|Hge].
      * rewrite nth_error_app1 in Hq by assumption.
        destruct (Hfail1 j q e Hq Hfail) as [Habs _]. discriminate Habs.
      * rewrite nth_error_app2 in Hq by assumption.
        subst log1.
        pose proof (Hfail2 (j - List.length sent1)%nat q e Hq) as H2.
        rewrite length_app in H2.
        replace (List.length log + List.length sent1
                 + (j - List.length sent1))%nat
          with (List.length log + j)%nat in H2 by lia.
        destruct (H2 Hfail) as [Hr Hlen].
        split; [exact Hr|]. rewrite length_app. lia.
  - exists sent1. simpl. split; [assumption|].
    intros j q e Hq Hfail. destruct (Hfail1 j q e Hq Hfail) as [Hr Hlen].
    injection Hr as ->. split; [reflexivity | assumption].
Qed.

End Discipline.

Lemma disciplined_since (f : Filter.t) :
  disciplined (Order_countDocuments f) /\
  disciplined (Order_aggregate_revenue f) /\
  disciplined (Order_distinct_user_id f) /\
  disciplined (Order_aggregate_status f) /\
  disciplined (Order_aggregate_daily f) /\
  forall skip limit, disciplined (Order_find f skip limit).
Proof.
  repeat split; intros; apply disciplined_await; reflexivity.
Qed.

Lemma disciplined_role (req : Request.t) : disciplined (req_user_role req).
Proof.
  unfold req_user_role. destruct (Request.user req).
  - apply disciplined_ret.
  - apply disciplined_throw.
Qed.

Ltac discipline :=
  repeat first
    [ apply disciplined_ret
    | apply disciplined_role
    | apply disciplined_await; reflexivity
    | apply disciplined_bind; [|intros ?]
    | match goal with
      | |- disciplined (if ?b then _ else _) => destruct b
      end
    | progress cbv zeta ].

(** What the [catch] clause makes of a disciplined body. *)
Lemma caught_failure (body : M Response.t) :
  disciplined body ->
  forall st resp log i q e,
    run (try_catch body server_error) st = (resp, log) ->
    nth_error log i = Some q ->
    failure st i q = Some e ->
    resp = Ok (Response.mk 500 (ErrorBody "Server error" e)) /\
    List.length log = S i.
Proof.
  intros Hbody st resp log i q e. unfold run, try_catch.
  destruct (Hbody st []) as (sent & Hlog & Hfail).
  destruct (body st []) as [r log0]. simpl in Hlog, Hfail. subst log0.
  intros Hrun Hq Hf.
  assert (log = sent) as ->.
  { destruct r; unfold server_error, ret in Hrun; congruence. }
  destruct (Hfail i q e Hq Hf) as [-> Hlen].
  cbv beta iota delta [server_error ret res_status_json] in Hrun.
  split; congruence.
Qed.

Lemma disciplined_summary (clk : Clock) (req : Request.t) :
  exists body,
    summary clk req = try_catch body server_error /\ disciplined body.
Proof.
  eexists. split; [reflexivity|]. discipline.
Qed.

Lemma disciplined_ordersChart (clk : Clock) (req : Request.t) :
  exists body,
    ordersChart clk req = try_catch body server_error /\ disciplined body.
Proof.
  eexists. split; [reflexivity|]. discipline.
Qed.

Lemma disciplined_ordersList (clk : Clock) (req : Request.t) :
  exists body,
    ordersList clk req = try_catch body server_error /\ disciplined body.
Proof.
  eexists. split; [reflexivity|]. discipline.
Qed.

(** C8.  Whenever a query sent by one of the three handlers fails, be it
    an injected fault of the store or an error of its answer, the response
    is status 500 with [{ message: "Server error", error }] where [error]
    is the message of that failure: a body without any data field.  The
    failed query is the last entry of the log, so that nothing is sent
    after it and it is not sent again. *)
Theorem store_failure_is_server_error
    (clk : Clock) (st : Store) (req : Request.t) (handler : M Response.t)
    (resp : result Response.t) (log : list DbQuery)
    (i : nat) (q : DbQuery) (e : string) :
  In handler [summary clk req; ordersChart clk req; ordersList clk req] ->
  run handler st = (resp, log) ->
  nth_error log i = Some q ->
  failure st i q = Some e ->
  resp = Ok (Response.mk 500 (ErrorBody "Server error" e)) /\
  List.length log = S i.
Proof.
  intros Hin Hrun Hq Hfail.
  assert (exists body,
             handler = try_catch body server_error /\ disciplined body)
    as (body & -> & Hbody).
  { destruct Hin as [<-|[<-|[<-|[]]]].
    - apply disciplined_summary.
    - apply disciplined_ordersChart.
    - apply disciplined_ordersList. }
  exact (caught_failure body Hbody st resp log i q e Hrun Hq Hfail).
Qed.

Lemma store_failure_is_server_error_witness :
  fst (run (summary sample_clock (admin_request no_params)) flaky_store)
  = Ok (Response.mk 500 (ErrorBody "Server error" "connection lost")) /\
  List.length
    (snd (run (summary sample_clock (admin_request no_params)) flaky_store))
  = 2%nat.
Proof.
  apply (store_failure_is_server_error sample_clock flaky_store
           (admin_request no_params)
           (summary sample_clock (admin_request no_params))
           _ _ 1%nat
           (AggregateRevenue (since (Some 1699395200123)))
           "connection lost").
  - left. reflexivity.
  - apply surjective_pairing.
  - vm_compute. reflexivity.
  - reflexivity.
Defined.

(** ** The summary *)

(** The total revenue of a selection, as the handler reads it off the
    aggregation: the sum of the totals, or 0 when there is no row. *)
Lemma revenue_of_selection (l : list Order.t) :
  match (match l with
         | [] => []
         | _ => [RevenueRow.mk (Mongo.sum_totals l)]
         end) with
  | r :: _ => RevenueRow.total r
  | [] => Double.zero
  end = Mongo.sum_totals l.
Proof. destruct l; reflexivity. Qed.

(** A response of [summary] that carries a summary was computed from the
    selection of the resolved date range. *)
Lemma summary_body_inv
    (clk : Clock) (st : Store) (req : Request.t)
    (resp : Response.t) (log : list DbQuery)
    (s : Summary.t) (os : OrderStatus.t) :
  run (summary clk req) st = (Ok resp, log) ->
  Response.body resp = SummaryBody s os ->
  exists start,
    getDateRange clk (Some (dateRange_of req)) = Some start /\
    s = Summary.mk
          (List.length (selection st start None))
          (round2 (Mongo.sum_totals (selection st start None)))
          (List.length
             (nodup Z.eq_dec (map Order.user_id (selection st start None)))) /\
    os = OrderStatus.mk
           (count_of (Mongo.group_status (selection st start None)) "Delivered")
           0
           (count_of (Mongo.group_status (selection st start None)) "Placed")
           (count_of (Mongo.group_status (selection st start None)) "Preparing").
Proof.
  unfold run, summary, try_catch, bind, req_user_role.
  destruct (Request.user req) as [u|]; simpl;
    [|intros [= <- _]; discriminate].
  destruct (strict_eq (Caller.role u) "admin"); simpl;
    [|intros [= <- _]; discriminate].
  unfold Order_countDocuments, Order_aggregate_revenue,
    Order_distinct_user_id, Order_aggregate_status, await.
  unfold Mongo.countDocuments, Mongo.aggregate_revenue,
    Mongo.distinct_user_id, Mongo.aggregate_status, Mongo.select, since.
  simpl Filter.createdAt_gte. simpl Filter.status_eq.
  destruct (getDateRange clk _) as [start|];
    repeat match goal with
      | |- context [fault ?st ?i ?q] => destruct (fault st i q)
      end;
    simpl; intros [= <- _]; try discriminate.
  intros [= <- <-]. exists start. split; [reflexivity|].
  rewrite revenue_of_selection. split; reflexivity.
Qed.

Lemma or_zero_id (n : nat) : or_zero n = n.
Proof. destruct n; reflexivity. Qed.

Lemma count_of_count_status (s0 s : string) (rows : list StatusRow.t) :
  count_of (Mongo.count_status s0 rows) s
  = (count_of rows s + if String.eqb s0 s then 1 else 0)%nat.
Proof.
  unfold count_of. induction rows as [|r rows IH]; simpl.
  - destruct (String.eqb s0 s); reflexivity.
  - destruct (String.eqb (StatusRow._id r) s0) eqn:E0; simpl.
    + apply String.eqb_eq in E0. rewrite E0.
      destruct (String.eqb s0 s); rewrite ?or_zero_id; simpl; lia.
    + destruct (String.eqb (StatusRow._id r) s) eqn:E; [|exact IH].
      apply String.eqb_eq in E. rewrite E in E0.
      rewrite String.eqb_sym, E0. lia.
Qed.

Lemma count_of_fold (s : string) (l : list Order.t) (rows : list StatusRow.t) :
  count_of
    (fold_left (fun rows o => Mongo.count_status (Order.status o) rows) l rows) s
  = (count_of rows s
     + List.length (filter (fun o => String.eqb (Order.status o) s) l))%nat.
Proof.
  revert rows. induction l as [|o l IH]; intros rows; simpl.
  - lia.
  - rewrite IH, count_of_count_status.
    destruct (String.eqb (Order.status o) s); simpl; lia.
Qed.

(** The grouping counts, for each status, the orders in that status. *)
Lemma count_of_group_status (s : string) (l : list Order.t) :
  count_of (Mongo.group_status l) s
  = List.length (filter (fun o => String.eqb (Order.status o) s) l).
Proof.
  unfold Mongo.group_status. rewrite count_of_fold. reflexivity.
Qed.

(** Three different statuses account for different orders. *)
Lemma three_statuses_bound (a b c : string) (l : list Order.t) :
  a <> b -> a <> c -> b <> c ->
  (List.length (filter (fun o => String.eqb (Order.status o) a) l)
   + List.length (filter (fun o => String.eqb (Order.status o) b) l)
   + List.length (filter (fun o => String.eqb (Order.status o) c) l)
   <= List.length l)%nat.
Proof.
  intros Hab Hac Hbc. induction l as [|o l IH]; simpl; [lia|].
  destruct (String.eqb_spec (Order.status o) a) as [Ea|_];
    destruct (String.eqb_spec (Order.status o) b) as [Eb|_];
    destruct (String.eqb_spec (Order.status o) c) as [Ec|_];
    simpl; try lia; congruence.
Qed.

(** C6.  In every response of [summary] that carries a summary, whatever
    the store and the date range, the counts of delivered, placed and
    preparing orders add up to [totalOrders] at most, and [cancelled]
    is 0. *)
Theorem summary_status_within_total
    (clk : Clock) (st : Store) (req : Request.t)
    (resp : Response.t) (log : list DbQuery)
    (s : Summary.t) (os : OrderStatus.t) :
  run (summary clk req) st = (Ok resp, log) ->
  Response.body resp = SummaryBody s os ->
  (OrderStatus.completed os + OrderStatus.placed os + OrderStatus.preparing os
   <= Summary.totalOrders s)%nat /\
  OrderStatus.cancelled os = 0%nat.
Proof.
  intros Hrun Hbody.
  destruct (summary_body_inv clk st req resp log s os Hrun Hbody)
    as (start & _ & -> & ->).
  simpl. split; [|reflexivity].
  rewrite !count_of_group_status.
  apply three_statuses_bound; discriminate.
Qed.

Lemma summary_status_within_total_witness :
  exists resp log s os,
    run (summary sample_clock (admin_request no_params)) sample_store
    = (Ok resp, log) /\
    Response.body resp = SummaryBody s os /\
    Summary.totalOrders s = 3%nat /\
    ((OrderStatus.completed os + OrderStatus.placed os
      + OrderStatus.preparing os
      <= Summary.totalOrders s)%nat /\
     OrderStatus.cancelled os = 0%nat).
Proof.
  eassert (Hrun : run (summary sample_clock (admin_request no_params))
                      sample_store = (Ok _, _))
    by (vm_compute; reflexivity).
  eexists _, _, _, _.
  split; [exact Hrun|].
  split; [reflexivity|].
  split; [reflexivity|].
  apply (summary_status_within_total sample_clock sample_store
           (admin_request no_params) _ _ _ _ Hrun eq_refl).
Defined.

(** ** The list of orders *)

(** A response of [ordersList] that carries orders: both queries were
    answered, for the filter of the resolved date range and status. *)
Lemma ordersList_body_inv
    (clk : Clock) (st : Store) (req : Request.t)
    (resp : Response.t) (log : list DbQuery)
    (os : list PopulatedOrder.t) (pg : Pagination.t) :
  run (ordersList clk req) st = (Ok resp, log) ->
  Response.body resp = OrdersBody os pg ->
  exists start,
    getDateRange clk (Some (dateRange_of req)) = Some start /\
    Mongo.find_orders st (Filter.mk (Some start) (status_of req))
      (skip_of req) (parseInt (limit_of req)) = Ok os /\
    pg = Pagination.mk
           (parseInt (page_of req))
           (Math_ceil
              (div (of_nat (List.length (selection st start (status_of req))))
                   (parseInt (limit_of req))))
           (List.length (selection st start (status_of req)))
           (parseInt (limit_of req)) /\
    Response.status resp = 200%nat /\
    log = [Find (Filter.mk (Some start) (status_of req))
             (skip_of req) (parseInt (limit_of req));
           CountDocuments (Filter.mk (Some start) (status_of req))].
Proof.
  unfold run, ordersList, try_catch, bind, req_user_role.
  destruct (Request.user req) as [u|]; simpl;
    [|intros [= <- _]; discriminate].
  destruct (strict_eq (Caller.role u) "admin"); simpl;
    [|intros [= <- _]; discriminate].
  fold (page_of req) (limit_of req) (dateRange_of req).
  change (if negb (String.eqb (default_to "all" (Request.status (Request.query req))) "all")
          then Some (default_to "all" (Request.status (Request.query req)))
          else None) with (status_of req).
  fold (skip_of req).
  unfold Order_find, Order_countDocuments, await.
  unfold Mongo.countDocuments, Mongo.select. simpl Filter.createdAt_gte.
  simpl Filter.status_eq.
  destruct (getDateRange clk (Some (dateRange_of req))) as [start|].
  - destruct (fault st _ _);
      [cbn [fst snd]; intros [= <- _]; discriminate|].
    destruct (Mongo.find_orders st _ _ _) as [os'|e] eqn:Hfind;
      [|cbn [fst snd]; intros [= <- _]; discriminate].
    destruct (fault st _ _);
      [cbn [fst snd]; intros [= <- _]; discriminate|].
    cbn [Mongo.map_result]. unfold ret, res_json.
    intros [= <- <-]. cbn [Response.body]. intros [= <- <-].
    exists start. repeat split; try reflexivity. exact Hfind.
  - destruct (fault st _ _);
      [cbn [fst snd]; intros [= <- _]; discriminate|].
    destruct (Mongo.find_orders st _ _ _) as [os'|e];
      [|cbn [fst snd]; intros [= <- _]; discriminate].
    destruct (fault st _ _); cbn [Mongo.map_result];
      intros [= <- _]; discriminate.
Qed.

(** *** Arithmetic of the envelope *)

Lemma Qceiling_quotient (n l : Z) :
  l <> 0 -> Qceiling (inject_Z n / inject_Z l) = ceil_div n l.
Proof.
  intros Hl. unfold ceil_div, Qceiling, Qfloor, Qdiv, Qmult, Qinv, Qopp, inject_Z.
  destruct l as [|p|p]; [congruence| |]; simpl Qnum; simpl Qden.
  - rewrite Z.mul_1_r. reflexivity.
  - replace (- (n * -1)) with n by lia.
    replace (Z.neg p) with (- Z.pos p) by reflexivity.
    rewrite Z.div_opp_opp by lia. reflexivity.
Qed.

(** [ceil_div n l] is the least [t] with [n <= l * t], for a positive [l]. *)
Lemma ceil_div_spec (n l : Z) :
  0 < l -> l * (ceil_div n l - 1) < n <= l * ceil_div n l.
Proof.
  intros Hl. unfold ceil_div.
  pose proof (Z.div_mod (- n) l). pose proof (Z.mod_pos_bound (- n) l). nia.
Qed.

(** The quotient of a count by a non-zero integer: a zero of the sign of
    the divisor for the count 0, the exact quotient otherwise. *)
Lemma div_of_Z (n l : Z) :
  0 <= n -> l <> 0 ->
  div (of_Z n) (of_Z l)
  = if n =? 0 then zero (l <? 0)
    else Fin (Qred (inject_Z n / inject_Z l)%Q).
Proof.
  intros Hn Hl. unfold div, of_Z, is_zero, is_neg. simpl Qnum.
  destruct (Z.eqb_spec l 0) as [|_]; [congruence|]. reflexivity.
Qed.


(** [Math.ceil(n / l)] for a count [n] and a positive integer [l]. *)
Lemma Math_ceil_div_of_Z (n l : Z) :
  0 <= n -> 0 < l ->
  Math_ceil (div (of_Z n) (of_Z l)) = of_Z (ceil_div n l).
Proof.
  intros Hn Hl. rewrite div_of_Z by lia.
  destruct (Z.eqb_spec n 0) as [->|Hn0].
  - replace (l <? 0) with false by (symmetry; apply Z.ltb_ge; lia).
    reflexivity.
  - unfold Math_ceil.
    rewrite (Qceiling_comp _ _ (Qred_correct _)).
    rewrite Qceiling_quotient by lia.
    pose proof (ceil_div_spec n l Hl) as Hc.
    replace (ceil_div n l =? 0) with false
      by (symmetry; apply Z.eqb_neq; nia).
    reflexivity.
Qed.


Lemma ceil_div_0 (l : Z) : ceil_div 0 l = 0.
Proof. reflexivity. Qed.

Lemma of_Z_inj (a b : Z) : of_Z a = of_Z b -> a = b.
Proof. unfold of_Z, inject_Z. intros [= H]. exact H. Qed.

Lemma Qred_inject_Z (z : Z) : Qred (inject_Z z) = inject_Z z.
Proof.
  pose proof (Qred_correct (inject_Z z)) as Heq.
  pose proof (gcd_Qred (inject_Z z)) as Hgcd.
  destruct (Qred (inject_Z z)) as [a b].
  unfold Qeq, inject_Z in *. simpl in *.
  rewrite Z.mul_1_r in Heq. subst a.
  rewrite Z.mul_comm, Z.gcd_comm, Z.gcd_mul_diag_l in Hgcd by lia.
  injection Hgcd as ->. rewrite Z.mul_1_r. reflexivity.
Qed.

Lemma sub_of_Z (a b : Z) : sub (of_Z a) (of_Z b) = of_Z (a - b).
Proof.
  unfold sub, of_Z. f_equal.
  transitivity (Qred (inject_Z (a - b))); [|apply Qred_inject_Z].
  apply Qred_complete. unfold Z.sub.
  rewrite inject_Z_plus, inject_Z_opp. reflexivity.
Qed.

Lemma mul_of_Z (a b : Z) :
  0 <= a -> 0 <= b -> mul (of_Z a) (of_Z b) = of_Z (a * b).
Proof.
  intros Ha Hb. unfold mul, of_Z, is_zero, is_neg. simpl Qnum.
  replace (a <? 0) with false by (symmetry; apply Z.ltb_ge; lia).
  replace (b <? 0) with false by (symmetry; apply Z.ltb_ge; lia).
  destruct (Z.eqb_spec a 0) as [->|Ha0]; [reflexivity|].
  destruct (Z.eqb_spec b 0) as [->|Hb0];
    [rewrite Z.mul_0_r; reflexivity|].
  cbn [orb]. f_equal.
  transitivity (Qred (inject_Z (a * b))); [|apply Qred_inject_Z].
  apply Qred_complete. rewrite inject_Z_mult. reflexivity.
Qed.

Lemma as_count_of_Z (z : Z) :
  0 <= z -> Mongo.as_count (of_Z z) = Some (Z.to_nat z).
Proof.
  intros Hz. unfold Mongo.as_count, of_Z, inject_Z. simpl.
  destruct (Z.leb_spec 0 z); [reflexivity | lia].
Qed.









(** ** Sorting *)

Section SortFacts.
Context {A : Type} (leb : A -> A -> bool).
Hypothesis leb_total : forall a b, leb a b = true \/ leb b a = true.

Lemma insert_perm (x : A) (l : list A) : Permutation (x :: l) (insert leb x l).
Proof.
  induction l as [|y l IH]; simpl.
  - apply Permutation_refl.
  - destruct (leb x y).
    + apply Permutation_refl.
    + apply perm_trans with (y :: x :: l); [apply perm_swap|].
      apply perm_skip. exact IH.
Qed.

Lemma sort_perm (l : list A) : Permutation l (sort leb l).
Proof.
  induction l as [|x l IH]; simpl.
  - apply perm_nil.
  - apply perm_trans with (x :: sort leb l).
    + apply perm_skip. exact IH.
    + apply insert_perm.
Qed.

Lemma insert_hd (x y : A) (l : list A) :
  leb y x = true ->
  HdRel (fun a b => leb a b = true) y l ->
  HdRel (fun a b => leb a b = true) y (insert leb x l).
Proof.
  intros Hyx Hhd. destruct l as [|z l]; simpl.
  - constructor. exact Hyx.
  - destruct (leb x z); constructor.
    + exact Hyx.
    + inversion Hhd; assumption.
Qed.

Lemma insert_sorted (x : A) (l : list A) :
  Sorted (fun a b => leb a b = true) l ->
  Sorted (fun a b => leb a b = true) (insert leb x l).
Proof.
  induction l as [|y l IH]; intros Hs; simpl.
  - repeat constructor.
  - destruct (leb x y) eqn:Hxy.
    + constructor; [exact Hs|]. constructor. exact Hxy.
    + inversion Hs as [|? ? Hs' Hhd]; subst.
      constructor; [apply IH; exact Hs'|].
      apply insert_hd; [|exact Hhd].
      destruct (leb_total x y) as [H|H]; [congruence | exact H].
Qed.

Lemma sort_sorted (l : list A) :
  Sorted (fun a b => leb a b = true) (sort leb l).
Proof.
  induction l as [|x l IH]; simpl.
  - constructor.
  - apply insert_sorted. exact IH.
Qed.

End SortFacts.

(** Two orders that agree on the elements of a list sort it alike. *)
Lemma insert_ext_in {A : Type} (leb1 leb2 : A -> A -> bool)
    (x : A) (l : list A) :
  (forall y, In y l -> leb1 x y = leb2 x y) ->
  insert leb1 x l = insert leb2 x l.
Proof.
  induction l as [|y l IH]; intros H; simpl; [reflexivity|].
  rewrite (H y) by (left; reflexivity).
  destruct (leb2 x y); [reflexivity|].
  f_equal. apply IH. intros z Hz. apply H. right. exact Hz.
Qed.

Lemma sort_ext_in {A : Type} (leb1 leb2 : A -> A -> bool) (l : list A) :
  (forall a b, In a l -> In b l -> leb1 a b = leb2 a b) ->
  sort leb1 l = sort leb2 l.
Proof.
  induction l as [|x l IH]; intros H; simpl; [reflexivity|].
  rewrite IH by (intros a b Ha Hb; apply H; right; assumption).
  apply insert_ext_in. intros y Hy. apply H; [left; reflexivity|].
  right. apply (Permutation_in _ (Permutation_sym (sort_perm leb2 l))).
  exact Hy.
Qed.

Lemma newest_first_total (st : Store) (a b : Order.t) :
  Mongo.newest_first st a b = true \/ Mongo.newest_first st b a = true.
Proof. unfold Mongo.newest_first. lia. Qed.

(** The rank of the store only matters between two orders of the same
    [createdAt]. *)
Lemma newest_first_ties (st1 st2 : Store) (a b : Order.t) :
  (Order.createdAt a = Order.createdAt b -> a = b) ->
  Mongo.newest_first st1 a b = Mongo.newest_first st2 a b.
Proof.
  intros H. unfold Mongo.newest_first.
  destruct (Z.eqb_spec (Order.createdAt b) (Order.createdAt a)) as [E|E].
  - rewrite (H (eq_sym E)).
    rewrite !(proj2 (Z.leb_le _ _) (Z.le_refl _)). reflexivity.
  - rewrite !andb_false_l. reflexivity.
Qed.

Lemma ranked_perm (st : Store) (start : Z) (status_eq : option string) :
  Permutation (selection st start status_eq) (ranked st start status_eq).
Proof. apply sort_perm. Qed.

Lemma ranked_sorted (st : Store) (start : Z) (status_eq : option string) :
  Sorted (fun a b => Order.createdAt b <= Order.createdAt a)
         (ranked st start status_eq).
Proof.
  pose proof (sort_sorted (Mongo.newest_first st) (newest_first_total st)
                (selection st start status_eq)) as Hs.
  unfold ranked. induction Hs as [|a l Hs IH Hhd]; constructor.
  - exact IH.
  - destruct Hhd as [|b l Hab]; constructor.
    unfold Mongo.newest_first in Hab. lia.
Qed.

(** When the timestamps of the matching orders differ from one order to
    the other, their ranking does not depend on the store's way with ties. *)
Lemma ranked_ties
    (st : Store) (rank : Order.t -> Z) (start : Z) (status_eq : option string) :
  (forall a b,
     In a (selection st start status_eq) ->
     In b (selection st start status_eq) ->
     Order.createdAt a = Order.createdAt b -> a = b) ->
  ranked (with_ties st rank) start status_eq = ranked st start status_eq.
Proof.
  intros H. unfold ranked.
  change (selection (with_ties st rank) start status_eq)
    with (selection st start status_eq).
  apply sort_ext_in. intros a b Ha Hb.
  apply newest_first_ties. apply H; assumption.
Qed.

(** ** Pages of orders *)

Lemma skip_of_numeric (req : Request.t) (p l : Z) :
  parseInt (page_of req) = of_Z p ->
  parseInt (limit_of req) = of_Z l ->
  1 <= p -> 0 <= l ->
  skip_of req = of_Z ((p - 1) * l).
Proof.
  intros Hp Hl Hp1 Hl0. unfold skip_of.
  rewrite Hp, Hl, sub_of_Z, mul_of_Z by lia.
  reflexivity.
Qed.

Lemma take_positive {A : Type} (l : Z) (records : list A) :
  1 <= l -> Mongo.take (Z.to_nat l) records = firstn (Z.to_nat l) records.
Proof.
  intros Hl. unfold Mongo.take.
  destruct (Z.to_nat l) eqn:E; [lia | reflexivity].
Qed.

(** The run of [ordersList] for an admin caller on a store without
    faults, for a page [p >= 1] of [l >= 1] records. *)
Lemma ordersList_regular_run
    (clk : Clock) (st : Store) (req : Request.t) (u : Caller.t)
    (start p l : Z) :
  Request.user req = Some u ->
  Caller.role u = Some "admin" ->
  fault_free st ->
  getDateRange clk (Some (dateRange_of req)) = Some start ->
  parseInt (page_of req) = of_Z p ->
  parseInt (limit_of req) = of_Z l ->
  1 <= p -> 1 <= l ->
  run (ordersList clk req) st
  = (Ok (Response.mk 200
           (OrdersBody
              (map (Mongo.populate st)
                   (page_slice p l (ranked st start (status_of req))))
              (Pagination.mk
                 (of_Z p)
                 (of_Z (ceil_div
                          (Z.of_nat
                             (List.length (selection st start (status_of req))))
                          l))
                 (List.length (selection st start (status_of req)))
                 (of_Z l)))),
     [Find (Filter.mk (Some start) (status_of req))
           (of_Z ((p - 1) * l)) (of_Z l);
      CountDocuments (Filter.mk (Some start) (status_of req))]).
Proof.
  intros Hu Hrole Hfree Hstart Hp Hl Hp1 Hl1.
  unfold run, ordersList, try_catch, bind, req_user_role.
  rewrite Hu. cbn [ret]. rewrite Hrole.
  replace (strict_eq (Some "admin") "admin") with true by reflexivity.
  cbn [negb].
  fold (page_of req) (limit_of req) (dateRange_of req).
  change (if negb (String.eqb (default_to "all" (Request.status (Request.query req))) "all")
          then Some (default_to "all" (Request.status (Request.query req)))
          else None) with (status_of req).
  fold (skip_of req).
  rewrite (skip_of_numeric req p l Hp Hl) by lia.
  rewrite Hstart, Hp, Hl.
  unfold Order_find, Order_countDocuments, await.
  rewrite !Hfree.
  unfold Mongo.find_orders, Mongo.countDocuments, Mongo.select.
  cbn [Filter.createdAt_gte Filter.status_eq].
  rewrite !as_count_of_Z by nia.
  cbn [Mongo.map_result List.length app]. rewrite ?Hfree.
  cbn [Mongo.map_result]. unfold ret, res_json.
  rewrite take_positive by assumption.
  unfold of_nat. rewrite Math_ceil_div_of_Z by lia.
  reflexivity.
Qed.

Lemma populate_public (st : Store) (us : list User.t) (o : Order.t) :
  map public_view us = map public_view (users st) ->
  Mongo.populate (with_users st us) o = Mongo.populate st o.
Proof.
  intros Hview. unfold Mongo.populate. f_equal.
  cbn [users with_users].
  revert Hview. generalize (users st) as vs.
  induction us as [|a us IH]; intros [|b vs] Hview; try discriminate.
  - reflexivity.
  - injection Hview as Hid Hname Hemail Hrest. simpl.
    rewrite Hid. destruct (User._id b =? Order.user_id o).
    + simpl. congruence.
    + apply IH. exact Hrest.
Qed.

Lemma find_orders_public
    (st : Store) (us : list User.t) (f : Filter.t) (skip limit : number) :
  map public_view us = map public_view (users st) ->
  Mongo.find_orders (with_users st us) f skip limit
  = Mongo.find_orders st f skip limit.
Proof.
  intros Hview. unfold Mongo.find_orders, Mongo.select.
  cbn [orders find_irregular with_users].
  destruct (Mongo.as_count skip), (Mongo.as_count limit); try reflexivity.
  destruct (Filter.createdAt_gte f); [|reflexivity].
  cbn [Mongo.map_result]. f_equal.
  change (Mongo.newest_first (with_users st us)) with (Mongo.newest_first st).
  apply map_ext.
  intros o. apply populate_public. exact Hview.
Qed.

(** What [ordersList] answers depends on the users through their
    identifier, name and email only. *)
Lemma ordersList_public
    (clk : Clock) (st : Store) (req : Request.t) (us : list User.t) :
  map public_view us = map public_view (users st) ->
  run (ordersList clk req) (with_users st us) = run (ordersList clk req) st.
Proof.
  intros Hview.
  unfold run, ordersList, try_catch, bind, req_user_role.
  destruct (Request.user req) as [u|]; [|reflexivity].
  cbn [ret]. destruct (negb (strict_eq (Caller.role u) "admin"));
    [reflexivity|].
  unfold Order_find, Order_countDocuments, await.
  cbn [fault with_users].
  rewrite (find_orders_public st us _ _ _ Hview).
  reflexivity.
Qed.

Lemma NoDup_map_eq {A B : Type} (f : A -> B) (l : list A) (a b : A) :
  NoDup (map f l) -> In a l -> In b l -> f a = f b -> a = b.
Proof.
  induction l as [|x l IH]; intros Hnd Ha Hb Hf; [contradiction|].
  simpl in Hnd. inversion Hnd as [|? ? Hx Hnd']; subst.
  destruct Ha as [->|Ha], Hb as [->|Hb].
  - reflexivity.
  - exfalso. apply Hx. rewrite Hf. apply in_map. exact Hb.
  - exfalso. apply Hx. rewrite <- Hf. apply in_map. exact Ha.
  - apply IH; assumption.
Qed.

(** What a user becomes in a populated reference. *)
Lemma populate_resolves (st : Store) (o : Order.t) (v : User.t) :
  In v (users st) -> User._id v = Order.user_id o ->
  exists w,
    In w (users st) /\ User._id w = Order.user_id o /\
    PopulatedOrder.user_id (Mongo.populate st o)
    = Some (PopulatedUser.mk (User._id w) (User.name w) (User.email w)).
Proof.
  intros Hin Hid. unfold Mongo.populate. cbn [PopulatedOrder.user_id].
  destruct (find _ (users st)) as [w|] eqn:Hfind.
  - apply find_some in Hfind. destruct Hfind as [Hw Hwid].
    exists w. repeat split; [assumption | lia].
  - apply (find_none _ _ Hfind) in Hin. lia.
Qed.

Lemma populate_dangling (st : Store) (o : Order.t) :
  (forall v, In v (users st) -> User._id v <> Order.user_id o) ->
  PopulatedOrder.user_id (Mongo.populate st o) = None.
Proof.
  intros H. unfold Mongo.populate. cbn [PopulatedOrder.user_id].
  destruct (find _ (users st)) as [w|] eqn:Hfind; [|reflexivity].
  apply find_some in Hfind. destruct Hfind as [Hw Hwid].
  exfalso. apply (H w Hw). lia.
Qed.

Lemma populate_unique (st : Store) (o : Order.t) (v : User.t) :
  NoDup (map User._id (users st)) ->
  In v (users st) -> User._id v = Order.user_id o ->
  PopulatedOrder.user_id (Mongo.populate st o)
  = Some (PopulatedUser.mk (User._id v) (User.name v) (User.email v)).
Proof.
  intros Hnd Hin Hid.
  destruct (populate_resolves st o v Hin Hid) as (w & Hw & Hwid & ->).
  rewrite (NoDup_map_eq User._id (users st) w v Hnd Hw Hin) by congruence.
  reflexivity.
Qed.

(** C4.  For an admin caller, a store without faults and a page [p >= 1]
    of [l >= 1] records ([l] and the number [(p - 1) * l] of records to
    skip being 2^53 at most, so that they are computed exactly),
    [ordersList] answers 200 with the records of the matching orders,
    ranked newest first, that follow the first [(p - 1) * l] ones, [l] of
    them at most.  A record is its order with
    the reference to the user resolved: to the identifier, the name and
    the email of a user with that identifier when there is one (of the
    user, when identifiers are unique), and to nothing when there is none.
    The answer is the same for any collection of users with these three
    fields.  With 25 matching orders, page 3 of 10 holds the 5 records
    ranked 21 to 25 and [totalPages] is 3. *)
Theorem orders_page
    (clk : Clock) (st : Store) (req : Request.t) (u : Caller.t)
    (start p l : Z) :
  Request.user req = Some u ->
  Caller.role u = Some "admin" ->
  fault_free st ->
  getDateRange clk (Some (dateRange_of req)) = Some start ->
  parseInt (page_of req) = of_Z p ->
  parseInt (limit_of req) = of_Z l ->
  1 <= p -> 1 <= l <= 2 ^ 53 -> (p - 1) * l <= 2 ^ 53 ->
  exists pg log,
    run (ordersList clk req) st
    = (Ok (Response.mk 200
             (OrdersBody
                (map (Mongo.populate st)
                     (page_slice p l (ranked st start (status_of req))))
                pg)),
       log) /\
    Permutation (selection st start (status_of req))
                (ranked st start (status_of req)) /\
    Sorted (fun a b => Order.createdAt b <= Order.createdAt a)
           (ranked st start (status_of req)) /\
    (forall o,
       PopulatedOrder._id (Mongo.populate st o) = Order._id o /\
       PopulatedOrder.items (Mongo.populate st o) = Order.items o /\
       PopulatedOrder.total (Mongo.populate st o) = Order.total o /\
       PopulatedOrder.status (Mongo.populate st o) = Order.status o /\
       PopulatedOrder.createdAt (Mongo.populate st o) = Order.createdAt o /\
       (forall v,
          In v (users st) -> User._id v = Order.user_id o ->
          exists w,
            In w (users st) /\ User._id w = Order.user_id o /\
            PopulatedOrder.user_id (Mongo.populate st o)
            = Some (PopulatedUser.mk (User._id w) (User.name w)
                                     (User.email w))) /\
       (forall v,
          NoDup (map User._id (users st)) ->
          In v (users st) -> User._id v = Order.user_id o ->
          PopulatedOrder.user_id (Mongo.populate st o)
          = Some (PopulatedUser.mk (User._id v) (User.name v)
                                   (User.email v))) /\
       ((forall v, In v (users st) -> User._id v <> Order.user_id o) ->
        PopulatedOrder.user_id (Mongo.populate st o) = None)) /\
    (forall us,
       map public_view us = map public_view (users st) ->
       run (ordersList clk req) (with_users st us)
       = run (ordersList clk req) st) /\
    (p = 3 -> l = 10 ->
     List.length (selection st start (status_of req)) = 25%nat ->
     Pagination.totalPages pg = of_Z 3 /\
     page_slice p l (ranked st start (status_of req))
     = skipn 20 (ranked st start (status_of req)) /\
     List.length (page_slice p l (ranked st start (status_of req))) = 5%nat).
Proof.
  intros Hu Hrole Hfree Hstart Hp Hl Hp1 [Hl1 _] _.
  eexists _, _. split.
  - apply (ordersList_regular_run clk st req u start p l); assumption.
  - split; [apply ranked_perm|].
    split; [apply ranked_sorted|].
    split.
    { intros o. do 5 (split; [reflexivity|]).
      split; [intros v; apply populate_resolves|].
      split; [intros v; apply populate_unique|].
      apply populate_dangling. }
    split; [intros us; apply ordersList_public|].
    intros -> -> Hlen. cbn [Pagination.totalPages]. rewrite Hlen.
    split; [reflexivity|].
    assert (Hranked : List.length (ranked st start (status_of req)) = 25%nat).
    { rewrite <- Hlen. symmetry. apply Permutation_length, ranked_perm. }
    unfold page_slice.
    replace (Z.to_nat ((3 - 1) * 10)) with 20%nat by reflexivity.
    replace (Z.to_nat 10) with 10%nat by reflexivity.
    rewrite firstn_all2 by (rewrite length_skipn; lia).
    split; [reflexivity|]. rewrite length_skipn. lia.
Qed.

Lemma orders_page_witness :
  exists os pg log,
    run (ordersList sample_clock (admin_request (paging "3" "10"))) store_of_25
    = (Ok (Response.mk 200 (OrdersBody os pg)), log) /\
    map PopulatedOrder._id os = [5; 4; 3; 2; 1] /\
    map PopulatedOrder.user_id os
    = repeat (Some (PopulatedUser.mk 7 "Ann" "ann@example.org")) 5 /\
    Pagination.totalPages pg = of_Z 3.
Proof.
  assert (Hp : parseInt (page_of (admin_request (paging "3" "10"))) = of_Z 3)
    by (vm_compute; reflexivity).
  assert (Hl : parseInt (limit_of (admin_request (paging "3" "10"))) = of_Z 10)
    by (vm_compute; reflexivity).
  destruct (orders_page sample_clock store_of_25
              (admin_request (paging "3" "10")) (Caller.mk (Some "admin"))
              1699395200123 3 10)
    as (pg & log & Hrun & _ & _ & _ & _ & Hscenario).
  - reflexivity.
  - reflexivity.
  - intros i q. reflexivity.
  - reflexivity.
  - exact Hp.
  - exact Hl.
  - lia.
  - split; vm_compute; discriminate.
  - vm_compute. discriminate.
  - eexists _, pg, log. split; [exact Hrun|]. split.
    + vm_compute. reflexivity.
    + split; [vm_compute; reflexivity|].
      apply Hscenario; reflexivity.
Defined.

(** C4, the fields of a reference.  The newest order of the sample store
    refers to the user 7: in the response its reference holds the
    identifier 7 of that user, besides her name and her email. *)
Lemma populated_reference_counterexample :
  exists os pg log ref,
    run (ordersList sample_clock (admin_request (paging "1" "1"))) sample_store
    = (Ok (Response.mk 200 (OrdersBody os pg)), log) /\
    map PopulatedOrder.user_id os = [Some ref] /\
    ref = PopulatedUser.mk 7 "Ann" "ann@example.org" /\
    PopulatedUser._id ref = 7 /\
    In (User.mk 7 "Ann" "ann@example.org" "customer") (users sample_store).
Proof.
  eexists _, _, _, _.
  split; [vm_compute; reflexivity|].
  split; [reflexivity|].
  split; [reflexivity|].
  split; [reflexivity|].
  left. reflexivity.
Qed.

(** ** The calendar *)

Lemma YearFromDay_spec (d : Z) :
  DayFromYear (YearFromDay d) <= d < DayFromYear (YearFromDay d + 1).
Proof.
  unfold YearFromDay.
  destruct (Z.leb_spec (DayFromYear (1970 + 400 * d / 146097 + 1)) d);
    [|destruct (Z.ltb_spec d (DayFromYear (1970 + 400 * d / 146097)))];
    unfold DayFromYear in *; Z.to_euclidean_division_equations; lia.
Qed.

Lemma DaysInYear_step (y : Z) :
  DayFromYear (y + 1) = DayFromYear y + DaysInYear y.
Proof.
  unfold DayFromYear, DaysInYear.
  destruct (Z.eqb_spec (y mod 4) 0); simpl negb; cbv iota;
    [destruct (Z.eqb_spec (y mod 100) 0); simpl negb; cbv iota;
     [destruct (Z.eqb_spec (y mod 400) 0); simpl negb; cbv iota|]|];
    Z.to_euclidean_division_equations; lia.
Qed.

Lemma DayWithinYear_range (t : Z) :
  0 <= DayWithinYear t < 365 + InLeapYear t.
Proof.
  unfold DayWithinYear, InLeapYear, YearFromTime.
  pose proof (YearFromDay_spec (Day t)) as H.
  rewrite DaysInYear_step in H.
  assert (DaysInYear (YearFromDay (Day t)) = 365 \/
          DaysInYear (YearFromDay (Day t)) = 366) as [E|E].
  { unfold DaysInYear.
    repeat match goal with |- context [if ?b then _ else _] => destruct b end;
      auto. }
  - rewrite E in *. simpl. lia.
  - rewrite E in *. simpl. lia.
Qed.

Lemma InLeapYear_cases (t : Z) : InLeapYear t = 0 \/ InLeapYear t = 1.
Proof. unfold InLeapYear. destruct (_ =? _); auto. Qed.

Lemma DateFromTime_range (t : Z) : 1 <= DateFromTime t <= 31.
Proof.
  pose proof (DayWithinYear_range t) as Hd.
  unfold DateFromTime, MonthFromTime.
  destruct (InLeapYear_cases t) as [E|E]; rewrite E in *;
    repeat match goal with
      | |- context [if ?a <? ?b then _ else _] => destruct (Z.ltb_spec a b)
      end;
    simpl month_start; lia.
Qed.

(** A day number is determined by its year, month and day of the month. *)
Lemma Day_from_civil (t : Z) :
  Day t
  = DayFromYear (YearFromTime t)
    + month_start (InLeapYear t) (MonthFromTime t) + DateFromTime t - 1.
Proof. unfold DateFromTime, DayWithinYear. lia. Qed.

Lemma civil_from_Day (t1 t2 : Z) :
  Day t1 = Day t2 ->
  YearFromTime t1 = YearFromTime t2 /\
  MonthFromTime t1 = MonthFromTime t2 /\
  DateFromTime t1 = DateFromTime t2.
Proof.
  intros H.
  assert (Hy : YearFromTime t1 = YearFromTime t2)
    by (unfold YearFromTime; rewrite H; reflexivity).
  assert (Hl : InLeapYear t1 = InLeapYear t2)
    by (unfold InLeapYear; rewrite Hy; reflexivity).
  assert (Hd : DayWithinYear t1 = DayWithinYear t2)
    by (unfold DayWithinYear; rewrite H, Hy; reflexivity).
  assert (Hm : MonthFromTime t1 = MonthFromTime t2)
    by (unfold MonthFromTime; rewrite Hd, Hl; reflexivity).
  repeat split; try assumption.
  unfold DateFromTime. rewrite Hd, Hl, Hm. reflexivity.
Qed.

(** ** Date keys *)

Lemma digit_char_inj (a b : Z) :
  0 <= a < 10 -> 0 <= b < 10 ->
  Mongo.digit_char a = Mongo.digit_char b -> a = b.
Proof.
  intros Ha Hb H. unfold Mongo.digit_char in H.
  apply (f_equal nat_of_ascii) in H.
  rewrite !nat_ascii_embedding in H
    by (pose proof (Z.mod_pos_bound a 10); pose proof (Z.mod_pos_bound b 10);
        lia).
  rewrite !Z.mod_small in H by lia. lia.
Qed.

Lemma digit_char_mod (a : Z) : Mongo.digit_char a = Mongo.digit_char (a mod 10).
Proof. unfold Mongo.digit_char. rewrite Z.mod_mod by lia. reflexivity. Qed.

Lemma pad2_inj (a b : Z) :
  0 <= a < 100 -> 0 <= b < 100 -> Mongo.pad2 a = Mongo.pad2 b -> a = b.
Proof.
  intros Ha Hb H. unfold Mongo.pad2 in H. injection H as H1 H0.
  rewrite (digit_char_mod a), (digit_char_mod b) in H0.
  apply digit_char_inj in H1;
    [|Z.to_euclidean_division_equations; lia ..].
  apply digit_char_inj in H0;
    [|Z.to_euclidean_division_equations; lia ..].
  Z.to_euclidean_division_equations; lia.
Qed.

Lemma pad4_inj (a b : Z) :
  0 <= a <= 9999 -> 0 <= b <= 9999 -> Mongo.pad4 a = Mongo.pad4 b -> a = b.
Proof.
  intros Ha Hb H. unfold Mongo.pad4, Mongo.pad2 in H.
  injection H as H3 H2 H1 H0.
  rewrite (digit_char_mod a), (digit_char_mod b) in H0.
  rewrite (digit_char_mod (a / 10)), (digit_char_mod (b / 10)) in H1.
  rewrite (digit_char_mod (a / 100)), (digit_char_mod (b / 100)) in H2.
  apply digit_char_inj in H3;
    [|Z.to_euclidean_division_equations; lia ..].
  apply digit_char_inj in H2;
    [|Z.to_euclidean_division_equations; lia ..].
  apply digit_char_inj in H1;
    [|Z.to_euclidean_division_equations; lia ..].
  apply digit_char_inj in H0;
    [|Z.to_euclidean_division_equations; lia ..].
  Z.to_euclidean_division_equations; lia.
Qed.

Lemma dateToString_Ok (t : Z) (k : string) :
  Mongo.dateToString t = Ok k ->
  0 <= YearFromTime t <= 9999 /\ k = Mongo.format_Ymd t.
Proof.
  unfold Mongo.dateToString.
  destruct (Z.leb_spec 0 (YearFromTime t));
    destruct (Z.leb_spec (YearFromTime t) 9999); simpl;
    intros [= <-] || discriminate.
  split; [lia | reflexivity].
Qed.

(** Two instants have the same date key exactly when they fall on the
    same day. *)
Lemma format_Ymd_inj (t1 t2 : Z) :
  0 <= YearFromTime t1 <= 9999 ->
  0 <= YearFromTime t2 <= 9999 ->
  Mongo.format_Ymd t1 = Mongo.format_Ymd t2 ->
  Day t1 = Day t2.
Proof.
  intros Hy1 Hy2 H.
  pose proof (MonthFromTime_range t1). pose proof (MonthFromTime_range t2).
  pose proof (DateFromTime_range t1). pose proof (DateFromTime_range t2).
  unfold Mongo.format_Ymd in H.
  assert (Hy : Mongo.pad4 (YearFromTime t1) = Mongo.pad4 (YearFromTime t2) /\
               Mongo.pad2 (MonthFromTime t1 + 1)
               = Mongo.pad2 (MonthFromTime t2 + 1) /\
               Mongo.pad2 (DateFromTime t1) = Mongo.pad2 (DateFromTime t2)).
  { unfold Mongo.pad4, Mongo.pad2 in *. simpl in H.
    injection H as ? ? ? ? ? ? ? ?. repeat split; congruence. }
  destruct Hy as (Hy & Hm & Hd).
  apply pad4_inj in Hy; [|lia ..].
  apply pad2_inj in Hm; [|lia ..].
  apply pad2_inj in Hd; [|lia ..].
  rewrite (Day_from_civil t1), (Day_from_civil t2).
  unfold InLeapYear. rewrite Hy, Hd.
  replace (MonthFromTime t1) with (MonthFromTime t2) by lia.
  reflexivity.
Qed.

Lemma format_Ymd_Day (t1 t2 : Z) :
  Day t1 = Day t2 -> Mongo.format_Ymd t1 = Mongo.format_Ymd t2.
Proof.
  intros H. destruct (civil_from_Day t1 t2 H) as (Hy & Hm & Hd).
  unfold Mongo.format_Ymd. rewrite Hy, Hm, Hd. reflexivity.
Qed.

(** ** The daily grouping *)

Lemma sum_totals_snoc (l : list Order.t) (o : Order.t) :
  Mongo.sum_totals (l ++ [o])
  = Double.add (Mongo.sum_totals l) (Order.total o).
Proof. unfold Mongo.sum_totals. rewrite fold_left_app. reflexivity. Qed.

Lemma orders_on_snoc (k k' : string) (seen : list Order.t) (o : Order.t) :
  Mongo.dateToString (Order.createdAt o) = Ok k ->
  orders_on k' (seen ++ [o])
  = (orders_on k' seen ++ if String.eqb k k' then [o] else [])%list.
Proof.
  intros Hk. unfold orders_on. rewrite filter_app. simpl.
  unfold on_day at 2. rewrite Hk. destruct (String.eqb k k'); reflexivity.
Qed.

Lemma daily_row_ok_other
    (k : string) (seen : list Order.t) (o : Order.t) (r : DailyRow.t) :
  Mongo.dateToString (Order.createdAt o) = Ok k ->
  DailyRow._id r <> k ->
  daily_row_ok seen r -> daily_row_ok (seen ++ [o]) r.
Proof.
  intros Hk Hne Hr. unfold daily_row_ok.
  rewrite (orders_on_snoc k _ seen o Hk).
  destruct (String.eqb_spec k (DailyRow._id r)); [congruence|].
  rewrite app_nil_r. exact Hr.
Qed.

Lemma add_daily_keys (k : string) (x : double) (rows : list DailyRow.t) :
  (In k (map DailyRow._id rows) /\
   map DailyRow._id (Mongo.add_daily k x rows) = map DailyRow._id rows) \/
  (~ In k (map DailyRow._id rows) /\
   map DailyRow._id (Mongo.add_daily k x rows)
   = (map DailyRow._id rows ++ [k])%list).
Proof.
  induction rows as [|r rows IH]; simpl.
  - right. split; [tauto | reflexivity].
  - destruct (String.eqb_spec (DailyRow._id r) k) as [E|E]; simpl.
    + left. split; [left; exact E | rewrite E; reflexivity].
    + destruct IH as [[Hin Heq] | [Hnin Heq]]; rewrite Heq.
      * left. split; [right; exact Hin | reflexivity].
      * right. split; [tauto | reflexivity].
Qed.

Lemma add_daily_rows
    (k : string) (seen : list Order.t) (o : Order.t) (rows : list DailyRow.t) :
  Mongo.dateToString (Order.createdAt o) = Ok k ->
  NoDup (map DailyRow._id rows) ->
  Forall (daily_row_ok seen) rows ->
  (~ In k (map DailyRow._id rows) -> orders_on k seen = []) ->
  Forall (daily_row_ok (seen ++ [o])) (Mongo.add_daily k (Order.total o) rows).
Proof.
  intros Hk. induction rows as [|r rows IH]; intros Hnd Hrows Hnew; simpl.
  - constructor; [|constructor]. unfold daily_row_ok. simpl.
    rewrite (orders_on_snoc k k seen o Hk), String.eqb_refl, Hnew by tauto.
    simpl. repeat split. discriminate.
  - inversion Hnd as [|? ? Hnotin Hnd']; subst.
    inversion Hrows as [|? ? Hr Hrows']; subst.
    destruct (String.eqb_spec (DailyRow._id r) k) as [E|E].
    + constructor.
      * destruct Hr as (Hne & Hc & Hv). rewrite E in Hne, Hc, Hv.
        unfold daily_row_ok. simpl.
        rewrite (orders_on_snoc k k seen o Hk), String.eqb_refl.
        repeat split.
        -- destruct (orders_on k seen); discriminate.
        -- rewrite length_app. simpl. lia.
        -- rewrite sum_totals_snoc. congruence.
      * rewrite Forall_forall in Hrows' |- *. intros r' Hin.
        apply (daily_row_ok_other k); [exact Hk| |apply Hrows'; exact Hin].
        intros E'. apply Hnotin. rewrite E, <- E'. apply in_map. exact Hin.
    + constructor.
      * apply (daily_row_ok_other k); assumption.
      * apply IH; try assumption.
        intros Hnin. apply Hnew. simpl. tauto.
Qed.

Lemma add_daily_inv
    (k : string) (seen : list Order.t) (o : Order.t) (rows : list DailyRow.t) :
  Mongo.dateToString (Order.createdAt o) = Ok k ->
  daily_inv rows seen ->
  daily_inv (Mongo.add_daily k (Order.total o) rows) (seen ++ [o]).
Proof.
  intros Hk (Hnd & Hrows & Hseen).
  assert (Hnew : ~ In k (map DailyRow._id rows) -> orders_on k seen = []).
  { intros Hnin. unfold orders_on.
    destruct (filter (on_day k) seen) as [|o' l'] eqn:Hf; [reflexivity|].
    exfalso. assert (Hin : In o' (filter (on_day k) seen))
      by (rewrite Hf; left; reflexivity).
    apply filter_In in Hin. destruct Hin as [Hin Hday].
    destruct (Hseen o' Hin) as (k' & Hk' & Hin').
    unfold on_day in Hday. rewrite Hk' in Hday.
    apply String.eqb_eq in Hday. subst k'. contradiction. }
  split; [|split].
  - destruct (add_daily_keys k (Order.total o) rows) as [[_ ->] | [Hnin ->]].
    + exact Hnd.
    + apply NoDup_app; [exact Hnd | repeat constructor; simpl; tauto|].
      intros k' Hin [<-|[]]. contradiction.
  - apply add_daily_rows; assumption.
  - intros o' Hin. apply in_app_or in Hin.
    destruct (add_daily_keys k (Order.total o) rows) as [[Hk0 ->] | [_ ->]].
    + destruct Hin as [Hin | [<-|[]]]; [apply Hseen; exact Hin | eauto].
    + destruct Hin as [Hin | [<-|[]]].
      * destruct (Hseen o' Hin) as (k' & Hk' & Hin').
        exists k'. split; [exact Hk' | apply in_or_app; left; exact Hin'].
      * exists k. split; [exact Hk | apply in_or_app; right; left; reflexivity].
Qed.

Lemma group_daily_inv
    (l seen : list Order.t) (rows rows' : list DailyRow.t) :
  daily_inv rows seen ->
  Mongo.group_daily l rows = Ok rows' ->
  daily_inv rows' (seen ++ l).
Proof.
  revert seen rows. induction l as [|o l IH]; intros seen rows Hinv; simpl.
  - intros [= <-]. rewrite app_nil_r. exact Hinv.
  - destruct (Mongo.dateToString (Order.createdAt o)) as [k|e] eqn:Hk;
      [|discriminate].
    intros Hg.
    replace (seen ++ o :: l)%list with ((seen ++ [o]) ++ l)%list
      by (rewrite <- app_assoc; reflexivity).
    apply (IH _ _ (add_daily_inv k seen o rows Hk Hinv) Hg).
Qed.

Lemma group_daily_spec (l : list Order.t) (rows : list DailyRow.t) :
  Mongo.group_daily l [] = Ok rows -> daily_inv rows l.
Proof.
  intros Hg. apply (group_daily_inv l [] [] rows); [|exact Hg].
  split; [constructor|]. split; [constructor|]. intros o [].
Qed.

(** ** The chart *)

(** A response of [ordersChart] that carries a chart: the rows of the
    daily grouping of the selection, sorted by date key. *)
Lemma ordersChart_body_inv
    (clk : Clock) (st : Store) (req : Request.t)
    (resp : Response.t) (log : list DbQuery) (cd : list ChartPoint.t) :
  run (ordersChart clk req) st = (Ok resp, log) ->
  Response.body resp = ChartBody cd ->
  exists start rows,
    getDateRange clk (Some (dateRange_of req)) = Some start /\
    Mongo.group_daily (selection st start None) [] = Ok rows /\
    cd = map chart_point (sort Mongo.daily_leb rows).
Proof.
  unfold run, ordersChart, try_catch, bind, req_user_role.
  destruct (Request.user req) as [u|]; simpl;
    [|intros [= <- _]; discriminate].
  destruct (strict_eq (Caller.role u) "admin"); simpl;
    [|intros [= <- _]; discriminate].
  fold (dateRange_of req).
  unfold Order_aggregate_daily, await, Mongo.aggregate_daily, Mongo.select, since.
  cbn [Filter.createdAt_gte Filter.status_eq].
  destruct (fault st _ _);
    [cbn [fst snd]; intros [= <- _]; discriminate|].
  destruct (getDateRange clk (Some (dateRange_of req))) as [start|];
    [|intros [= <- _]; discriminate].
  fold (selection st start None).
  destruct (Mongo.group_daily (selection st start None) []) as [rows|e]
    eqn:Hg; [|intros [= <- _]; discriminate].
  cbn [Mongo.map_result]. unfold ret, res_json.
  intros [= <- _]. cbn [Response.body]. intros [= <-].
  exists start, rows. repeat split; try reflexivity. exact Hg.
Qed.

Lemma Sorted_map {A B : Type} (f : A -> B) (R : A -> A -> Prop)
    (S : B -> B -> Prop) (l : list A) :
  (forall a b, R a b -> S (f a) (f b)) -> Sorted R l -> Sorted S (map f l).
Proof.
  intros HRS Hs. induction Hs as [|a l Hs IH Hhd]; simpl; constructor.
  - exact IH.
  - destruct Hhd as [|b l Hab]; simpl; constructor. apply HRS. exact Hab.
Qed.

Lemma daily_leb_total (a b : DailyRow.t) :
  Mongo.daily_leb a b = true \/ Mongo.daily_leb b a = true.
Proof. apply String.leb_total. Qed.

Lemma chart_dates (rows : list DailyRow.t) :
  map ChartPoint.date (map chart_point rows) = map DailyRow._id rows.
Proof. rewrite map_map. reflexivity. Qed.

(** The date keys of the grouping are those of the orders. *)
Lemma daily_keys (l : list Order.t) (rows : list DailyRow.t) (k : string) :
  daily_inv rows l ->
  In k (map DailyRow._id rows) <->
  exists o, In o l /\ Mongo.dateToString (Order.createdAt o) = Ok k.
Proof.
  intros (_ & Hrows & Hseen). split.
  - intros Hin. apply in_map_iff in Hin. destruct Hin as (r & <- & Hin).
    rewrite Forall_forall in Hrows. destruct (Hrows r Hin) as (Hne & _).
    unfold orders_on in Hne.
    destruct (filter (on_day (DailyRow._id r)) l) as [|o l'] eqn:Hf;
      [congruence|].
    assert (Ho : In o (filter (on_day (DailyRow._id r)) l))
      by (rewrite Hf; left; reflexivity).
    apply filter_In in Ho. destruct Ho as [Ho Hday].
    exists o. split; [exact Ho|]. unfold on_day in Hday.
    destruct (Mongo.dateToString (Order.createdAt o)); [|discriminate].
    apply String.eqb_eq in Hday. congruence.
  - intros (o & Ho & Hk). destruct (Hseen o Ho) as (k' & Hk' & Hin).
    congruence.
Qed.

(** One date key per day: as many rows as there are days with an order. *)
Lemma daily_length (l : list Order.t) (rows : list DailyRow.t) :
  daily_inv rows l -> List.length rows = List.length (days_of l).
Proof.
  intros Hinv.
  assert (Hyear : forall o, In o l ->
            0 <= YearFromTime (Order.createdAt o) <= 9999 /\
            Mongo.dateToString (Order.createdAt o)
            = Ok (Mongo.format_Ymd (Order.createdAt o))).
  { intros o Ho. destruct Hinv as (_ & _ & Hseen).
    destruct (Hseen o Ho) as (k & Hk & _).
    destruct (dateToString_Ok _ _ Hk) as [Hy ->]. split; assumption. }
  assert (Hday : forall d, In d (days_of l) <->
            exists o, In o l /\ Day (Order.createdAt o) = d).
  { intros d. unfold days_of. rewrite nodup_In, in_map_iff.
    split; intros (o & H1 & H2); exists o; split; assumption. }
  set (key := fun d => Mongo.format_Ymd (d * msPerDay)).
  assert (Hkey : forall o, key (Day (Order.createdAt o))
                           = Mongo.format_Ymd (Order.createdAt o)).
  { intros o. apply format_Ymd_Day. unfold Day, msPerDay.
    rewrite Z.div_mul by lia. reflexivity. }
  rewrite <- (length_map DailyRow._id), <- (length_map key (days_of l)).
  apply Permutation_length, NoDup_Permutation.
  - apply Hinv.
  - apply NoDup_map_NoDup_ForallPairs; [|apply NoDup_nodup].
    intros d1 d2 H1 H2 Heq.
    apply Hday in H1, H2.
    destruct H1 as (o1 & Ho1 & <-), H2 as (o2 & Ho2 & <-).
    rewrite !Hkey in Heq.
    apply format_Ymd_inj; [apply Hyear; exact Ho1 | apply Hyear; exact Ho2|].
    exact Heq.
  - intros k. rewrite (daily_keys l rows k Hinv), in_map_iff. split.
    + intros (o & Ho & Hk). exists (Day (Order.createdAt o)). split.
      * rewrite Hkey. destruct (Hyear o Ho) as [_ Hk']. congruence.
      * apply Hday. eauto.
    + intros (d & <- & Hd). apply Hday in Hd. destruct Hd as (o & Ho & <-).
      exists o. split; [exact Ho|]. rewrite Hkey. apply Hyear. exact Ho.
Qed.

(** With no matching order the chart is the empty sequence, with
    status 200. *)
Lemma ordersChart_empty_run
    (clk : Clock) (st : Store) (req : Request.t) (u : Caller.t) (start : Z) :
  Request.user req = Some u ->
  Caller.role u = Some "admin" ->
  fault_free st ->
  getDateRange clk (Some (dateRange_of req)) = Some start ->
  selection st start None = [] ->
  run (ordersChart clk req) st
  = (Ok (Response.mk 200 (ChartBody [])),
     [AggregateDaily (since (Some start))]).
Proof.
  intros Hu Hrole Hfree Hstart Hsel.
  unfold run, ordersChart, try_catch, bind, req_user_role.
  rewrite Hu. cbn [ret]. rewrite Hrole.
  replace (strict_eq (Some "admin") "admin") with true by reflexivity.
  cbn [negb]. fold (dateRange_of req). rewrite Hstart.
  unfold Order_aggregate_daily, await, Mongo.aggregate_daily, Mongo.select,
    since.
  rewrite Hfree. cbn [Filter.createdAt_gte Filter.status_eq].
  fold (selection st start None). rewrite Hsel. reflexivity.
Qed.

(** C7.  In every response of [ordersChart] that carries a chart, the
    points are sorted by non-decreasing date key, no date key occurs twice,
    the date keys are those of the matching orders, there are as many
    points as distinct days with a matching order, each point counts the
    orders of its day (one at least), and the chart is empty when no order
    matches.  For an admin caller and a store without faults, no matching
    order gives status 200 with the empty chart, not an error. *)
Theorem chart_is_daily_series
    (clk : Clock) (st : Store) (req : Request.t) :
  (forall resp log cd,
     run (ordersChart clk req) st = (Ok resp, log) ->
     Response.body resp = ChartBody cd ->
     exists start,
       getDateRange clk (Some (dateRange_of req)) = Some start /\
       Sorted (fun a b =>
                 String.leb (ChartPoint.date a) (ChartPoint.date b) = true) cd /\
       NoDup (map ChartPoint.date cd) /\
       (forall k,
          In k (map ChartPoint.date cd) <->
          exists o, In o (selection st start None) /\
                    Mongo.dateToString (Order.createdAt o) = Ok k) /\
       List.length cd = List.length (days_of (selection st start None)) /\
       (forall pt, In pt cd ->
          (1 <= ChartPoint.orders pt)%nat /\
          ChartPoint.orders pt
          = List.length
              (orders_on (ChartPoint.date pt) (selection st start None))) /\
       (selection st start None = [] -> cd = [])) /\
  (forall u start,
     Request.user req = Some u ->
     Caller.role u = Some "admin" ->
     fault_free st ->
     getDateRange clk (Some (dateRange_of req)) = Some start ->
     selection st start None = [] ->
     run (ordersChart clk req) st
     = (Ok (Response.mk 200 (ChartBody [])),
        [AggregateDaily (since (Some start))])).
Proof.
  split; [|intros u start; apply ordersChart_empty_run].
  intros resp log cd Hrun Hbody.
  destruct (ordersChart_body_inv clk st req resp log cd Hrun Hbody)
    as (start & rows & Hstart & Hg & ->).
  exists start. split; [exact Hstart|].
  pose proof (group_daily_spec _ _ Hg) as Hinv.
  pose proof (sort_perm Mongo.daily_leb rows) as Hperm.
  split; [|split; [|split; [|split; [|split]]]].
  - apply (Sorted_map chart_point
             (fun a b => Mongo.daily_leb a b = true)).
    + intros a b Hab. exact Hab.
    + apply sort_sorted, daily_leb_total.
  - rewrite chart_dates.
    apply (Permutation_NoDup (Permutation_map DailyRow._id Hperm)).
    apply Hinv.
  - intros k. rewrite chart_dates, <- (daily_keys _ rows k Hinv). split.
    + apply Permutation_in, Permutation_sym, Permutation_map, Hperm.
    + apply Permutation_in, Permutation_map, Hperm.
  - rewrite length_map, <- (Permutation_length Hperm).
    apply daily_length. exact Hinv.
  - intros pt Hpt. apply in_map_iff in Hpt. destruct Hpt as (r & <- & Hr).
    apply (Permutation_in _ (Permutation_sym Hperm)) in Hr.
    destruct Hinv as (_ & Hrows & _). rewrite Forall_forall in Hrows.
    destruct (Hrows r Hr) as (Hne & Hc & _).
    cbn [chart_point ChartPoint.orders ChartPoint.date]. split; [|exact Hc].
    rewrite Hc.
    destruct (orders_on (DailyRow._id r) (selection st start None));
      [congruence | simpl; lia].
  - intros Hsel. rewrite Hsel in Hg. injection Hg as <-. reflexivity.
Qed.

Lemma chart_is_daily_series_witness :
  (exists resp log cd,
     run (ordersChart sample_clock (admin_request no_params)) sample_store
     = (Ok resp, log) /\
     Response.body resp = ChartBody cd /\
     map ChartPoint.date cd = ["2023-11-12"; "2023-11-13"; "2023-11-14"] /\
     List.length cd
     = List.length (days_of (selection sample_store 1699395200123 None))) /\
  run (ordersChart sample_clock (admin_request no_params)) empty_store
  = (Ok (Response.mk 200 (ChartBody [])),
     [AggregateDaily (since (Some 1699395200123))]).
Proof.
  destruct (chart_is_daily_series sample_clock sample_store
              (admin_request no_params)) as [Hchart _].
  destruct (chart_is_daily_series sample_clock empty_store
              (admin_request no_params)) as [_ Hempty].
  split.
  - eassert (Hrun : run (ordersChart sample_clock (admin_request no_params))
                        sample_store = (Ok _, _))
      by (vm_compute; reflexivity).
    eexists _, _, _. split; [exact Hrun|].
    split; [reflexivity|]. split; [reflexivity|].
    destruct (Hchart _ _ _ Hrun eq_refl)
      as (start & Hstart & _ & _ & _ & Hlen & _).
    vm_compute in Hstart. injection Hstart as <-. exact Hlen.
  - apply (Hempty (Caller.mk (Some "admin"))); try reflexivity.
    intros i q. reflexivity.
Defined.

(** ** Rounding to binary64 *)

Lemma pow2_pos (x : Z) : 0 < 2 ^ Z.max x 0.
Proof. apply Z.pow_pos_nonneg; lia. Qed.

Lemma scaled_den_pos (den e : Z) : 0 < den -> 0 < Binary64.scaled_den den e.
Proof. intros H. unfold Binary64.scaled_den. pose proof (pow2_pos e). nia. Qed.

Lemma scaled_step (num den e : Z) :
  2 * Binary64.scaled_num num (e + 1) * Binary64.scaled_den den e
  = Binary64.scaled_num num e * Binary64.scaled_den den (e + 1).
Proof.
  unfold Binary64.scaled_num, Binary64.scaled_den.
  destruct (Z_lt_le_dec e 0) as [H|H].
  - replace (Z.max (- e) 0) with (Z.max (- (e + 1)) 0 + 1) by lia.
    replace (Z.max (e + 1) 0) with 0 by lia.
    replace (Z.max e 0) with 0 by lia.
    rewrite Z.pow_add_r by lia. change (2 ^ 1) with 2. change (2 ^ 0) with 1.
    ring.
  - replace (Z.max (- (e + 1)) 0) with 0 by lia.
    replace (Z.max (- e) 0) with 0 by lia.
    replace (Z.max (e + 1) 0) with (Z.max e 0 + 1) by lia.
    rewrite Z.pow_add_r by lia. change (2 ^ 1) with 2. change (2 ^ 0) with 1.
    ring.
Qed.

Lemma scaled_base (num den : Z) :
  0 < num -> 0 < den ->
  let e0 := Z.log2 num - Z.log2 den - 53 in
  2 ^ 52 * Binary64.scaled_den den e0 <= Binary64.scaled_num num e0 /\
  Binary64.scaled_num num e0 < 2 ^ 54 * Binary64.scaled_den den e0.
Proof.
  intros Hn Hd e0.
  destruct (Z.log2_spec num Hn) as [Ha1 Ha2].
  destruct (Z.log2_spec den Hd) as [Hb1 Hb2].
  pose proof (Z.log2_nonneg num) as Ha0.
  pose proof (Z.log2_nonneg den) as Hb0.
  rewrite Z.pow_succ_r in Ha2, Hb2 by assumption.
  assert (X : 2 ^ Z.log2 num * 2 ^ Z.max (- e0) 0
              = 2 ^ 53 * (2 ^ Z.log2 den * 2 ^ Z.max e0 0)).
  { rewrite <- !Z.pow_add_r by lia. f_equal. unfold e0. lia. }
  unfold Binary64.scaled_num, Binary64.scaled_den.
  pose proof (pow2_pos e0) as HP. pose proof (pow2_pos (- e0)) as HQ.
  set (P := 2 ^ Z.max e0 0) in *. set (Q := 2 ^ Z.max (- e0) 0) in *.
  set (a := 2 ^ Z.log2 num) in *. set (b := 2 ^ Z.log2 den) in *.
  change (2 ^ 52) with 4503599627370496.
  change (2 ^ 54) with 18014398509481984.
  change (2 ^ 53) with 9007199254740992 in X.
  split.
  - assert (a * Q <= num * Q) by nia.
    assert (den * P <= 2 * b * P - P) by nia.
    nia.
  - assert (num * Q < 2 * a * Q) by nia.
    assert (b * P <= den * P) by nia.
    nia.
Qed.

Lemma exponent_normal (num den : Z) :
  0 < num -> 0 < den ->
  let e0 := Z.log2 num - Z.log2 den - 53 in
  let en := if Binary64.scaled_num num e0 <? 2 ^ 53 * Binary64.scaled_den den e0
            then e0 else e0 + 1 in
  2 ^ 52 * Binary64.scaled_den den en <= Binary64.scaled_num num en /\
  Binary64.scaled_num num en < 2 ^ 53 * Binary64.scaled_den den en.
Proof.
  intros Hn Hd e0 en.
  destruct (scaled_base num den Hn Hd) as [H1 H2]. fold e0 in H1, H2.
  unfold en. destruct (Z.ltb_spec (Binary64.scaled_num num e0)
                                  (2 ^ 53 * Binary64.scaled_den den e0)) as [H|H].
  - split; assumption.
  - pose proof (scaled_step num den e0) as S.
    pose proof (scaled_den_pos den e0 Hd) as B0.
    pose proof (scaled_den_pos den (e0 + 1) Hd) as B1.
    change (2 ^ 52) with 4503599627370496 in *.
    change (2 ^ 54) with 18014398509481984 in *.
    change (2 ^ 53) with 9007199254740992 in *.
    set (A0 := Binary64.scaled_num num e0) in *. set (A1 := Binary64.scaled_num num (e0 + 1)) in *.
    set (D0 := Binary64.scaled_den den e0) in *. set (D1 := Binary64.scaled_den den (e0 + 1)) in *.
    split; nia.
Qed.

Lemma round_half_even_spec (A B : Z) :
  0 < B ->
  let m := Binary64.round_half_even A B in
  2 * Z.abs (m * B - A) <= B /\
  (2 * Z.abs (m * B - A) = B -> Z.even m = true) /\
  (m = A / B \/ (m = A / B + 1 /\ B <= 2 * (A mod B))).
Proof.
  intros HB m. unfold m, Binary64.round_half_even.
  pose proof (Z.div_mod A B ltac:(lia)) as E.
  pose proof (Z.mod_pos_bound A B HB) as R.
  set (q := A / B) in *. set (r := A mod B) in *.
  destruct (Z.compare_spec (2 * r) B) as [C|C|C].
  - destruct (Z.even q) eqn:Ev.
    + repeat split; [nia | auto | auto].
    + repeat split; [nia | | right; split; [reflexivity | lia]].
      intros _. rewrite Z.even_add, Ev. reflexivity.
  - repeat split; [nia | intros X; nia | auto].
  - repeat split; [nia | intros X; nia | right; split; [reflexivity | lia]].
Qed.

(** In the normal range the result of [round] is the binary64 value Binary64.nearest
    to [num / den], in its canonical representation. *)
Lemma round_normal (num den : positive) :
  let e0 := Z.log2 (Z.pos num) - Z.log2 (Z.pos den) - 53 in
  Binary64.emin <= e0 -> e0 + 2 <= Binary64.emax ->
  exists m e, Binary64.round num den = Binary64.Finite m e /\ e0 <= e <= e0 + 2 /\
              Binary64.normalised m e /\ Binary64.nearest (Z.pos num) (Z.pos den) m e.
Proof.
  intros e0 Hlo Hhi.
  assert (Hmin : Binary64.emin = -1074) by reflexivity.
  assert (Hmax : Binary64.emax = 971) by reflexivity.
  pose proof (exponent_normal (Z.pos num) (Z.pos den) eq_refl eq_refl) as N.
  cbv zeta in N. fold e0 in N.
  unfold Binary64.round, Binary64.exponent. fold e0.
  set (en := if Binary64.scaled_num (Z.pos num) e0 <? 2 ^ 53 * Binary64.scaled_den (Z.pos den) e0
             then e0 else e0 + 1) in *.
  assert (Hen : e0 <= en <= e0 + 1) by (unfold en; destruct (_ <? _); lia).
  replace (Z.max en Binary64.emin) with en by lia.
  pose proof (scaled_den_pos (Z.pos den) en eq_refl) as HB.
  destruct (round_half_even_spec (Binary64.scaled_num (Z.pos num) en)
              (Binary64.scaled_den (Z.pos den) en) HB) as (R1 & R2 & R3).
  cbv zeta in R1, R2, R3.
  set (A := Binary64.scaled_num (Z.pos num) en) in *.
  set (B := Binary64.scaled_den (Z.pos den) en) in *.
  set (m := Binary64.round_half_even A B) in *.
  destruct N as [N1 N2].
  assert (Q1 : 2 ^ 52 <= A / B) by (apply Z.div_le_lower_bound; lia).
  assert (Q2 : A / B < 2 ^ 53) by (apply Z.div_lt_upper_bound; lia).
  assert (Hm : 2 ^ 52 <= m <= 2 ^ 53) by lia.
  destruct (Z.eqb_spec m (2 ^ 53)) as [E|E].
  - (* the mantissa overflows into the next binade *)
    change (2 ^ 52) with (Z.pos 4503599627370496).
    cbv iota beta.
    replace (Binary64.emax <? en + 1) with false by (symmetry; apply Z.ltb_ge; lia).
    exists 4503599627370496%positive, (en + 1).
    split; [reflexivity|]. split; [lia|]. split.
    + left. split; [split; [reflexivity | reflexivity] | lia].
    + pose proof (scaled_step (Z.pos num) (Z.pos den) en) as S.
      pose proof (scaled_den_pos (Z.pos den) (en + 1) eq_refl) as HB1.
      fold A B in S.
      set (A1 := Binary64.scaled_num (Z.pos num) (en + 1)) in *.
      set (B1 := Binary64.scaled_den (Z.pos den) (en + 1)) in *.
      unfold Binary64.nearest. cbv zeta.
      fold (Binary64.scaled_den (Z.pos den) (en + 1)).
      fold (Binary64.scaled_num (Z.pos num) (en + 1)).
      fold A1 B1.
      rewrite E in R1.
      change (2 ^ 53) with 9007199254740992 in *.
      change (2 ^ 52) with 4503599627370496 in *.
      assert (K : 4 * Z.abs (4503599627370496 * B1 - A1) <= B1) by nia.
      split; [lia|]. split; [intros X; reflexivity |]. intros _ _. lia.
  - destruct m as [|p|p] eqn:Em; try (change (2 ^ 52) with 4503599627370496 in Hm; lia).
    replace (Binary64.emax <? en) with false by (symmetry; apply Z.ltb_ge; lia).
    exists p, en. split; [reflexivity|]. split; [lia|]. split.
    + left. lia.
    + unfold Binary64.nearest. cbv zeta.
      fold (Binary64.scaled_den (Z.pos den) en).
      fold (Binary64.scaled_num (Z.pos num) en).
      fold A B. split; [exact R1|]. split; [exact R2|].
      intros X _. rewrite X in *.
      change (2 ^ 52) with 4503599627370496 in *.
      pose proof (Z.div_mod A B ltac:(lia)) as D.
      pose proof (Z.mod_pos_bound A B HB) as Rr.
      destruct R3 as [R3|[R3 _]]; nia.
Qed.

(** ** Revenue figures *)

(** *** Reading back what [toFixed] prints *)


(** Nothing is stripped before an ASCII character that is not white
    space. *)
Lemma trim_start_head (c : ascii) (r : string) :
  is_white_space c = false -> (nat_of_ascii c <? 128)%nat = true ->
  trim_start (String c r) = String c r.
Proof.
  intros Hws Hascii. apply Nat.ltb_lt in Hascii.
  cbn [trim_start]. rewrite Hws.
  assert (H2 : forall c2, is_white_space2 c c2 = false).
  { intros c2. unfold is_white_space2.
    destruct (Nat.eqb_spec (nat_of_ascii c) 194); [lia | reflexivity]. }
  assert (H3 : forall c2 c3, is_white_space3 c c2 c3 = false).
  { intros c2 c3. unfold is_white_space3.
    destruct (Nat.eqb_spec (nat_of_ascii c) 225); [lia|].
    destruct (Nat.eqb_spec (nat_of_ascii c) 226); [lia|].
    destruct (Nat.eqb_spec (nat_of_ascii c) 227); [lia|].
    destruct (Nat.eqb_spec (nat_of_ascii c) 239); [lia|].
    reflexivity. }
  destruct r as [|c2 [|c3 r]]; rewrite ?H2, ?H3; reflexivity.
Qed.











Lemma round2_special :
  round2 S754_nan = S754_nan /\
  (forall s, round2 (S754_infinity s) = S754_infinity s) /\
  (forall s, round2 (S754_zero s) = S754_zero false).
Proof. repeat split; intros []; reflexivity. Qed.

(** *** The scenario of three orders *)








(* ================================================================== *)
(** * Part III. Further properties of the handlers *)
(* ================================================================== *)

(** ** Outcomes *)

Ltac conclude_outcome :=
  eexists _, _; split; [reflexivity|];
  first
    [ left; split; [reflexivity|]; split; reflexivity
    | right; left; split; reflexivity
    | right; right; split; [reflexivity|];
      split; [eexists; reflexivity|]; eexists; reflexivity ].

Lemma summary_outcome (clk : Clock) (st : Store) (req : Request.t) :
  exists resp log,
    run (summary clk req) st = (Ok resp, log) /\
    outcome is_summary (plan_summary clk req) resp log.
Proof.
  unfold run, summary, try_catch, bind, req_user_role, outcome, plan_summary.
  fold (dateRange_of req).
  destruct (Request.user req) as [u|]; [|conclude_outcome].
  cbn [ret]. destruct (strict_eq (Caller.role u) "admin"); cbn [negb];
    [|conclude_outcome].
  unfold Order_countDocuments, Order_aggregate_revenue,
    Order_distinct_user_id, Order_aggregate_status, await, server_error, ret.
  cbn [List.length app].
  destruct (fault st 0%nat _); [conclude_outcome|].
  destruct (Mongo.countDocuments st _); [|conclude_outcome].
  destruct (fault st 1%nat _); [conclude_outcome|].
  destruct (Mongo.aggregate_revenue st _); [|conclude_outcome].
  destruct (fault st 2%nat _); [conclude_outcome|].
  destruct (Mongo.distinct_user_id st _); [|conclude_outcome].
  destruct (fault st 3%nat _); [conclude_outcome|].
  destruct (Mongo.aggregate_status st _); conclude_outcome.
Qed.

Lemma ordersChart_outcome (clk : Clock) (st : Store) (req : Request.t) :
  exists resp log,
    run (ordersChart clk req) st = (Ok resp, log) /\
    outcome is_chart (plan_ordersChart clk req) resp log.
Proof.
  unfold run, ordersChart, try_catch, bind, req_user_role, outcome,
    plan_ordersChart.
  fold (dateRange_of req).
  destruct (Request.user req) as [u|]; [|conclude_outcome].
  cbn [ret]. destruct (strict_eq (Caller.role u) "admin"); cbn [negb];
    [|conclude_outcome].
  unfold Order_aggregate_daily, await, server_error, ret.
  cbn [List.length app].
  destruct (fault st 0%nat _); [conclude_outcome|].
  destruct (Mongo.aggregate_daily st _); conclude_outcome.
Qed.

Lemma ordersList_outcome (clk : Clock) (st : Store) (req : Request.t) :
  exists resp log,
    run (ordersList clk req) st = (Ok resp, log) /\
    outcome is_orders (plan_ordersList clk req) resp log.
Proof.
  unfold run, ordersList, try_catch, bind, req_user_role, outcome,
    plan_ordersList.
  fold (page_of req) (limit_of req) (dateRange_of req).
  change (if negb (String.eqb (default_to "all" (Request.status (Request.query req))) "all")
          then Some (default_to "all" (Request.status (Request.query req)))
          else None) with (status_of req).
  fold (skip_of req).
  destruct (Request.user req) as [u|]; [|conclude_outcome].
  cbn [ret]. destruct (strict_eq (Caller.role u) "admin"); cbn [negb];
    [|conclude_outcome].
  unfold Order_find, Order_countDocuments, await, server_error, ret.
  cbn [List.length app].
  destruct (fault st 0%nat _); [conclude_outcome|].
  destruct (Mongo.find_orders st _ _ _); [|conclude_outcome].
  destruct (fault st 1%nat _); [conclude_outcome|].
  destruct (Mongo.countDocuments st _); conclude_outcome.
Qed.

(** X1.  Whatever the request and the store, each handler answers with
    status 200, 403 or 500 and nothing else: 200 with its data after all
    the queries of its plan, 403 with the fixed refusal before any query,
    or 500 with the error body after a part of the plan.  So [summary]
    sends four queries at most, [ordersChart] one and [ordersList] two, in
    a fixed order and with one date bound for the whole request. *)
Theorem handlers_outcomes (clk : Clock) (st : Store) (req : Request.t) :
  (exists resp log,
     run (summary clk req) st = (Ok resp, log) /\
     outcome is_summary (plan_summary clk req) resp log) /\
  (exists resp log,
     run (ordersChart clk req) st = (Ok resp, log) /\
     outcome is_chart (plan_ordersChart clk req) resp log) /\
  (exists resp log,
     run (ordersList clk req) st = (Ok resp, log) /\
     outcome is_orders (plan_ordersList clk req) resp log).
Proof.
  split; [apply summary_outcome|].
  split; [apply ordersChart_outcome | apply ordersList_outcome].
Qed.

(** ** Parameters *)

(** X2.  An absent parameter is the same as its default written out:
    [page=1], [limit=10], [status=all] and [dateRange=7days].  A request
    and the request completed in this way get the same response from each
    handler, after the same queries. *)
Theorem defaults_written_out (clk : Clock) (st : Store) (req : Request.t) :
  run (summary clk (with_defaults req)) st = run (summary clk req) st /\
  run (ordersChart clk (with_defaults req)) st = run (ordersChart clk req) st /\
  run (ordersList clk (with_defaults req)) st = run (ordersList clk req) st.
Proof.
  destruct req as [u [p l s d]].
  repeat split; destruct d as [d|]; try reflexivity;
    destruct p as [p|], l as [l|], s as [s|]; reflexivity.
Qed.

(** X3.  [summary] and [ordersChart] read the caller and [dateRange] only:
    two requests that agree on them get the same response, whatever their
    [page], [limit] and [status]. *)
Theorem reports_ignore_paging
    (clk : Clock) (st : Store) (req req' : Request.t) :
  Request.user req = Request.user req' ->
  Request.dateRange (Request.query req)
  = Request.dateRange (Request.query req') ->
  run (summary clk req) st = run (summary clk req') st /\
  run (ordersChart clk req) st = run (ordersChart clk req') st.
Proof.
  intros Hu Hd. unfold run, summary, ordersChart, try_catch, bind,
    req_user_role.
  rewrite Hu, Hd. split; reflexivity.
Qed.

Lemma reports_ignore_paging_witness :
  run (summary sample_clock (admin_request (paging "7" "3"))) sample_store
  = run (summary sample_clock (admin_request no_params)) sample_store /\
  run (ordersChart sample_clock (admin_request (paging "7" "3"))) sample_store
  = run (ordersChart sample_clock (admin_request no_params)) sample_store.
Proof.
  apply (reports_ignore_paging sample_clock sample_store
           (admin_request (paging "7" "3")) (admin_request no_params));
    reflexivity.
Defined.

(** ** More on the summary *)

Lemma nodup_length_le {A : Type} (dec : forall x y : A, {x = y} + {x <> y})
    (l : list A) :
  (List.length (nodup dec l) <= List.length l)%nat.
Proof.
  induction l as [|x l IH]; simpl; [lia|].
  destruct (in_dec dec x l); simpl; lia.
Qed.

Lemma nodup_nil_iff {A : Type} (dec : forall x y : A, {x = y} + {x <> y})
    (l : list A) :
  nodup dec l = [] <-> l = [].
Proof.
  split; [|intros ->; reflexivity].
  destruct l as [|x l]; [reflexivity|]. intros H.
  assert (Hin : In x (nodup dec (x :: l))) by (apply nodup_In; left; reflexivity).
  rewrite H in Hin. destruct Hin.
Qed.

(** X4.  In every summary, [activeUsers] is the number of distinct users
    among the matching orders: it is at most [totalOrders], and it is 0
    exactly when [totalOrders] is 0. *)
Theorem active_users_within_orders
    (clk : Clock) (st : Store) (req : Request.t)
    (resp : Response.t) (log : list DbQuery)
    (s : Summary.t) (os : OrderStatus.t) :
  run (summary clk req) st = (Ok resp, log) ->
  Response.body resp = SummaryBody s os ->
  (Summary.activeUsers s <= Summary.totalOrders s)%nat /\
  (Summary.activeUsers s = 0%nat <-> Summary.totalOrders s = 0%nat).
Proof.
  intros Hrun Hbody.
  destruct (summary_body_inv clk st req resp log s os Hrun Hbody)
    as (start & _ & -> & _).
  cbn [Summary.activeUsers Summary.totalOrders]. split.
  - rewrite <- (length_map Order.user_id (selection st start None)).
    apply nodup_length_le.
  - rewrite !length_zero_iff_nil, nodup_nil_iff.
    split; [apply map_eq_nil | intros ->; reflexivity].
Qed.

Lemma active_users_within_orders_witness :
  exists resp log s os,
    run (summary sample_clock (admin_request no_params)) sample_store
    = (Ok resp, log) /\
    Response.body resp = SummaryBody s os /\
    Summary.activeUsers s = 2%nat /\
    (Summary.activeUsers s <= Summary.totalOrders s)%nat /\
    (Summary.activeUsers s = 0%nat <-> Summary.totalOrders s = 0%nat).
Proof.
  eassert (Hrun : run (summary sample_clock (admin_request no_params))
                      sample_store = (Ok _, _))
    by (vm_compute; reflexivity).
  eexists _, _, _, _.
  split; [exact Hrun|]. split; [reflexivity|]. split; [reflexivity|].
  apply (active_users_within_orders sample_clock sample_store
           (admin_request no_params) _ _ _ _ Hrun eq_refl).
Defined.

Lemma status_partition (l : list Order.t) :
  (List.length (filter (fun o => String.eqb (Order.status o) "Delivered") l)
   + List.length (filter (fun o => String.eqb (Order.status o) "Placed") l)
   + List.length (filter (fun o => String.eqb (Order.status o) "Preparing") l)
   + List.length (filter other_status l)
   = List.length l)%nat.
Proof.
  induction l as [|o l IH]; simpl; [reflexivity|].
  unfold other_status at 1.
  destruct (String.eqb_spec (Order.status o) "Delivered") as [E|_];
    [rewrite E; simpl; lia|].
  destruct (String.eqb_spec (Order.status o) "Placed") as [E|_];
    [rewrite E; simpl; lia|].
  destruct (String.eqb_spec (Order.status o) "Preparing") as [E|_];
    simpl; lia.
Qed.

(** X5.  In every summary the three reported counts and the number of
    matching orders in any other status (a cancelled order, say) add up to
    [totalOrders]: the three counts equal [totalOrders] exactly when every
    matching order is delivered, placed or preparing. *)
Theorem status_counts_account_for_orders
    (clk : Clock) (st : Store) (req : Request.t)
    (resp : Response.t) (log : list DbQuery)
    (s : Summary.t) (os : OrderStatus.t) :
  run (summary clk req) st = (Ok resp, log) ->
  Response.body resp = SummaryBody s os ->
  exists start,
    getDateRange clk (Some (dateRange_of req)) = Some start /\
    (OrderStatus.completed os + OrderStatus.placed os
     + OrderStatus.preparing os
     + List.length (filter other_status (selection st start None))
     = Summary.totalOrders s)%nat /\
    ((OrderStatus.completed os + OrderStatus.placed os
      + OrderStatus.preparing os = Summary.totalOrders s)%nat <->
     forall o, In o (selection st start None) -> other_status o = false).
Proof.
  intros Hrun Hbody.
  destruct (summary_body_inv clk st req resp log s os Hrun Hbody)
    as (start & Hstart & -> & ->).
  exists start. split; [exact Hstart|].
  cbn [OrderStatus.completed OrderStatus.placed OrderStatus.preparing
       Summary.totalOrders].
  rewrite !count_of_group_status.
  pose proof (status_partition (selection st start None)) as Hsum.
  split; [exact Hsum|].
  assert (Hother : List.length (filter other_status (selection st start None))
                   = 0%nat <->
                   forall o, In o (selection st start None) ->
                             other_status o = false).
  { rewrite length_zero_iff_nil. split.
    - intros Hnil o Ho. destruct (other_status o) eqn:E; [|reflexivity].
      assert (Hin : In o (filter other_status (selection st start None)))
        by (apply filter_In; split; assumption).
      rewrite Hnil in Hin. destruct Hin.
    - intros Hall.
      destruct (filter other_status (selection st start None)) as [|o l] eqn:E;
        [reflexivity|].
      assert (Hin : In o (filter other_status (selection st start None)))
        by (rewrite E; left; reflexivity).
      apply filter_In in Hin. destruct Hin as [Hin Ho].
      rewrite (Hall o Hin) in Ho. discriminate. }
  rewrite <- Hother. lia.
Qed.

Lemma status_counts_account_for_orders_witness :
  exists resp log s os,
    run (summary sample_clock (admin_request no_params)) sample_store
    = (Ok resp, log) /\
    Response.body resp = SummaryBody s os /\
    (OrderStatus.completed os + OrderStatus.placed os
     + OrderStatus.preparing os = Summary.totalOrders s)%nat.
Proof.
  eassert (Hrun : run (summary sample_clock (admin_request no_params))
                      sample_store = (Ok _, _))
    by (vm_compute; reflexivity).
  eexists _, _, _, _.
  split; [exact Hrun|]. split; [reflexivity|].
  destruct (status_counts_account_for_orders sample_clock sample_store
              (admin_request no_params) _ _ _ _ Hrun eq_refl)
    as (start & Hstart & _ & Hiff).
  vm_compute in Hstart. injection Hstart as <-.
  apply Hiff. intros o Ho. vm_compute in Ho.
  destruct Ho as [<-|[<-|[<-|[]]]]; reflexivity.
Defined.

(** The run of [summary] for an admin caller on a store without faults. *)
Lemma summary_regular_run
    (clk : Clock) (st : Store) (req : Request.t) (u : Caller.t) (start : Z) :
  Request.user req = Some u ->
  Caller.role u = Some "admin" ->
  fault_free st ->
  getDateRange clk (Some (dateRange_of req)) = Some start ->
  run (summary clk req) st
  = (Ok (Response.mk 200
           (SummaryBody
              (Summary.mk
                 (List.length (selection st start None))
                 (round2 (Mongo.sum_totals (selection st start None)))
                 (List.length
                    (nodup Z.eq_dec
                       (map Order.user_id (selection st start None)))))
              (OrderStatus.mk
                 (count_of (Mongo.group_status (selection st start None))
                           "Delivered")
                 0
                 (count_of (Mongo.group_status (selection st start None))
                           "Placed")
                 (count_of (Mongo.group_status (selection st start None))
                           "Preparing")))),
     plan_summary clk req).
Proof.
  intros Hu Hrole Hfree Hstart.
  unfold run, summary, try_catch, bind, req_user_role, plan_summary.
  rewrite Hu. cbn [ret]. rewrite Hrole.
  replace (strict_eq (Some "admin") "admin") with true by reflexivity.
  cbn [negb]. fold (dateRange_of req). rewrite Hstart.
  unfold Order_countDocuments, Order_aggregate_revenue,
    Order_distinct_user_id, Order_aggregate_status, await.
  rewrite !Hfree.
  unfold Mongo.countDocuments, Mongo.aggregate_revenue,
    Mongo.distinct_user_id, Mongo.aggregate_status, Mongo.select, since.
  cbn [Filter.createdAt_gte Filter.status_eq Mongo.map_result].
  rewrite ?Hfree. cbn [Mongo.map_result]. rewrite ?Hfree.
  cbn [Mongo.map_result]. rewrite ?Hfree. cbn [Mongo.map_result].
  fold (selection st start None). rewrite revenue_of_selection.
  reflexivity.
Qed.

(** X6.  For an admin caller, a store without faults and a valid date
    bound, [summary] cannot fail: it answers 200 after its four queries.
    When no order matches, every figure is 0: the revenue falls back to 0
    for the empty aggregation, and no status is found in the breakdown. *)
Theorem summary_succeeds
    (clk : Clock) (st : Store) (req : Request.t) (u : Caller.t) (start : Z) :
  Request.user req = Some u ->
  Caller.role u = Some "admin" ->
  fault_free st ->
  getDateRange clk (Some (dateRange_of req)) = Some start ->
  exists s os,
    run (summary clk req) st
    = (Ok (Response.mk 200 (SummaryBody s os)), plan_summary clk req) /\
    (selection st start None = [] ->
     s = Summary.mk 0 (S754_zero false) 0 /\
     os = OrderStatus.mk 0 0 0 0).
Proof.
  intros Hu Hrole Hfree Hstart.
  eexists _, _. split.
  - apply (summary_regular_run clk st req u start); assumption.
  - intros ->. split; reflexivity.
Qed.

Lemma summary_succeeds_witness :
  exists s os,
    run (summary sample_clock (admin_request no_params)) empty_store
    = (Ok (Response.mk 200 (SummaryBody s os)),
       plan_summary sample_clock (admin_request no_params)) /\
    s = Summary.mk 0 (S754_zero false) 0 /\
    os = OrderStatus.mk 0 0 0 0.
Proof.
  destruct (summary_succeeds sample_clock empty_store
              (admin_request no_params) (Caller.mk (Some "admin"))
              1699395200123)
    as (s & os & Hrun & Hempty).
  - reflexivity.
  - reflexivity.
  - intros i q. reflexivity.
  - reflexivity.
  - exists s, os. split; [exact Hrun|]. apply Hempty. reflexivity.
Defined.

(** ** The chart against the summary *)

Lemma list_sum_perm (l l' : list nat) :
  Permutation l l' -> list_sum l = list_sum l'.
Proof.
  intros Hp. induction Hp; simpl; lia.
Qed.

Lemma add_daily_counts (k : string) (x : double) (rows : list DailyRow.t) :
  list_sum (map DailyRow.count (Mongo.add_daily k x rows))
  = S (list_sum (map DailyRow.count rows)).
Proof.
  induction rows as [|r rows IH]; simpl; [reflexivity|].
  destruct (String.eqb (DailyRow._id r) k); simpl; [lia|].
  rewrite IH. lia.
Qed.

Lemma group_daily_counts (l : list Order.t) (rows rows' : list DailyRow.t) :
  Mongo.group_daily l rows = Ok rows' ->
  list_sum (map DailyRow.count rows')
  = (list_sum (map DailyRow.count rows) + List.length l)%nat.
Proof.
  revert rows. induction l as [|o l IH]; intros rows; simpl.
  - intros [= <-]. lia.
  - destruct (Mongo.dateToString (Order.createdAt o)); [|discriminate].
    intros Hg. rewrite (IH _ Hg), add_daily_counts. lia.
Qed.

(** X7.  For one request, store and clock, the [orders] of the points of
    the chart add up to the [totalOrders] of the summary: every matching
    order is counted on exactly one day. *)
Theorem chart_adds_up_to_summary
    (clk : Clock) (st : Store) (req : Request.t)
    (resp1 resp2 : Response.t) (log1 log2 : list DbQuery)
    (s : Summary.t) (os : OrderStatus.t) (cd : list ChartPoint.t) :
  run (summary clk req) st = (Ok resp1, log1) ->
  Response.body resp1 = SummaryBody s os ->
  run (ordersChart clk req) st = (Ok resp2, log2) ->
  Response.body resp2 = ChartBody cd ->
  list_sum (map ChartPoint.orders cd) = Summary.totalOrders s.
Proof.
  intros Hrun1 Hbody1 Hrun2 Hbody2.
  destruct (summary_body_inv clk st req resp1 log1 s os Hrun1 Hbody1)
    as (start & Hstart & -> & _).
  destruct (ordersChart_body_inv clk st req resp2 log2 cd Hrun2 Hbody2)
    as (start' & rows & Hstart' & Hg & ->).
  assert (start' = start) as -> by congruence.
  cbn [Summary.totalOrders]. rewrite map_map.
  change (fun x => ChartPoint.orders (chart_point x)) with DailyRow.count.
  rewrite <- (list_sum_perm _ _
                (Permutation_map DailyRow.count
                   (sort_perm Mongo.daily_leb rows))).
  rewrite (group_daily_counts _ _ _ Hg). reflexivity.
Qed.

Lemma chart_adds_up_to_summary_witness :
  exists resp1 log1 s os resp2 log2 cd,
    run (summary sample_clock (admin_request no_params)) sample_store
    = (Ok resp1, log1) /\
    Response.body resp1 = SummaryBody s os /\
    run (ordersChart sample_clock (admin_request no_params)) sample_store
    = (Ok resp2, log2) /\
    Response.body resp2 = ChartBody cd /\
    list_sum (map ChartPoint.orders cd) = Summary.totalOrders s.
Proof.
  eassert (Hrun1 : run (summary sample_clock (admin_request no_params))
                       sample_store = (Ok _, _))
    by (vm_compute; reflexivity).
  eassert (Hrun2 : run (ordersChart sample_clock (admin_request no_params))
                       sample_store = (Ok _, _))
    by (vm_compute; reflexivity).
  eexists _, _, _, _, _, _, _.
  split; [exact Hrun1|]. split; [reflexivity|].
  split; [exact Hrun2|]. split; [reflexivity|].
  apply (chart_adds_up_to_summary sample_clock sample_store
           (admin_request no_params) _ _ _ _ _ _ _
           Hrun1 eq_refl Hrun2 eq_refl).
Defined.

(** ** Decimal parameters *)

Lemma parse_digits_acc (d : Decimal.uint) (acc : positive) :
  parse_digits 10 (NilEmpty.string_of_uint d) (Some (Z.pos acc))
  = Some (Z.pos (Pos.of_uint_acc d acc)).
Proof.
  revert acc. induction d; intros acc; simpl NilEmpty.string_of_uint;
    [reflexivity|..];
    unfold parse_digits; fold parse_digits;
    match goal with
    | |- context [digit_value ?c] =>
        let v := eval vm_compute in (digit_value c) in
        change (digit_value c) with v
    end; cbv iota beta;
    match goal with
    | |- context [?a <? 10] =>
        let v := eval vm_compute in (a <? 10) in
        change (a <? 10) with v
    end; cbv iota;
    cbn [Pos.of_uint_acc]; rewrite <- IHd; do 2 f_equal; lia.
Qed.

Lemma parse_digits_zero (d : Decimal.uint) :
  parse_digits 10 (NilEmpty.string_of_uint d) (Some 0)
  = Some (Z.of_N (Pos.of_uint d)).
Proof.
  induction d; simpl NilEmpty.string_of_uint; [reflexivity|..];
    unfold parse_digits; fold parse_digits;
    match goal with
    | |- context [digit_value ?c] =>
        let v := eval vm_compute in (digit_value c) in
        change (digit_value c) with v
    end; cbv iota beta;
    match goal with
    | |- context [?a <? 10] =>
        let v := eval vm_compute in (a <? 10) in
        change (a <? 10) with v
    end; cbv iota;
    match goal with
    | |- context [Some (10 * 0 + ?k)] => change (10 * 0 + k) with k
    end;
    [exact IHd | rewrite parse_digits_acc; reflexivity ..].
Qed.

Lemma parse_digits_start (d : Decimal.uint) :
  d <> Decimal.Nil ->
  parse_digits 10 (NilEmpty.string_of_uint d) None
  = Some (Z.of_N (Pos.of_uint d)).
Proof.
  intros Hd. rewrite <- parse_digits_zero.
  destruct d; [congruence | reflexivity ..].
Qed.

(** An integer of magnitude 2^53 at most is a binary64 value. *)
Lemma of_integer_safe (negative : bool) (p : positive) :
  Z.pos p <= 2 ^ 53 ->
  of_integer negative (Z.pos p)
  = of_Z (if negative then Z.neg p else Z.pos p).
Proof.
  intros Hp. unfold of_integer.
  assert (Hlog : 0 <= Z.log2 (Z.pos p) < 54).
  { split; [apply Z.log2_nonneg|].
    apply Z.log2_lt_pow2; [reflexivity|].
    change (2 ^ 53) with 9007199254740992 in Hp.
    change (2 ^ 54) with 18014398509481984. lia. }
  destruct (round_normal p 1) as (m & e & Hr & He & Hn & Hnear).
  { change (Z.log2 1) with 0. unfold Binary64.emin. lia. }
  { change (Z.log2 1) with 0. unfold Binary64.emax. lia. }
  change (Z.log2 1) with 0 in He. rewrite Hr. unfold of_binary.
  unfold Binary64.nearest in Hnear. cbv zeta in Hnear.
  unfold Binary64.normalised in Hn.
  change (2 ^ 53) with 9007199254740992 in *.
  change (2 ^ 52) with 4503599627370496 in *.
  destruct (Z.leb_spec 0 e) as [He0|He0].
  - assert (Hval : Z.pos m * 2 ^ e = Z.pos p).
    { assert (Hcases : e = 0 \/ e = 1 \/ e = 2) by lia.
      destruct Hnear as (H1 & H2 & H3).
      clear H2.
      destruct Hcases as [-> | [-> | ->]];
        repeat match goal with
               | H : context [Z.max ?a ?b] |- _ =>
                   let v := eval vm_compute in (Z.max a b) in
                   change (Z.max a b) with v in H
               end;
        change (2 ^ 0) with 1 in *; change (2 ^ 1) with 2 in *;
        change (2 ^ 2) with 4 in *; lia. }
    f_equal. destruct negative; [|rewrite Hval; reflexivity].
    change (Z.neg m) with (- Z.pos m). change (Z.neg p) with (- Z.pos p).
    rewrite <- Hval, Z.mul_opp_l. reflexivity.
  - destruct Hnear as (H1 & _ & _).
    replace (Z.max e 0) with 0 in H1 by lia.
    replace (Z.max (- e) 0) with (- e) in H1 by lia.
    change (2 ^ 0) with 1 in H1.
    assert (HQ : 0 < 2 ^ (- e)) by (apply Z.pow_pos_nonneg; lia).
    assert (Hm : Z.pos m = Z.pos p * 2 ^ (- e)) by lia.
    unfold of_Z. f_equal. rewrite <- Qred_inject_Z. apply Qred_complete.
    unfold Qeq, inject_Z. cbn [Qnum Qden].
    rewrite Z2Pos.id by exact HQ.
    destruct negative.
    + change (Z.neg m) with (- Z.pos m). change (Z.neg p) with (- Z.pos p).
      rewrite Hm. ring.
    + rewrite Hm. ring.
Qed.

Lemma parseInt_string_digits (d : Decimal.uint) :
  d <> Decimal.Nil ->
  parseInt_string (NilEmpty.string_of_uint d)
  = of_integer false (Z.of_N (Pos.of_uint d)).
Proof.
  intros Hd.
  pose proof (parse_digits_start d Hd) as Hp.
  unfold parseInt_string.
  remember (Z.of_N (Pos.of_uint d)) as v eqn:Hv. clear Hv.
  destruct d as [|d|d|d|d|d|d|d|d|d|d]; [congruence|..];
    try (cbn [NilEmpty.string_of_uint] in *;
         rewrite trim_start_head by reflexivity; cbv beta iota zeta;
         rewrite Hp; reflexivity).
  destruct d; cbn [NilEmpty.string_of_uint] in *;
    rewrite trim_start_head by reflexivity; cbv beta iota zeta;
    rewrite Hp; reflexivity.
Qed.

Lemma parseInt_string_negative (d : Decimal.uint) :
  d <> Decimal.Nil ->
  parseInt_string (String "-" (NilEmpty.string_of_uint d))
  = of_integer true (Z.of_N (Pos.of_uint d)).
Proof.
  intros Hd.
  pose proof (parse_digits_start d Hd) as Hp.
  unfold parseInt_string.
  remember (Z.of_N (Pos.of_uint d)) as v eqn:Hv. clear Hv.
  rewrite trim_start_head by reflexivity.
  destruct d as [|d|d|d|d|d|d|d|d|d|d]; [congruence|..];
    try (cbn [NilEmpty.string_of_uint] in *; cbv beta iota zeta;
         rewrite Hp; reflexivity).
  destruct d; cbn [NilEmpty.string_of_uint] in *; cbv beta iota zeta;
    rewrite Hp; reflexivity.
Qed.

(** [parseInt] reads the decimal writing of an integer as that integer
    rounded to binary64. *)
Lemma parseInt_decimal (z : Z) :
  parseInt_string (Z_to_string z)
  = match z with
    | Z0 => of_Z 0
    | Z.pos p => of_integer false (Z.pos p)
    | Z.neg p => of_integer true (Z.pos p)
    end.
Proof.
  unfold Z_to_string.
  destruct z as [|p|p].
  - reflexivity.
  - unfold Z.to_int, NilZero.string_of_int, NilZero.string_of_uint.
    pose proof (DecimalPos.Unsigned.to_uint_nonnil p) as Hn.
    pose proof (DecimalPos.Unsigned.of_to p) as Hv.
    destruct (Pos.to_uint p) eqn:E; [congruence|..];
      rewrite parseInt_string_digits by discriminate;
      rewrite Hv; reflexivity.
  - unfold Z.to_int, NilZero.string_of_int, NilZero.string_of_uint.
    pose proof (DecimalPos.Unsigned.to_uint_nonnil p) as Hn.
    pose proof (DecimalPos.Unsigned.of_to p) as Hv.
    destruct (Pos.to_uint p) eqn:E; [congruence|..];
      rewrite parseInt_string_negative by discriminate;
      rewrite Hv; reflexivity.
Qed.

Lemma parseInt_Z_to_string (z : Z) :
  Z.abs z <= 2 ^ 53 -> parseInt_string (Z_to_string z) = of_Z z.
Proof.
  intros Hz. rewrite parseInt_decimal.
  destruct z as [|p|p]; [reflexivity|..]; apply of_integer_safe; exact Hz.
Qed.

(** X8.  [parseInt] rounds what it reads to binary64.  It reads back the
    decimal writing of an integer of magnitude 2^53 at most, so a request
    whose [page] and [limit] are such integers gets them back as
    [currentPage] and [limit], and the [skip] it sends is
    [(page - 1) * limit] when this product is a count within 2^53.
    Beyond, what is read is the nearest binary64 value (9007199254740992
    for 9007199254740993) or [Infinity] (for 10^309), and ["-0"] reads as
    [-0]. *)
Theorem decimal_paging_is_echoed
    (clk : Clock) (st : Store) (u : Caller.t)
    (status dateRange : option string) (p l : Z)
    (resp : Response.t) (log : list DbQuery)
    (os : list PopulatedOrder.t) (pg : Pagination.t) :
  Z.abs p <= 2 ^ 53 -> Z.abs l <= 2 ^ 53 ->
  run (ordersList clk (page_request u status dateRange p l)) st
  = (Ok resp, log) ->
  Response.body resp = OrdersBody os pg ->
  parseInt (PStr (Z_to_string p)) = of_Z p /\
  Pagination.currentPage pg = of_Z p /\
  Pagination.limit pg = of_Z l /\
  (1 <= p -> 0 <= l -> (p - 1) * l <= 2 ^ 53 ->
   exists f, log = [Find f (of_Z ((p - 1) * l)) (of_Z l); CountDocuments f]) /\
  parseInt (PStr "9007199254740993") = of_Z 9007199254740992 /\
  parseInt (PStr (Z_to_string (10 ^ 309))) = Infinity false /\
  parseInt (PStr "-0") = NegZero.
Proof.
  intros Hpb Hlb Hrun Hbody.
  assert (Hp : parseInt (page_of (page_request u status dateRange p l))
               = of_Z p) by (apply parseInt_Z_to_string; exact Hpb).
  assert (Hl : parseInt (limit_of (page_request u status dateRange p l))
               = of_Z l) by (apply parseInt_Z_to_string; exact Hlb).
  destruct (ordersList_body_inv clk st _ resp log os pg Hrun Hbody)
    as (start & _ & _ & -> & _ & ->).
  rewrite Hp, Hl.
  split; [apply parseInt_Z_to_string; exact Hpb|].
  split; [reflexivity|]. split; [reflexivity|].
  split.
  - intros Hp1 Hl0 _. rewrite (skip_of_numeric _ p l Hp Hl Hp1 Hl0).
    eexists. reflexivity.
  - repeat split; vm_compute; reflexivity.
Qed.

Lemma decimal_paging_is_echoed_witness :
  exists resp log os pg,
    run (ordersList sample_clock
           (page_request (Caller.mk (Some "admin")) None None 2 2))
        sample_store
    = (Ok resp, log) /\
    Response.body resp = OrdersBody os pg /\
    Pagination.currentPage pg = of_Z 2 /\
    Pagination.limit pg = of_Z 2.
Proof.
  eassert (Hrun : run (ordersList sample_clock
                         (page_request (Caller.mk (Some "admin"))
                                       None None 2 2))
                      sample_store = (Ok _, _))
    by (vm_compute; reflexivity).
  assert (Hb : Z.abs 2 <= 2 ^ 53) by (vm_compute; discriminate).
  eexists _, _, _, _.
  split; [exact Hrun|]. split; [reflexivity|].
  destruct (decimal_paging_is_echoed sample_clock sample_store
              (Caller.mk (Some "admin")) None None 2 2 _ _ _ _
              Hb Hb Hrun eq_refl) as (_ & Hp & Hl & _).
  split; assumption.
Defined.

(** ** A limit of zero *)

(** X16.  In a response of [ordersList] with orders, when [limit] parses
    to a zero: [totalPages] is [NaN] when no order matches; otherwise it
    is [Infinity] for the limit [0] and [-Infinity] for the limit [-0],
    the sign of the zero deciding.  The envelope echoes the zero as
    [limit]. *)
Theorem zero_limit_pages
    (clk : Clock) (st : Store) (req : Request.t)
    (resp : Response.t) (log : list DbQuery)
    (os : list PopulatedOrder.t) (pg : Pagination.t) :
  run (ordersList clk req) st = (Ok resp, log) ->
  Response.body resp = OrdersBody os pg ->
  Pagination.limit pg = parseInt (limit_of req) /\
  (parseInt (limit_of req) = of_Z 0 ->
   Pagination.totalPages pg
   = if (Pagination.totalOrders pg =? 0)%nat then NaN else Infinity false) /\
  (parseInt (limit_of req) = NegZero ->
   Pagination.totalPages pg
   = if (Pagination.totalOrders pg =? 0)%nat then NaN else Infinity true) /\
  parseInt (PStr "0") = of_Z 0 /\
  parseInt (PStr "-0") = NegZero.
Proof.
  intros Hrun Hbody.
  destruct (ordersList_body_inv clk st req resp log os pg Hrun Hbody)
    as (start & _ & _ & -> & _).
  cbn [Pagination.totalPages Pagination.totalOrders Pagination.limit].
  split; [reflexivity|].
  split; [|split; [|split; reflexivity]]; intros ->;
    destruct (List.length (selection st start (status_of req)));
    reflexivity.
Qed.

Lemma zero_limit_pages_witness :
  exists resp log os pg,
    run (ordersList sample_clock (admin_request (paging "1" "0"))) sample_store
    = (Ok resp, log) /\
    Response.body resp = OrdersBody os pg /\
    Pagination.totalOrders pg = 3%nat /\
    Pagination.totalPages pg = Infinity false.
Proof.
  eassert (Hrun : run (ordersList sample_clock (admin_request (paging "1" "0")))
                      sample_store = (Ok _, _))
    by (vm_compute; reflexivity).
  eexists _, _, _, _.
  split; [exact Hrun|]. split; [reflexivity|]. split; [reflexivity|].
  destruct (zero_limit_pages sample_clock sample_store
              (admin_request (paging "1" "0")) _ _ _ _ Hrun eq_refl)
    as (_ & Hzero & _).
  apply Hzero. reflexivity.
Defined.

(** ** The contents of a page *)








(** ** All the pages *)

Lemma firstn_plus {A : Type} (a b : nat) (l : list A) :
  firstn (a + b) l = (firstn a l ++ firstn b (skipn a l))%list.
Proof.
  revert l. induction a as [|a IH]; intros l; [reflexivity|].
  destruct l as [|x l]; simpl.
  - rewrite firstn_nil. reflexivity.
  - rewrite IH. reflexivity.
Qed.

(** The slices of the pages 1 to [k] are the first [k * l] records. *)
Lemma page_slices_concat {A : Type} (l : Z) (records : list A) (k : nat) :
  1 <= l ->
  List.concat (map (fun i => page_slice (Z.of_nat i) l records) (seq 1 k))
  = firstn (k * Z.to_nat l) records.
Proof.
  intros Hl. induction k as [|k IH]; [reflexivity|].
  rewrite seq_S, map_app, concat_app, IH. cbn [map List.concat].
  rewrite app_nil_r. unfold page_slice.
  assert (E : Z.to_nat ((Z.of_nat (1 + k) - 1) * l) = (k * Z.to_nat l)%nat)
    by nia.
  rewrite E.
  replace (S k * Z.to_nat l)%nat with (k * Z.to_nat l + Z.to_nat l)%nat by lia.
  symmetry. apply firstn_plus.
Qed.

(** X10.  For an admin caller, a store without faults whose matching
    orders have timestamps that differ from one order to the other, and
    pages of [l >= 1] records ([l] and the number of matching orders being
    2^52 at most), the orders of the pages 1, 2, ..., [totalPages], put one
    after the other, are the matching orders, newest first, each of them
    once: going through the pages loses no order and repeats none,
    whatever the store does with ties when it answers each page. *)
Theorem pages_cover_the_orders
    (clk : Clock) (st : Store) (u : Caller.t)
    (status dateRange : option string) (start l : Z)
    (ties : nat -> Order.t -> Z) :
  Caller.role u = Some "admin" ->
  fault_free st ->
  getDateRange clk (Some (default_to "7days" dateRange)) = Some start ->
  1 <= l <= 2 ^ 52 ->
  Z.of_nat
    (List.length
       (selection st start (status_of (page_request u status dateRange 1 l))))
  <= 2 ^ 52 ->
  (forall a b,
     In a (selection st start
             (status_of (page_request u status dateRange 1 l))) ->
     In b (selection st start
             (status_of (page_request u status dateRange 1 l))) ->
     Order.createdAt a = Order.createdAt b -> a = b) ->
  List.concat
    (map (fun i =>
            orders_of
              (fst (run (ordersList clk
                           (page_request u status dateRange (Z.of_nat i) l))
                        (with_ties st (ties i)))))
         (seq 1 (Z.to_nat
                   (ceil_div
                      (Z.of_nat
                         (List.length
                            (selection st start
                               (status_of
                                  (page_request u status dateRange 1 l)))))
                      l))))
  = map (Mongo.populate st)
        (ranked st start (status_of (page_request u status dateRange 1 l))).
Proof.
  intros Hrole Hfree Hstart Hl Hn Hdistinct.
  set (sf := status_of (page_request u status dateRange 1 l)) in *.
  set (n := List.length (selection st start sf)) in *.
  change (2 ^ 52) with 4503599627370496 in Hl, Hn.
  assert (Hpage : forall i,
            In i (seq 1 (Z.to_nat (ceil_div (Z.of_nat n) l))) ->
            orders_of
              (fst (run (ordersList clk
                           (page_request u status dateRange (Z.of_nat i) l))
                        (with_ties st (ties i))))
            = map (Mongo.populate st)
                  (page_slice (Z.of_nat i) l (ranked st start sf))).
  { intros i Hi. apply in_seq in Hi.
    pose proof (ceil_div_spec (Z.of_nat n) l ltac:(lia)) as Hceil.
    assert (Hi' : Z.of_nat i <= 4503599627370496) by nia.
    rewrite (ordersList_regular_run clk (with_ties st (ties i))
               (page_request u status dateRange (Z.of_nat i) l) u start
               (Z.of_nat i) l);
      try assumption; try reflexivity; try lia.
    - cbn [orders_of fst Response.body].
      change (status_of (page_request u status dateRange (Z.of_nat i) l))
        with sf.
      rewrite (ranked_ties st (ties i) start sf Hdistinct). reflexivity.
    - apply parseInt_Z_to_string.
      change (2 ^ 53) with 9007199254740992. lia.
    - apply parseInt_Z_to_string.
      change (2 ^ 53) with 9007199254740992. lia. }
  rewrite (map_ext_in _ _ _ Hpage).
  rewrite <- (map_map (fun i => page_slice (Z.of_nat i) l (ranked st start sf))
                      (map (Mongo.populate st))).
  rewrite <- concat_map, page_slices_concat by lia.
  f_equal. apply firstn_all2.
  rewrite <- (Permutation_length (ranked_perm st start sf)). fold n.
  pose proof (ceil_div_spec (Z.of_nat n) l ltac:(lia)) as Hceil. nia.
Qed.

Lemma pages_cover_the_orders_witness :
  map PopulatedOrder._id
    (List.concat
       (map (fun i =>
               orders_of
                 (fst (run (ordersList sample_clock
                              (page_request (Caller.mk (Some "admin"))
                                            None None (Z.of_nat i) 2))
                           (with_ties sample_store
                              (fun o => Z.of_nat i * Order._id o)))))
            (seq 1 2)))
  = [3; 1; 2].
Proof.
  pose proof (pages_cover_the_orders sample_clock sample_store
                (Caller.mk (Some "admin")) None None 1699395200123 2
                (fun i o => Z.of_nat i * Order._id o)) as H.
  assert (Hk : Z.to_nat
                 (ceil_div
                    (Z.of_nat
                       (List.length
                          (selection sample_store 1699395200123
                             (status_of
                                (page_request (Caller.mk (Some "admin"))
                                              None None 1 2)))))
                    2) = 2%nat) by (vm_compute; reflexivity).
  rewrite Hk in H. rewrite H.
  - vm_compute. reflexivity.
  - reflexivity.
  - intros i q. reflexivity.
  - reflexivity.
  - split; vm_compute; discriminate.
  - vm_compute. discriminate.
  - intros a b Ha Hb.
    vm_compute in Ha, Hb.
    destruct Ha as [<-|[<-|[<-|[]]]], Hb as [<-|[<-|[<-|[]]]];
      intros E; try reflexivity; discriminate E.
Defined.

(** ** Nested windows *)

Lemma TimeClip_Some (t a : Z) : TimeClip t = Some a -> a = t.
Proof.
  unfold TimeClip. destruct (Z.abs t >? 8640000000000000); congruence.
Qed.

(** In a zone of fixed offset the window of ["today"] starts within the
    last 24 hours, after the window of ["7days"]. *)
Lemma window_starts (clk : Clock) (offset a b : Z) :
  (forall t isUTC, LocalTZA clk t isUTC = offset) ->
  getDateRange clk (Some "today") = Some a ->
  getDateRange clk (Some "7days") = Some b ->
  b = now clk - 7 * msPerDay /\ now clk - msPerDay < a <= now clk.
Proof.
  intros Hoff Ha Hb.
  rewrite getDateRange_today in Ha. rewrite getDateRange_7days in Hb.
  apply TimeClip_Some in Ha, Hb. subst a b.
  unfold UTC, LocalTime, Day. rewrite !Hoff. unfold msPerDay.
  pose proof (Z.div_mod (now clk + offset) 86400000).
  pose proof (Z.mod_pos_bound (now clk + offset) 86400000). lia.
Qed.

Lemma selection_monotone
    (st : Store) (a b : Z) (status : option string) (o : Order.t) :
  b <= a -> In o (selection st a status) -> In o (selection st b status).
Proof.
  intros Hba Hin. unfold selection in *. apply filter_In in Hin.
  destruct Hin as [Hin Hm]. apply filter_In. split; [exact Hin|].
  unfold Mongo.matches in *. apply andb_prop in Hm. destruct Hm as [Hd Hs].
  rewrite Hs, andb_true_r. lia.
Qed.

Lemma filter_length_monotone {A : Type} (f g : A -> bool) (l : list A) :
  (forall x, f x = true -> g x = true) ->
  (List.length (filter f l) <= List.length (filter g l))%nat.
Proof.
  intros Hfg. induction l as [|x l IH]; simpl; [lia|].
  destruct (f x) eqn:Ef.
  - rewrite (Hfg x Ef). simpl. lia.
  - destruct (g x); simpl; lia.
Qed.

(** X11.  In a zone of fixed offset, the summary of ["today"] never
    reports more orders or more active users than the summary of
    ["7days"] for the same store and instant: the window of today starts
    less than 24 hours before now, inside the window of the last seven
    days. *)
Theorem today_within_seven_days
    (clk : Clock) (st : Store) (offset : Z) (req1 req7 : Request.t)
    (resp1 resp7 : Response.t) (log1 log7 : list DbQuery)
    (s1 s7 : Summary.t) (os1 os7 : OrderStatus.t) :
  (forall t isUTC, LocalTZA clk t isUTC = offset) ->
  dateRange_of req1 = "today" ->
  dateRange_of req7 = "7days" ->
  run (summary clk req1) st = (Ok resp1, log1) ->
  Response.body resp1 = SummaryBody s1 os1 ->
  run (summary clk req7) st = (Ok resp7, log7) ->
  Response.body resp7 = SummaryBody s7 os7 ->
  (Summary.totalOrders s1 <= Summary.totalOrders s7)%nat /\
  (Summary.activeUsers s1 <= Summary.activeUsers s7)%nat.
Proof.
  intros Hoff Hd1 Hd7 Hrun1 Hbody1 Hrun7 Hbody7.
  destruct (summary_body_inv clk st req1 resp1 log1 s1 os1 Hrun1 Hbody1)
    as (a & Ha & -> & _).
  destruct (summary_body_inv clk st req7 resp7 log7 s7 os7 Hrun7 Hbody7)
    as (b & Hb & -> & _).
  rewrite Hd1 in Ha. rewrite Hd7 in Hb.
  destruct (window_starts clk offset a b Hoff Ha Hb) as [-> Hrange].
  assert (Hba : now clk - 7 * msPerDay <= a) by (unfold msPerDay in *; lia).
  cbn [Summary.totalOrders Summary.activeUsers]. split.
  - unfold selection. apply filter_length_monotone.
    intros o Hm. unfold Mongo.matches in *.
    apply andb_prop in Hm. destruct Hm as [Hd _].
    rewrite andb_true_r. lia.
  - apply NoDup_incl_length; [apply NoDup_nodup|].
    intros x Hx. apply nodup_In in Hx. apply nodup_In.
    apply in_map_iff in Hx. destruct Hx as (o & <- & Ho).
    apply in_map. apply (selection_monotone st a _ None o Hba Ho).
Qed.

Lemma today_within_seven_days_witness :
  exists resp1 log1 s1 os1 resp7 log7 s7 os7,
    run (summary sample_clock
           (admin_request (Request.mk_query None None None (Some "today"))))
        sample_store = (Ok resp1, log1) /\
    Response.body resp1 = SummaryBody s1 os1 /\
    run (summary sample_clock
           (admin_request (Request.mk_query None None None (Some "7days"))))
        sample_store = (Ok resp7, log7) /\
    Response.body resp7 = SummaryBody s7 os7 /\
    Summary.totalOrders s1 = 1%nat /\
    Summary.totalOrders s7 = 3%nat /\
    (Summary.totalOrders s1 <= Summary.totalOrders s7)%nat /\
    (Summary.activeUsers s1 <= Summary.activeUsers s7)%nat.
Proof.
  eassert (Hrun1 : run (summary sample_clock
                          (admin_request
                             (Request.mk_query None None None (Some "today"))))
                       sample_store = (Ok _, _))
    by (vm_compute; reflexivity).
  eassert (Hrun7 : run (summary sample_clock
                          (admin_request
                             (Request.mk_query None None None (Some "7days"))))
                       sample_store = (Ok _, _))
    by (vm_compute; reflexivity).
  eexists _, _, _, _, _, _, _, _.
  split; [exact Hrun1|]. split; [reflexivity|].
  split; [exact Hrun7|]. split; [reflexivity|].
  split; [reflexivity|]. split; [reflexivity|].
  apply (today_within_seven_days sample_clock sample_store 0
           (admin_request (Request.mk_query None None None (Some "today")))
           (admin_request (Request.mk_query None None None (Some "7days")))
           _ _ _ _ _ _ _ _ (fun _ _ => eq_refl) eq_refl eq_refl
           Hrun1 eq_refl Hrun7 eq_refl).
Defined.

(** X12.  The window of ["today"] is the same for all the instants of one
    local day: two clocks of the same zone whose instants fall on the same
    local day resolve ["today"] to the same date.  When the offset of the
    zone at that date is the one with which the local midnight is read,
    the date is the local midnight of that day; it is not in a zone whose
    clocks skip that midnight, where it falls at 01:00 local time. *)
Theorem today_is_stable_within_the_day (clk1 clk2 : Clock) (a : Z) :
  (forall t isUTC, LocalTZA clk1 t isUTC = LocalTZA clk2 t isUTC) ->
  Day (LocalTime clk1 (now clk1)) = Day (LocalTime clk2 (now clk2)) ->
  getDateRange clk1 (Some "today") = Some a ->
  getDateRange clk2 (Some "today") = Some a /\
  (LocalTZA clk1 a true
   = LocalTZA clk1 (msPerDay * Day (LocalTime clk1 (now clk1))) false ->
   LocalTime clk1 a = msPerDay * Day (LocalTime clk1 (now clk1)) /\
   Day (LocalTime clk1 a) = Day (LocalTime clk1 (now clk1)) /\
   TimeWithinDay (LocalTime clk1 a) = 0) /\
  (getDateRange (spring_forward_clock 1541318400000) (Some "today")
   = Some 1541300400000 /\
   Day (LocalTime (spring_forward_clock 1541318400000) 1541318400000)
   = Day (LocalTime (spring_forward_clock 1541318400000) 1541300400000) /\
   TimeWithinDay (LocalTime (spring_forward_clock 1541318400000) 1541300400000)
   = msPerHour).
Proof.
  intros Hzone Hday Ha. split; [|split].
  - rewrite <- Ha. rewrite !getDateRange_today. unfold UTC.
    rewrite Hday, Hzone. reflexivity.
  - intros Hoff. rewrite getDateRange_today in Ha.
    apply TimeClip_Some in Ha.
    set (t0 := msPerDay * Day (LocalTime clk1 (now clk1))) in *.
    assert (Hlocal : LocalTime clk1 a = t0).
    { unfold LocalTime. rewrite Hoff. rewrite Ha. unfold UTC. lia. }
    rewrite Hlocal. split; [reflexivity|]. unfold t0, Day, TimeWithinDay.
    split.
    + rewrite Z.mul_comm, Z.div_mul by (unfold msPerDay; lia). reflexivity.
    + rewrite Z.mul_comm. apply Z.mod_mul. unfold msPerDay. lia.
  - repeat split; vm_compute; reflexivity.
Qed.

Lemma today_is_stable_within_the_day_witness :
  getDateRange (utc_clock 1699999999999) (Some "today") = Some 1699920000000 /\
  TimeWithinDay (LocalTime (utc_clock 1700000000123) 1699920000000) = 0.
Proof.
  assert (Ha : getDateRange (utc_clock 1700000000123) (Some "today")
               = Some 1699920000000) by (vm_compute; reflexivity).
  destruct (today_is_stable_within_the_day
              (utc_clock 1700000000123) (utc_clock 1699999999999)
              1699920000000 (fun _ _ => eq_refl) eq_refl Ha)
    as (Hsame & Hmidnight & _).
  split; [exact Hsame|].
  apply Hmidnight. reflexivity.
Defined.

(** ** A status that no order has *)

Lemma sort_nil_inv {A : Type} (leb : A -> A -> bool) (l : list A) :
  l = [] -> sort leb l = [].
Proof. intros ->. reflexivity. Qed.



(** ** The three reports of one store *)

(** X14.  For one store and instant, the [totalOrders] of the list of
    orders without a status filter is the [totalOrders] of the summary of
    the same date range, whatever the page and the limit. *)
Theorem list_total_is_summary_total
    (clk : Clock) (st : Store) (req req' : Request.t)
    (resp resp' : Response.t) (log log' : list DbQuery)
    (s : Summary.t) (os : OrderStatus.t)
    (orders : list PopulatedOrder.t) (pg : Pagination.t) :
  dateRange_of req = dateRange_of req' ->
  status_of req' = None ->
  run (summary clk req) st = (Ok resp, log) ->
  Response.body resp = SummaryBody s os ->
  run (ordersList clk req') st = (Ok resp', log') ->
  Response.body resp' = OrdersBody orders pg ->
  Pagination.totalOrders pg = Summary.totalOrders s.
Proof.
  intros Hd Hs Hrun Hbody Hrun' Hbody'.
  destruct (summary_body_inv clk st req resp log s os Hrun Hbody)
    as (start & Hstart & -> & _).
  destruct (ordersList_body_inv clk st req' resp' log' orders pg Hrun' Hbody')
    as (start' & Hstart' & _ & -> & _).
  rewrite <- Hd in Hstart'. assert (start' = start) as -> by congruence.
  rewrite Hs. reflexivity.
Qed.

Lemma list_total_is_summary_total_witness :
  exists resp log s os resp' log' orders pg,
    run (summary sample_clock (admin_request no_params)) sample_store
    = (Ok resp, log) /\
    Response.body resp = SummaryBody s os /\
    run (ordersList sample_clock (admin_request (paging "2" "1"))) sample_store
    = (Ok resp', log') /\
    Response.body resp' = OrdersBody orders pg /\
    Pagination.totalOrders pg = Summary.totalOrders s.
Proof.
  eassert (Hrun : run (summary sample_clock (admin_request no_params))
                      sample_store = (Ok _, _))
    by (vm_compute; reflexivity).
  eassert (Hrun' : run (ordersList sample_clock
                          (admin_request (paging "2" "1")))
                       sample_store = (Ok _, _))
    by (vm_compute; reflexivity).
  eexists _, _, _, _, _, _, _, _.
  split; [exact Hrun|]. split; [reflexivity|].
  split; [exact Hrun'|]. split; [reflexivity|].
  apply (list_total_is_summary_total sample_clock sample_store
           (admin_request no_params) (admin_request (paging "2" "1"))
           _ _ _ _ _ _ _ _ eq_refl eq_refl Hrun eq_refl Hrun' eq_refl).
Defined.

(** X15.  [summary] and [ordersChart] never read the collection of users:
    their responses are the same for any collection of users, so an order
    counts towards [activeUsers] through its [user_id] even when no user
    has that identifier. *)
Theorem reports_ignore_users
    (clk : Clock) (st : Store) (req : Request.t) (us : list User.t) :
  run (summary clk req) (with_users st us) = run (summary clk req) st /\
  run (ordersChart clk req) (with_users st us) = run (ordersChart clk req) st.
Proof.
  unfold run, summary, ordersChart, try_catch, bind, req_user_role.
  destruct (Request.user req) as [u|]; [|split; reflexivity].
  cbn [ret]. destruct (negb (strict_eq (Caller.role u) "admin"));
    split; reflexivity.
Qed.
